(** * PaddleRS: the segmentation [Config] loader and the detection [CenterNetHead]

    A shallow embedding of
    - [paddlers/models/paddleseg/cvlibs/config.py] (class [Config]) and
    - [paddlers/models/ppdet/modeling/heads/centernet_head.py] (class [CenterNetHead]),
    followed by the properties established about them.

    Python values are embedded as an inductive type, dictionaries as
    insertion-ordered association lists (the order fixes the order in which
    constructors are called), exceptions as an error monad, and the mutable
    parts of the interpreter (constructed objects, the attributes of [self])
    as explicit state. *)

From Stdlib Require Import ZArith QArith Qabs Ascii String List Bool Lia.
From stdpp Require Import base option list strings gmap.

Set Warnings "-register-all".
Local Open Scope string_scope.
Local Open Scope list_scope.

(* ===================================================================== *)
(** * Python values, exceptions and dictionaries                          *)
(* ===================================================================== *)

Module Py.

(** The exception classes the two source files raise, directly or through
    the built-in operations they use. *)
Inductive exn : Type :=
| ValueError
| FileNotFoundError
| RuntimeError
| KeyError
| TypeError
| AttributeError
| IndexError
| AssertionError
| UnboundLocalError.

(** Outcome of running a piece of Python: a value, a raised exception, or
    no outcome within the recursion budget ([Diverge], used only by the
    recursion of [_parse_from_yaml] through the file system). *)
Inductive res (A : Type) : Type :=
| Ok (a : A)
| Raise (e : exn)
| Diverge.
Arguments Ok {A} a.
Arguments Raise {A} e.
Arguments Diverge {A}.

(** Sequencing: the first exception (or divergence) ends the computation.
    Written [x ← m; k] with stdpp's monad notation. *)
Definition bind {A B : Type} (k : A -> res B) (m : res A) : res B :=
  match m with
  | Ok a => k a
  | Raise e => Raise e
  | Diverge => Diverge
  end.

#[export] Instance res_bind : MBind res := @bind.
#[export] Instance res_ret : MRet res := @Ok.

(** Python objects. Scalars and containers are the documents [yaml.load]
    produces; [VObj] is a reference to an object built by a registered
    component, identified by its allocation number. Dictionaries keep
    their insertion order; their keys are strings, as in every
    configuration key the code looks up. A float is given by the rational
    value of its literal. *)
Inductive value : Type :=
| VNone
| VBool (b : bool)
| VInt (n : Z)
| VFloat (q : Q)
| VStr (s : string)
| VList (xs : list value)
| VDict (kvs : list (string * value))
| VObj (id : nat).

Definition dict : Type := list (string * value).

(** [d.get(k)] *)
Fixpoint d_get (k : string) (d : dict) : option value :=
  match d with
  | [] => None
  | (k', v) :: d' => if String.eqb k' k then Some v else d_get k d'
  end.

(** [k in d] *)
Definition d_mem (k : string) (d : dict) : bool :=
  match d_get k d with Some _ => true | None => false end.

(** [d[k] = v]: an existing key keeps its position, a new key goes last. *)
Fixpoint d_set (k : string) (v : value) (d : dict) : dict :=
  match d with
  | [] => [(k, v)]
  | (k', v') :: d' =>
      if String.eqb k' k then (k, v) :: d' else (k', v') :: d_set k v d'
  end.

(** [d.pop(k)] / [del d[k]], as far as the remaining dictionary goes. *)
Fixpoint d_pop (k : string) (d : dict) : dict :=
  match d with
  | [] => []
  | (k', v) :: d' =>
      if String.eqb k' k then d_pop k d' else (k', v) :: d_pop k d'
  end.

Definition d_keys (d : dict) : list string := map fst d.

(** Python truthiness of the built-in values. Whether a constructed object
    is truthy depends on its class; it is looked up in the heap where that
    matters (see [Config.truthy]). *)
Definition truthy_builtin (v : value) : bool :=
  match v with
  | VNone => false
  | VBool b => b
  | VInt n => negb (n =? 0)%Z
  | VFloat q => negb (Qeq_bool q 0)
  | VStr s => negb (String.eqb s "")
  | VList xs => match xs with [] => false | _ => true end
  | VDict d => match d with [] => false | _ => true end
  | VObj _ => true
  end.

(** [v == False] *)
Definition py_eq_False (v : value) : bool :=
  match v with
  | VBool b => negb b
  | VInt n => (n =? 0)%Z
  | VFloat q => Qeq_bool q 0
  | _ => false
  end.

(** [v.copy()]: dictionaries and lists have the method, the other values
    that occur in a configuration do not. *)
Definition py_copy (v : value) : res value :=
  match v with
  | VDict d => Ok (VDict d)
  | VList xs => Ok (VList xs)
  | _ => Raise AttributeError
  end.

(** [isinstance(v, dict)] *)
Definition is_dict (v : value) : bool :=
  match v with VDict _ => true | _ => false end.

Definition is_VStr (s : string) (v : value) : bool :=
  match v with VStr s' => String.eqb s' s | _ => false end.

(** [s.find(sub) >= 0], the test behind [sub in s] on strings. *)
Fixpoint str_contains (sub s : string) : bool :=
  String.prefix sub s
  || match s with
     | EmptyString => false
     | String _ s' => str_contains sub s'
     end.

(** [k in v] for a string [k]. *)
Definition py_in (k : string) (v : value) : res bool :=
  match v with
  | VDict d => Ok (d_mem k d)
  | VList xs => Ok (existsb (is_VStr k) xs)
  | VStr s => Ok (str_contains k s)
  | _ => Raise TypeError
  end.

(** [v[k]] for a string [k]. *)
Definition py_getitem (v : value) (k : string) : res value :=
  match v with
  | VDict d => match d_get k d with Some x => Ok x | None => Raise KeyError end
  | _ => Raise TypeError
  end.

(** [v[k] = x] for a string [k], returning the updated container. *)
Definition py_setitem (v : value) (k : string) (x : value) : res value :=
  match v with
  | VDict d => Ok (VDict (d_set k x d))
  | _ => Raise TypeError
  end.

(** [len(v)] *)
Definition py_len (v : value) : res nat :=
  match v with
  | VList xs => Ok (List.length xs)
  | VDict d => Ok (List.length d)
  | VStr s => Ok (String.length s)
  | _ => Raise TypeError
  end.

(** [s.endswith(suf)] *)
Definition endswith (suf s : string) : bool :=
  (String.length suf <=? String.length s)%nat
  && String.eqb
       (String.substring (String.length s - String.length suf)
          (String.length suf) s)
       suf.

(** [d.get(k, default)] as a method call on an arbitrary value: only
    dictionaries have it. *)
Definition py_get (v : value) (k : string) (dflt : value) : res value :=
  match v with
  | VDict d => Ok (default dflt (d_get k d))
  | _ => Raise AttributeError
  end.

(** The number a value denotes when compared with [==]: [True] is 1 and
    [False] is 0. *)
Definition num_of (v : value) : option Q :=
  match v with
  | VBool b => Some (if b then 1 else 0)%Q
  | VInt n => Some (inject_Z n)
  | VFloat q => Some q
  | _ => None
  end.

(** [a == b]: numbers by value, strings and lists structurally,
    dictionaries as maps (order does not count), constructed objects by
    identity. *)
Fixpoint py_eq (a b : value) {struct a} : bool :=
  match a with
  | VNone => match b with VNone => true | _ => false end
  | VStr s => match b with VStr t => String.eqb s t | _ => false end
  | VObj i => match b with VObj j => Nat.eqb i j | _ => false end
  | VList xs =>
      match b with
      | VList ys =>
          (fix go (xs ys : list value) {struct xs} : bool :=
             match xs, ys with
             | [], [] => true
             | x :: xs', y :: ys' => py_eq x y && go xs' ys'
             | _, _ => false
             end) xs ys
      | _ => false
      end
  | VDict d1 =>
      match b with
      | VDict d2 =>
          Nat.eqb (List.length d1) (List.length d2)
          && (fix go (d : dict) {struct d} : bool :=
                match d with
                | [] => true
                | (k, v) :: d' =>
                    match d_get k d2 with
                    | Some w => py_eq v w
                    | None => false
                    end && go d'
                end) d1
      | _ => false
      end
  | _ =>
      match num_of a, num_of b with
      | Some p, Some q => Qeq_bool p q
      | _, _ => false
      end
  end.

(** [s.split('.')] *)
Fixpoint split_dot (s : string) : list string :=
  match s with
  | EmptyString => [EmptyString]
  | String c s' =>
      let r := split_dot s' in
      if Ascii.eqb c "."%char then EmptyString :: r
      else match r with
           | h :: t => String c h :: t
           | [] => [String c EmptyString]
           end
  end.

(** The integer a value is when it takes part in integer arithmetic. *)
Definition int_of (v : value) : option Z :=
  match v with
  | VBool b => Some (if b then 1 else 0)%Z
  | VInt n => Some n
  | _ => None
  end.

(** [a - b] on numbers: an integer when both are integers, a float
    otherwise. *)
Definition py_sub (a b : value) : res value :=
  match int_of a, int_of b with
  | Some x, Some y => Ok (VInt (x - y))
  | _, _ =>
      match num_of a, num_of b with
      | Some p, Some q => Ok (VFloat (p - q))
      | _, _ => Raise TypeError
      end
  end.

(** [a > b] where one side is a number: the other must be one too. *)
Definition py_gt (a b : value) : res bool :=
  match num_of a, num_of b with
  | Some p, Some q => Ok (negb (Qle_bool p q))
  | _, _ => Raise TypeError
  end.

(** [max(a, b)]: [b] when it is greater, else [a]. *)
Definition py_max (a b : value) : res value :=
  greater ← py_gt b a;
  Ok (if (greater : bool) then b else a).

(** Whether a value can be an element of a set. *)
Definition hashable (v : value) : bool :=
  match v with
  | VList _ | VDict _ => false
  | _ => true
  end.

(** [s.add(x)] on a set, kept as the list of its elements in the order
    in which they came in: an element equal to [x] keeps [x] out. *)
Definition set_add (x : value) (s : list value) : res (list value) :=
  if hashable x
  then Ok (if existsb (py_eq x) s then s else s ++ [x])
  else Raise TypeError.

(** [d.setdefault(k, v)], as far as the dictionary goes. *)
Definition d_setdefault (k : string) (v : value) (d : dict) : dict :=
  if d_mem k d then d else d_set k v d.

End Py.

Export Py.


(* ===================================================================== *)
(** * The environment of the two classes                                  *)
(* ===================================================================== *)

(** The parts of the Python standard library and of the file system that
    [Config] uses: [os.path.dirname], [os.path.join], [ast.literal_eval]
    ([None] where it raises [ValueError] or [SyntaxError]), and the
    documents [yaml.load] reads from the files that exist. *)
Class OsEnv : Type := {
  os_path_dirname : string -> string;
  os_path_join : string -> string -> string;
  literal_eval : string -> option value;
  yaml_files : gmap string value
}.

(** An object built by a registered component: what [bool(obj)] gives and
    the attributes it carries. *)
Record instance : Type := {
  inst_truthy : bool;
  inst_attrs : dict
}.

(** A registered component (a class or a function): called with keyword
    arguments, in a heap of already built objects, it raises or yields a
    new object. *)
Definition component : Type := dict -> list instance -> res instance.

(** Modelled from the spec: the module [paddlers.models.paddleseg.cvlibs.manager]
    is not among the sources. Following the glossary entry "Component
    registry: name-to-constructor mapping used for reflective object
    instantiation", each of its five managers is its [components_dict], a
    finite map from component names to constructors, and [com[name]] is
    the lookup in that map. *)
Class Manager : Type := {
  MODELS : gmap string component;
  BACKBONES : gmap string component;
  DATASETS : gmap string component;
  TRANSFORMS : gmap string component;
  LOSSES : gmap string component
}.

(** The scheduler classes of [paddle.optimizer.lr], by name: what
    [getattr(paddle.optimizer.lr, name)] finds. *)
Class LrModule : Type := {
  lr_classes : gmap string component
}.

(** The class attribute [NUM_CLASSES] of a registered class, where it has
    one: what [hasattr(cls, 'NUM_CLASSES')] tests and [cls.NUM_CLASSES]
    reads. *)
Class ClassAttrs : Type := {
  NUM_CLASSES : component -> option value
}.

(* ===================================================================== *)
(** * config.py                                                           *)
(* ===================================================================== *)

Module Config.

(** ** Merging a configuration over its base *)

Section UpdateLoop.
Variable update_dic : value -> value -> res value.

(** The [for key, val in dic.items()] loop of [_update_dic], with the
    recursive call as a parameter. *)
Fixpoint update_loop (its : dict) (base_dic : value) : res value :=
  match its with
  | [] => Ok base_dic
  | (key, val) :: rest =>
      match val with
      | VDict _ =>
          present ← py_in key base_dic;
          if (present : bool) then
            old ← py_getitem base_dic key;
            new ← update_dic val old;
            base_dic ← py_setitem base_dic key new;
            update_loop rest base_dic
          else
            base_dic ← py_setitem base_dic key val;
            update_loop rest base_dic
      | _ =>
          base_dic ← py_setitem base_dic key val;
          update_loop rest base_dic
      end
  end.

End UpdateLoop.

(** [Config._update_dic(dic, base_dic)] *)
Fixpoint _update_dic (dic base_dic : value) {struct dic} : res value :=
  base_dic ← py_copy base_dic;
  match dic with
  | VDict items =>
      if py_eq_False (default (VBool true) (d_get "_inherited_" items))
      then Ok (VDict (d_pop "_inherited_" items))
      else update_loop _update_dic items base_dic
  | _ => Raise AttributeError
  end.

Section WithOs.
Context `{OsEnv}.

(** [os.path.exists(path)]: the files are the only paths there are. *)
Definition os_path_exists (path : string) : bool :=
  match yaml_files !! path with Some _ => true | None => false end.

(** [Config._parse_from_yaml(path)]; [fuel] bounds the length of the chain
    of [_base_] files that is followed, as the recursion limit of the
    interpreter does: where it is used up, Python raises
    [RecursionError], and the model answers [Diverge]. *)
Fixpoint _parse_from_yaml (fuel : nat) (path : string) : res value :=
  match fuel with
  | O => Diverge
  | S fuel' =>
      match yaml_files !! path with
      | None => Raise FileNotFoundError
      | Some dic =>
          has_base ← py_in "_base_" dic;
          if (has_base : bool) then
            let cfg_dir := os_path_dirname path in
            match dic with
            | VDict d =>
                match d_get "_base_" d with
                | Some (VStr base_path) =>
                    let dic := VDict (d_pop "_base_" d) in
                    let base_path := os_path_join cfg_dir base_path in
                    base_dic ← _parse_from_yaml fuel' base_path;
                    _update_dic dic base_dic
                | Some _ => Raise TypeError
                | None => Raise KeyError
                end
            | VList _ => Raise TypeError
            | _ => Raise AttributeError
            end
          else Ok dic
      end
  end.

(** ** [update] *)

(** The body of the [--opts] loop after [key.split('.')]:
    [for subkey in key_list[:-1]: dic.setdefault(subkey, dict()); dic = dic[subkey]]
    and then [dic[key_list[-1]] = value], as the effect on the outermost
    dictionary. *)
Fixpoint set_path (subkeys : list string) (last_key : string) (v : value)
    (dic : value) : res value :=
  match subkeys with
  | [] => py_setitem dic last_key v
  | subkey :: rest =>
      match dic with
      | VDict d =>
          let d := if d_mem subkey d then d else d_set subkey (VDict []) d in
          sub ← py_getitem (VDict d) subkey;
          sub ← set_path rest last_key v sub;
          Ok (VDict (d_set subkey sub d))
      | _ => Raise AttributeError
      end
  end.

(** The [for key, value in zip(opts[0::2], opts[1::2])] loop. *)
Fixpoint opts_loop (opts : list value) (dic : value) : res value :=
  match opts with
  | key :: v :: rest =>
      let v := match v with
               | VStr s => default v (literal_eval s)
               | _ => v
               end in
      match key with
      | VStr key =>
          let key_list := split_dot key in
          dic ← set_path (removelast key_list) (List.last key_list "") v dic;
          opts_loop rest dic
      | _ => Raise AttributeError
      end
  | _ => Ok dic
  end.

(** [Config.update(learning_rate, batch_size, iters, opts)] as a function
    of [self.dic]. The dictionary left behind by a raised exception is not
    tracked: [__init__], the caller, gives up the object then. *)
Definition update (learning_rate batch_size iters : value)
    (opts : option (list value)) (dic : value) : res value :=
  dic ← (if truthy_builtin learning_rate then
           has ← py_in "lr_scheduler" dic;
           if (has : bool) then
             sub ← py_getitem dic "lr_scheduler";
             sub ← py_setitem sub "learning_rate" learning_rate;
             py_setitem dic "lr_scheduler" sub
           else
             sub ← py_getitem dic "learning_rate";
             sub ← py_setitem sub "value" learning_rate;
             py_setitem dic "learning_rate" sub
         else Ok dic);
  dic ← (if truthy_builtin batch_size
         then py_setitem dic "batch_size" batch_size else Ok dic);
  dic ← (if truthy_builtin iters
         then py_setitem dic "iters" iters else Ok dic);
  match opts with
  | None => Ok dic
  | Some opts =>
      if negb (Nat.eqb (List.length opts mod 2) 0)
         || Nat.eqb (List.length opts) 0
      then Raise ValueError
      else opts_loop opts dic
  end.

(** ** The object and its constructor *)

(** The attributes of a [Config] object. [_distill_losses] exists only
    once [distill_loss] has been read. *)
Record config : Type := {
  dic : value;
  _model : value;
  _losses : value;
  _distill_losses : option value
}.

(** [self.dic.get(name, {}).copy()], the body of [train_dataset_config]
    and [val_dataset_config]. *)
Definition dataset_config (name : string) (dic : value) : res value :=
  c ← py_get dic name (VDict []);
  py_copy c.

Definition train_dataset_config : value -> res value :=
  dataset_config "train_dataset".

Definition val_dataset_config : value -> res value :=
  dataset_config "val_dataset".

(** [Config.__init__(path, learning_rate, batch_size, iters, opts)]: the
    new object, or the exception that prevents it. *)
Definition __init__ (fuel : nat) (path : string)
    (learning_rate batch_size iters : value) (opts : option (list value))
    : res config :=
  if negb (truthy_builtin (VStr path)) then Raise ValueError
  else if negb (os_path_exists path) then Raise FileNotFoundError
  else
    let _model := VNone in
    let _losses := VNone in
    dic ← (if endswith "yml" path || endswith "yaml" path
           then _parse_from_yaml fuel path
           else Raise RuntimeError);
    dic ← update learning_rate batch_size iters opts dic;
    model_cfg ← py_get dic "model" VNone;
    match model_cfg with
    | VNone => Raise RuntimeError
    | _ =>
        train ← train_dataset_config dic;
        if negb (truthy_builtin train) then
          val ← val_dataset_config dic;
          if negb (truthy_builtin val) then Raise ValueError
          else Ok {| dic := dic; _model := _model; _losses := _losses;
                     _distill_losses := None |}
        else Ok {| dic := dic; _model := _model; _losses := _losses;
                   _distill_losses := None |}
    end.

End WithOs.

(** ** Building objects from the registry *)

(** What exists besides the [Config] object: the objects built so far, an
    object's number being its position in [heap], and the constructor
    calls made so far, each with the [type] it was looked up under and the
    keyword arguments it received. *)
Record world : Type := {
  heap : list instance;
  calls : list (value * dict)
}.

Record state : Type := {
  self : config;
  env : world
}.

(** A method of [Config]: it reads and updates the state and returns or
    raises. What it did to the state before raising stays done. *)
Definition M (A : Type) : Type := state -> res A * state.

#[export] Instance M_ret : MRet M := fun A a st => (Ok a, st).

#[export] Instance M_bind : MBind M := fun A B k m st =>
  match m st with
  | (Ok a, st') => k a st'
  | (Raise e, st') => (Raise e, st')
  | (Diverge, st') => (Diverge, st')
  end.

Definition lift {A : Type} (r : res A) : M A := fun st => (r, st).

Definition raise {A : Type} (e : exn) : M A := lift (Raise e).

Definition get_self : M config := fun st => (Ok (self st), st).

Definition set_self (c : config) : M unit :=
  fun st => (Ok tt, {| self := c; env := env st |}).

Definition set_dic (d : value) (c : config) : config :=
  {| dic := d; _model := _model c; _losses := _losses c;
     _distill_losses := _distill_losses c |}.

Definition set_model (m : value) (c : config) : config :=
  {| dic := dic c; _model := m; _losses := _losses c;
     _distill_losses := _distill_losses c |}.

Definition set_losses (l : value) (c : config) : config :=
  {| dic := dic c; _model := _model c; _losses := l;
     _distill_losses := _distill_losses c |}.

Definition set_distill_losses (l : value) (c : config) : config :=
  {| dic := dic c; _model := _model c; _losses := _losses c;
     _distill_losses := Some l |}.

(** [bool(v)]: a constructed object answers for itself. *)
Definition truthy (h : list instance) (v : value) : bool :=
  match v with
  | VObj id => match h !! id with Some i => inst_truthy i | None => true end
  | _ => truthy_builtin v
  end.

(** [v.name] for an attribute of a constructed object; the built-in
    values have none of the attributes the code asks for. *)
Definition py_getattr (v : value) (name : string) : M value := fun st =>
  match v with
  | VObj id =>
      match heap (env st) !! id with
      | Some i =>
          match d_get name (inst_attrs i) with
          | Some x => (Ok x, st)
          | None => (Raise AttributeError, st)
          end
      | None => (Raise AttributeError, st)
      end
  | _ => (Raise AttributeError, st)
  end.

(** The call of [component] with the keyword arguments [params]: the call
    is recorded; a constructor that returns adds its object to the heap. *)
Definition call (type : value) (c : component) (params : dict) : M value :=
  fun st =>
    let w := {| heap := heap (env st);
                calls := calls (env st) ++ [(type, params)] |} in
    match c params (heap w) with
    | Ok inst =>
        (Ok (VObj (List.length (heap w))),
         {| self := self st;
            env := {| heap := heap w ++ [inst]; calls := calls w |} |})
    | Raise e => (Raise e, {| self := self st; env := w |})
    | Diverge => (Diverge, {| self := self st; env := w |})
    end.

(** [Config._is_meta_type(item)] *)
Definition _is_meta_type (item : value) : bool :=
  match item with
  | VDict d => d_mem "type" d
  | _ => false
  end.

Section WithManager.
Context `{Manager}.

(** The [for com in com_list: ... else: raise] loop of [_load_component]. *)
Fixpoint find_component (com_name : string)
    (com_list : list (gmap string component)) : res component :=
  match com_list with
  | [] => Raise RuntimeError
  | com :: rest =>
      match com !! com_name with
      | Some c => Ok c
      | None => find_component com_name rest
      end
  end.

(** [Config._load_component(com_name)]. A name that is no string is in no
    registry; one that is not hashable cannot even be looked up. *)
Definition _load_component (com_name : value) : res component :=
  let com_list := [MODELS; BACKBONES; DATASETS; TRANSFORMS; LOSSES] in
  match com_name with
  | VStr name => find_component name com_list
  | VList _ | VDict _ => Raise TypeError
  | _ => Raise RuntimeError
  end.

Section LoadLoops.
Variable load_object : value -> M value.

(** [[self._load_object(item) if self._is_meta_type(item) else item
      for item in val]] *)
Fixpoint load_list (val : list value) : M (list value) :=
  match val with
  | [] => mret []
  | item :: val' =>
      x ← (if _is_meta_type item then load_object item else mret item);
      xs ← load_list val';
      mret (x :: xs)
  end.

(** The [for key, val in cfg.items()] loop of [_load_object]. It runs over
    the entries of the caller's dictionary and passes over ["type"], which
    is what iterating over the copy after [cfg.pop('type')] does (see
    [load_params_pop]). *)
Fixpoint load_params (its : dict) (params : dict) : M dict :=
  match its with
  | [] => mret params
  | (key, val) :: rest =>
      if String.eqb key "type" then load_params rest params
      else if _is_meta_type val then
        o ← load_object val;
        load_params rest (d_set key o params)
      else
        match val with
        | VList xs =>
            l ← load_list xs;
            load_params rest (d_set key (VList l) params)
        | _ => load_params rest (d_set key val params)
        end
  end.

End LoadLoops.

(** [Config._load_object(cfg)] *)
Fixpoint _load_object (cfg : value) {struct cfg} : M value :=
  match cfg with
  | VDict d =>
      if negb (d_mem "type" d) then raise RuntimeError
      else
        type ← lift (py_getitem cfg "type");
        component ← lift (_load_component type);
        params ← load_params _load_object d [];
        call type component params
  | VList xs =>
      if existsb (is_VStr "type") xs then raise TypeError
      else raise RuntimeError
  | _ => raise AttributeError
  end.

(** ** The lazily built properties *)

(** [Config.model] *)
Definition model : M value :=
  c ← get_self;
  model_cfg ← lift (m ← py_get (dic c) "model" VNone; py_copy m);
  built ← (fun st => (Ok (truthy (heap (env st)) (_model c)), st));
  (if negb built then
     o ← _load_object model_cfg;
     c ← get_self;
     set_self (set_model o c)
   else mret tt);;
  c ← get_self;
  mret (_model c).

(** [Config.train_dataset] *)
Definition train_dataset : M value :=
  c ← get_self;
  _train_dataset ← lift (train_dataset_config (dic c));
  if negb (truthy_builtin _train_dataset) then mret VNone
  else _load_object _train_dataset.

(** [v * n] for a sequence [v]. *)
Definition py_repeat (v : value) (n : nat) : res value :=
  match v with
  | VList xs => Ok (VList (concat (replicate n xs)))
  | VStr s => Ok (VStr (String.concat "" (replicate n s)))
  | _ => Raise TypeError
  end.

(** The items [for item in v] runs over. *)
Definition py_iter (v : value) : res (list value) :=
  match v with
  | VList xs => Ok xs
  | VDict d => Ok (VStr <$> d_keys d)
  | VStr s => Ok ((fun a => VStr (String a EmptyString)) <$> list_ascii_of_string s)
  | _ => Raise TypeError
  end.

(** [item['ignore_index'] = ...] writes into the dictionary that sits at
    [self.dic[loss_name]['types'][j]]: [args] is a shallow copy, its items
    are the configuration's own. *)
Definition store_item (loss_name : string) (j : nat) (item : value)
    : M unit :=
  c ← get_self;
  match dic c with
  | VDict d =>
      match d_get loss_name d with
      | Some (VDict l) =>
          match d_get "types" l with
          | Some (VList xs) =>
              let l := d_set "types" (VList (<[j:=item]> xs)) l in
              set_self (set_dic (VDict (d_set loss_name (VDict l) d)) c)
          | _ => mret tt
          end
      | _ => mret tt
      end
  | _ => mret tt
  end.

(** The part of the loop body of [_prepare_loss] that runs when
    [item['type'] != 'MixedLoss']; it returns the item as it leaves it. *)
Definition set_ignore_index (item : value) : M value :=
  has ← lift (py_in "ignore_index" item);
  (if (has : bool) then
     mine ← lift (py_getitem item "ignore_index");
     ds ← train_dataset;
     theirs ← py_getattr ds "ignore_index";
     if py_eq mine theirs then mret tt
     else
       (* the message is formatted before the assertion fails *)
       _ ← lift (py_getitem item "ignore_index");
       ds ← train_dataset;
       _ ← py_getattr ds "ignore_index";
       raise AssertionError
   else mret tt);;
  ds ← train_dataset;
  ignore_index ← py_getattr ds "ignore_index";
  lift (py_setitem item "ignore_index" ignore_index).

(** The [for item in args['types']] loop of [_prepare_loss]. When the
    single type was replicated ([shared]), every entry of the list is one
    and the same dictionary, so an iteration finds it as the previous one
    left it ([prev]). *)
Fixpoint types_loop (loss_name : string) (shared : bool) (i : nat)
    (items : list value) (prev : option value) : M (list value) :=
  match items with
  | [] => mret []
  | item :: rest =>
      let item := if shared then default item prev else item in
      type ← lift (py_getitem item "type");
      item ← (if negb (py_eq type (VStr "MixedLoss")) then
                item ← set_ignore_index item;
                store_item loss_name (if shared then 0 else i) item;;
                mret item
              else mret item);
      o ← _load_object item;
      os ← types_loop loss_name shared (S i) rest (Some item);
      mret (o :: os)
  end.

(** The [for key, val in args.items()] loop of [_prepare_loss]. *)
Fixpoint losses_loop (loss_name : string) (shared : bool) (args : value)
    (its : dict) (losses : dict) : M dict :=
  match its with
  | [] => mret losses
  | (key, val) :: rest =>
      if String.eqb key "types" then
        types ← lift (py_getitem args "types");
        items ← lift (py_iter types);
        os ← types_loop loss_name shared 0 items None;
        losses_loop loss_name shared args rest (d_set "types" (VList os) losses)
      else losses_loop loss_name shared args rest (d_set key val losses)
  end.

(** The second half of [_prepare_loss], from [losses = dict()] on: the
    objects are built and the two lengths compared once more. *)
Definition build_losses (loss_name : string) (shared : bool) (args : value)
    : M value :=
  losses ← match args with
           | VDict its => losses_loop loss_name shared args its []
           | _ => raise AttributeError
           end;
  coef ← lift (py_getitem (VDict losses) "coef");
  len_coef ← lift (py_len coef);
  types ← lift (py_getitem (VDict losses) "types");
  len_types ← lift (py_len types);
  if negb (Nat.eqb len_coef len_types) then raise RuntimeError
  else mret (VDict losses).

(** [Config._prepare_loss(loss_name)] *)
Definition _prepare_loss (loss_name : string) : M value :=
  c ← get_self;
  args ← lift (a ← py_get (dic c) loss_name (VDict []); py_copy a);
  has_types ← lift (py_in "types" args);
  has_coef ← (if (has_types : bool) then lift (py_in "coef" args)
              else mret false);
  '(args, shared) ←
    (if has_types && has_coef then
       types ← lift (py_getitem args "types");
       len_types ← lift (py_len types);
       coef ← lift (py_getitem args "coef");
       len_coef ← lift (py_len coef);
       if negb (Nat.eqb len_types len_coef) then
         if Nat.eqb len_types 1 then
           types ← lift (py_repeat types len_coef);
           args ← lift (py_setitem args "types" types);
           mret (args, true)
         else raise ValueError
       else mret (args, false)
     else raise ValueError);
  build_losses loss_name shared args.

(** [Config.loss] *)
Definition loss : M value :=
  c ← get_self;
  (match _losses c with
   | VNone =>
       l ← _prepare_loss "loss";
       c ← get_self;
       set_self (set_losses l c)
   | _ => mret tt
   end);;
  c ← get_self;
  mret (_losses c).

(** [Config.distill_loss] *)
Definition distill_loss : M value :=
  c ← get_self;
  (match _distill_losses c with
   | None =>
       l ← _prepare_loss "distill_loss";
       c ← get_self;
       set_self (set_distill_losses l c)
   | Some _ => mret tt
   end);;
  c ← get_self;
  match _distill_losses c with
  | Some l => mret l
  | None => raise AttributeError
  end.

(** ** The remaining readers of the configuration *)

(** [bool(v)] in the current heap. *)
Definition py_bool (v : value) : M bool :=
  fun st => (Ok (truthy (heap (env st)) v), st).

(** [Config.batch_size] *)
Definition batch_size : M value :=
  c ← get_self;
  lift (py_get (dic c) "batch_size" (VInt 1)).

(** [Config.iters] *)
Definition iters : M value :=
  c ← get_self;
  iters ← lift (py_get (dic c) "iters" VNone);
  given ← py_bool iters;
  if negb given then raise RuntimeError else mret iters.

(** [Config.train_dataset_class] and [Config.val_dataset_class] *)
Definition train_dataset_class : M component :=
  c ← get_self;
  cfg ← lift (train_dataset_config (dic c));
  dataset_type ← lift (py_getitem cfg "type");
  lift (_load_component dataset_type).

Definition val_dataset_class : M component :=
  c ← get_self;
  cfg ← lift (val_dataset_config (dic c));
  dataset_type ← lift (py_getitem cfg "type");
  lift (_load_component dataset_type).

(** [Config.val_dataset] *)
Definition val_dataset : M value :=
  c ← get_self;
  _val_dataset ← lift (val_dataset_config (dic c));
  if negb (truthy_builtin _val_dataset) then mret VNone
  else _load_object _val_dataset.

(** The [for i in _transforms] loop of [val_transforms]. *)
Fixpoint transforms_loop (items : list value) : M (list value) :=
  match items with
  | [] => mret []
  | i :: rest =>
      o ← _load_object i;
      os ← transforms_loop rest;
      mret (o :: os)
  end.

(** [Config.val_transforms] *)
Definition val_transforms : M value :=
  c ← get_self;
  _val_dataset ← lift (val_dataset_config (dic c));
  if negb (truthy_builtin _val_dataset) then mret (VList [])
  else
    _transforms ← lift (py_get _val_dataset "transforms" (VList []));
    items ← lift (py_iter _transforms);
    os ← transforms_loop items;
    mret (VList os).

End WithManager.

(** ** The learning-rate scheduler *)

Section WithLr.
Context `{LrModule}.

(** [getattr(paddle.optimizer.lr, name)] *)
Definition getattr_lr (name : value) : res component :=
  match name with
  | VStr s =>
      match lr_classes !! s with
      | Some c => Ok c
      | None => Raise AttributeError
      end
  | _ => Raise TypeError
  end.

(** [params] in [lr_scheduler] is [self.dic['lr_scheduler']] itself, not a
    copy: what is popped from it or added to it is popped from or added to
    the configuration. This stores the dictionary as [params] now is. *)
Definition write_params (params : dict) : M unit :=
  c ← get_self;
  d ← lift (py_setitem (dic c) "lr_scheduler" (VDict params));
  set_self (set_dic d c).

(** The [if 'warmup_iters' in params] block: the parameters that are
    left, and [warmup_iters], [warmup_start_lr] and [end_lr] when warm-up
    is used. *)
Definition pop_warmup (has_warmup : bool) (params : dict)
    : M (dict * option (value * value * value)) :=
  if has_warmup then
    warmup_iters ← lift (py_getitem (VDict params) "warmup_iters");
    let params := d_pop "warmup_iters" params in
    write_params params;;
    if negb (d_mem "warmup_start_lr" params) then raise AssertionError
    else
      warmup_start_lr ← lift (py_getitem (VDict params) "warmup_start_lr");
      let params := d_pop "warmup_start_lr" params in
      write_params params;;
      end_lr ← lift (py_getitem (VDict params) "learning_rate");
      mret (params, Some (warmup_iters, warmup_start_lr, end_lr))
  else mret (params, None).

(** The [if lr_type == 'PolynomialDecay'] block. *)
Definition polynomial_defaults (lr_type : value)
    (warmup : option (value * value * value)) (params : dict) : M dict :=
  if py_eq lr_type (VStr "PolynomialDecay") then
    its ← iters;
    its ← match warmup with
          | Some (warmup_iters, _, _) => lift (py_sub its warmup_iters)
          | None => mret its
          end;
    its ← lift (py_max its (VInt 1));
    let params := d_setdefault "decay_steps" its params in
    let params := d_setdefault "end_lr" (VInt 0) params in
    let params := d_setdefault "power" (VFloat (9 # 10)) params in
    write_params params;;
    mret params
  else mret params.

(** [Config.lr_scheduler] *)
Definition lr_scheduler : M value :=
  c ← get_self;
  has ← lift (py_in "lr_scheduler" (dic c));
  if negb (has : bool) then raise RuntimeError
  else
    params ← lift (py_get (dic c) "lr_scheduler" VNone);
    has_warmup ← lift (py_in "warmup_iters" params);
    match params with
    | VDict params =>
        '(params, warmup) ← pop_warmup has_warmup params;
        lr_type ← lift (py_getitem (VDict params) "type");
        let params := d_pop "type" params in
        write_params params;;
        params ← polynomial_defaults lr_type warmup params;
        cls ← lift (getattr_lr lr_type);
        lr_sche ← call lr_type cls params;
        match warmup with
        | Some (warmup_iters, warmup_start_lr, end_lr) =>
            cls ← lift (getattr_lr (VStr "LinearWarmup"));
            call (VStr "LinearWarmup") cls
              [("learning_rate", lr_sche);
               ("warmup_steps", warmup_iters);
               ("start_lr", warmup_start_lr);
               ("end_lr", end_lr)]
        | None => mret lr_sche
        end
    | VStr _ => raise AttributeError
    | _ => raise TypeError
    end.

End WithLr.

(** ** The arguments of the optimizer and of the decay *)

(** [Config.optimizer_args] *)
Definition optimizer_args : M value :=
  c ← get_self;
  args ← lift (o ← py_get (dic c) "optimizer" (VDict []); py_copy o);
  type ← lift (py_getitem args "type");
  if py_eq type (VStr "sgd") then
    match args with
    | VDict args =>
        mret (VDict (d_setdefault "momentum" (VFloat (9 # 10)) args))
    | _ => raise AttributeError
    end
  else mret args.

(** [Config.decay_args]; the argument [self.iters] of [setdefault] is
    evaluated before the call. *)
Definition decay_args : M value :=
  c ← get_self;
  learning_rate ← lift (py_get (dic c) "learning_rate" (VDict []));
  decay ← lift (py_get learning_rate "decay"
                  (VDict [("type", VStr "poly");
                          ("power", VFloat (9 # 10))]));
  args ← lift (py_copy decay);
  type ← lift (py_getitem args "type");
  if py_eq type (VStr "poly") then
    decay_steps ← iters;
    match args with
    | VDict args =>
        let args := d_setdefault "decay_steps" decay_steps args in
        let args := d_setdefault "end_lr" (VInt 0) args in
        mret (VDict args)
    | _ => raise AttributeError
    end
  else mret args.

(** ** Synchronising the image channels *)

(** [self.<name>_config and (key in self.<name>_config)] *)
Definition dataset_config_has (name key : string) : M bool :=
  c ← get_self;
  cfg ← lift (dataset_config name (dic c));
  if truthy_builtin cfg then
    c ← get_self;
    cfg ← lift (dataset_config name (dic c));
    lift (py_in key cfg)
  else mret false.

(** One of the two [if self.<name>_config and ('img_channels' in ...)]
    statements of [_check_sync_img_channels]. *)
Definition add_dataset_channels (name : string) (img_channels_set : list value)
    : M (list value) :=
  has ← dataset_config_has name "img_channels";
  if (has : bool) then
    c ← get_self;
    cfg ← lift (dataset_config name (dic c));
    x ← lift (py_getitem cfg "img_channels");
    lift (set_add x img_channels_set)
  else mret img_channels_set.

(** The first half of [_check_sync_img_channels]: the set of the channel
    numbers that the model and the two datasets give. *)
Definition collect_img_channels : M (list value) :=
  let img_channels_set := [] in
  c ← get_self;
  model_cfg ← lift (py_getitem (dic c) "model");
  has_backbone ← lift (py_in "backbone" model_cfg);
  img_channels_set ←
    (if (has_backbone : bool) then
       backbone ← lift (py_getitem model_cfg "backbone");
       x ← lift (py_get backbone "in_channels" VNone);
       match x with
       | VNone => mret img_channels_set
       | _ => lift (set_add x img_channels_set)
       end
     else
       x ← lift (py_get model_cfg "in_channels" VNone);
       match x with
       | VNone => mret img_channels_set
       | _ =>
           x ← lift (py_get model_cfg "in_channels" VNone);
           lift (set_add x img_channels_set)
       end);
  img_channels_set ← add_dataset_channels "train_dataset" img_channels_set;
  add_dataset_channels "val_dataset" img_channels_set.

(** [self.dic['model']['backbone']['in_channels'] = img_channels] with a
    backbone, [self.dic['model']['in_channels'] = img_channels]
    without. *)
Definition write_model_channels (img_channels : value) : M unit :=
  c ← get_self;
  model_cfg ← lift (py_getitem (dic c) "model");
  has_backbone ← lift (py_in "backbone" model_cfg);
  model_cfg ←
    (if (has_backbone : bool) then
       backbone ← lift (py_getitem model_cfg "backbone");
       backbone ← lift (py_setitem backbone "in_channels" img_channels);
       lift (py_setitem model_cfg "backbone" backbone)
     else lift (py_setitem model_cfg "in_channels" img_channels));
  d ← lift (py_setitem (dic c) "model" model_cfg);
  set_self (set_dic d c).

(** [if self.<name>_config and self.<name>_config['type'] == "Dataset":
    self.dic[name]['img_channels'] = img_channels] *)
Definition write_dataset_channels (name : string) (img_channels : value)
    : M unit :=
  c ← get_self;
  cfg ← lift (dataset_config name (dic c));
  if truthy_builtin cfg then
    c ← get_self;
    cfg ← lift (dataset_config name (dic c));
    type ← lift (py_getitem cfg "type");
    if py_eq type (VStr "Dataset") then
      c ← get_self;
      stored ← lift (py_getitem (dic c) name);
      stored ← lift (py_setitem stored "img_channels" img_channels);
      d ← lift (py_setitem (dic c) name stored);
      set_self (set_dic d c)
    else mret tt
  else mret tt.

(** [Config._check_sync_img_channels()] *)
Definition _check_sync_img_channels : M unit :=
  img_channels_set ← collect_img_channels;
  if (1 <? List.length img_channels_set)%nat then raise ValueError
  else
    let img_channels :=
      match img_channels_set with
      | [] => VInt 3
      | x :: _ => x
      end in
    write_model_channels img_channels;;
    write_dataset_channels "train_dataset" img_channels;;
    write_dataset_channels "val_dataset" img_channels.

(** ** Synchronising the number of classes *)

Section WithClasses.
Context `{Manager} `{ClassAttrs}.

(** One of the two [if self.<name>_config:] statements of the first
    half of [_check_sync_num_classes]; [dataset_class] is the property
    [self.<name>_class]. *)
Definition add_dataset_num_classes (name : string)
    (dataset_class : M component) (num_classes_set : list value)
    : M (list value) :=
  c ← get_self;
  cfg ← lift (dataset_config name (dic c));
  if truthy_builtin cfg then
    cls ← dataset_class;
    match NUM_CLASSES cls with
    | Some _ =>
        cls ← dataset_class;
        match NUM_CLASSES cls with
        | Some n => lift (set_add n num_classes_set)
        | None => raise AttributeError
        end
    | None =>
        c ← get_self;
        cfg ← lift (dataset_config name (dic c));
        has ← lift (py_in "num_classes" cfg);
        if (has : bool) then
          c ← get_self;
          cfg ← lift (dataset_config name (dic c));
          x ← lift (py_getitem cfg "num_classes");
          lift (set_add x num_classes_set)
        else mret num_classes_set
    end
  else mret num_classes_set.

(** The first half of [_check_sync_num_classes]: the set of the numbers
    of classes that the model and the two datasets give. *)
Definition collect_num_classes : M (list value) :=
  let num_classes_set := [] in
  c ← get_self;
  model_cfg ← lift (py_getitem (dic c) "model");
  x ← lift (py_get model_cfg "num_classes" VNone);
  num_classes_set ←
    match x with
    | VNone => mret num_classes_set
    | _ =>
        c ← get_self;
        model_cfg ← lift (py_getitem (dic c) "model");
        x ← lift (py_get model_cfg "num_classes" VNone);
        lift (set_add x num_classes_set)
    end;
  num_classes_set ←
    add_dataset_num_classes "train_dataset" train_dataset_class
      num_classes_set;
  add_dataset_num_classes "val_dataset" val_dataset_class num_classes_set.

(** [self.dic['model']['num_classes'] = num_classes] *)
Definition write_model_num_classes (num_classes : value) : M unit :=
  c ← get_self;
  model_cfg ← lift (py_getitem (dic c) "model");
  model_cfg ← lift (py_setitem model_cfg "num_classes" num_classes);
  d ← lift (py_setitem (dic c) "model" model_cfg);
  set_self (set_dic d c).

(** [if self.<name>_config and (not hasattr(self.<name>_class,
    'NUM_CLASSES')): self.dic[name]['num_classes'] = num_classes] *)
Definition write_dataset_num_classes (name : string)
    (dataset_class : M component) (num_classes : value) : M unit :=
  c ← get_self;
  cfg ← lift (dataset_config name (dic c));
  if truthy_builtin cfg then
    cls ← dataset_class;
    match NUM_CLASSES cls with
    | Some _ => mret tt
    | None =>
        c ← get_self;
        stored ← lift (py_getitem (dic c) name);
        stored ← lift (py_setitem stored "num_classes" num_classes);
        d ← lift (py_setitem (dic c) name stored);
        set_self (set_dic d c)
    end
  else mret tt.

(** [Config._check_sync_num_classes()]; [pop] on a set without elements
    raises [KeyError]. *)
Definition _check_sync_num_classes : M unit :=
  num_classes_set ← collect_num_classes;
  if (List.length num_classes_set =? 0)%nat then raise ValueError
  else if (1 <? List.length num_classes_set)%nat then raise ValueError
  else
    match num_classes_set with
    | [] => raise KeyError
    | num_classes :: _ =>
        write_model_num_classes num_classes;;
        write_dataset_num_classes "train_dataset" train_dataset_class
          num_classes;;
        write_dataset_num_classes "val_dataset" val_dataset_class
          num_classes
    end.

(** [Config.check_sync_info()] *)
Definition check_sync_info : M unit :=
  _check_sync_num_classes;;
  _check_sync_img_channels.

End WithClasses.

End Config.

(* ===================================================================== *)
(** * centernet_head.py                                                   *)
(* ===================================================================== *)

(** The tensor runtime the head is written against: [paddle],
    [paddle.nn.functional], and the two loss classes of
    [paddlers.models.ppdet.modeling.losses]. Tensors and the operations on
    them are kept abstract; a Python number is the rational its literal
    denotes. Setting [stop_gradient] changes no value and is left out. *)
Class Paddle : Type := {
  Tensor : Type;
  (** [nn.Sequential(ConvLayer(ch_in, head_planes, 3, padding=1, bias=True),
      nn.ReLU(), ConvLayer(head_planes, ch_out, 1, bias=True))] with freshly
      initialised parameters, as a function on tensors *)
  conv_branch : Z -> Z -> Z -> Tensor -> Tensor;
  (** the same with the bias of the last convolution set to -2.19 *)
  heatmap_branch : Z -> Z -> Z -> Tensor -> Tensor;
  sigmoid : Tensor -> Tensor;
  clip : Tensor -> Q -> Q -> Tensor;
  transpose : Tensor -> list Z -> Tensor;
  shape : Tensor -> list Z;
  reshape : Tensor -> list Z -> Tensor;
  unsqueeze : Tensor -> Z -> Tensor;
  (** [paddle.full(shape, fill_value, dtype='int64')] *)
  full : list Z -> Z -> Tensor;
  (** [paddle.concat(xs, axis)] *)
  concat_axis : list Tensor -> Z -> Tensor;
  gather_nd : Tensor -> Tensor -> Tensor;
  expand_as : Tensor -> Tensor -> Tensor;
  (** [paddle.cast(x, dtype=y.dtype)] *)
  cast_like : Tensor -> Tensor -> Tensor;
  (** [x.sum()] *)
  tsum : Tensor -> Tensor;
  (** [F.l1_loss(x, y, reduction='sum')] *)
  l1_loss_sum : Tensor -> Tensor -> Tensor;
  (** [x[:, :, a:b]], and [x[:, :, a:]] for [b = None] *)
  slice3 : Tensor -> Z -> option Z -> Tensor;
  tadd : Tensor -> Tensor -> Tensor;
  tsub : Tensor -> Tensor -> Tensor;
  tmul : Tensor -> Tensor -> Tensor;
  tdiv : Tensor -> Tensor -> Tensor;
  (** a tensor and a Python number: [x + c], [x / c], [c * x] *)
  tadd_num : Tensor -> Q -> Tensor;
  tdiv_num : Tensor -> Q -> Tensor;
  num_mul : Q -> Tensor -> Tensor;
  (** [CTFocalLoss()(pred, target)] *)
  CTFocalLoss : Tensor -> Tensor -> Tensor;
  (** [GIoULoss(reduction='sum')(pbox, gbox, iou_weight=w, loc_reweight=None)] *)
  GIoULoss_sum : Tensor -> Tensor -> Tensor -> Tensor
}.

Module CenterNetHead.

Section WithPaddle.
Context `{Paddle}.
Local Open Scope Z_scope.

(** The attributes of a [CenterNetHead] object. [iou] exists only when
    the constructor was given a positive [iou_weight]; [training] is the
    flag every [nn.Layer] carries. *)
Record head : Type := {
  regress_ltrb : bool;
  weights : gmap string Q;
  heatmap : Tensor -> Tensor;
  size : Tensor -> Tensor;
  size_loss : string;
  offset : Tensor -> Tensor;
  iou : option (Tensor -> Tensor);
  training : bool
}.

(** [CenterNetHead.__init__]; a new layer is in training mode. *)
Definition __init__ (in_channels num_classes head_planes : Z)
    (heatmap_weight : Q) (regress_ltrb : bool) (size_weight : Q)
    (size_loss : string) (offset_weight iou_weight : Q) : head :=
  {| regress_ltrb := regress_ltrb;
     weights := <["heatmap" := heatmap_weight]>
                  (<["size" := size_weight]>
                     (<["offset" := offset_weight]>
                        (<["iou" := iou_weight]> ∅)));
     heatmap := heatmap_branch in_channels head_planes num_classes;
     size := conv_branch in_channels head_planes
               (if regress_ltrb then 4 else 2);
     size_loss := size_loss;
     offset := conv_branch in_channels head_planes 2;
     iou := if Qlt_le_dec 0%Q iou_weight
            then Some (conv_branch in_channels head_planes
                         (if regress_ltrb then 4 else 2))
            else None;
     training := true |}.

(** [self.eval()] and [self.train()] *)
Definition set_training (b : bool) (self : head) : head :=
  {| regress_ltrb := regress_ltrb self; weights := weights self;
     heatmap := heatmap self; size := size self;
     size_loss := size_loss self; offset := offset self;
     iou := iou self; training := b |}.

(** The names [hasattr(self, name)] answers to: the attributes
    [__init__] sets, the names the class defines, and [training].
    [nn.Layer] defines further names of its own, none of which the head
    asks for. *)
Definition attribute_names (self : head) : list string :=
  ["regress_ltrb"; "weights"; "heatmap"; "size"; "size_loss"; "offset"]
  ++ (match iou self with Some _ => ["iou"] | None => [] end)
  ++ ["training"; "__shared__"; "from_config"; "forward"; "get_loss"].

Definition hasattr (self : head) (name : string) : bool :=
  bool_decide (name ∈ attribute_names self).

(** [d[k]] on the dictionaries of tensors and of weights *)
Definition getitem {A : Type} (d : gmap string A) (k : string) : res A :=
  match d !! k with
  | Some x => Ok x
  | None => Raise KeyError
  end.

(** Reading a local variable that may not have been assigned. *)
Definition local {A : Type} (x : option A) : res A :=
  match x with
  | Some a => Ok a
  | None => Raise UnboundLocalError
  end.

(** [a, b, c, d = x.shape] *)
Definition unpack4 (s : list Z) : res (Z * Z * Z * Z) :=
  match s with
  | [a; b; c; d] => Ok (a, b, c, d)
  | _ => Raise ValueError
  end.

(** [s[i]] on a shape; a negative [i] counts from the end. *)
Definition shape_at (s : list Z) (i : Z) : res Z :=
  let n := Z.of_nat (List.length s) in
  let j := (if i <? 0 then n + i else i) in
  if (0 <=? j) && (j <? n)
  then match s !! Z.to_nat j with Some x => Ok x | None => Raise IndexError end
  else Raise IndexError.

(** The [for i in range(size_n)] loop that fills [batch_inds]. *)
Fixpoint batch_inds_loop (index : Tensor) (range : list Z)
    (batch_inds : list Tensor) : res (list Tensor) :=
  match range with
  | [] => Ok batch_inds
  | i :: range' =>
      n ← shape_at (shape index) 1;
      let batch_ind := full [1; n; 1] i in
      batch_inds_loop index range' (batch_inds ++ [batch_ind])
  end.

(** [pred_boxes] of the two GIoU branches: the box around the centre of
    the ground-truth box [xys] with the extents [pos_size]. *)
Definition pred_boxes_around (xys pos_size : Tensor) : Tensor :=
  let centers_x :=
    tdiv_num (tadd (slice3 xys 0 (Some 1)) (slice3 xys 2 (Some 3))) 2%Q in
  let centers_y :=
    tdiv_num (tadd (slice3 xys 1 (Some 2)) (slice3 xys 3 (Some 4))) 2%Q in
  let x1 := tsub centers_x (slice3 pos_size 0 (Some 1)) in
  let y1 := tsub centers_y (slice3 pos_size 1 (Some 2)) in
  let x2 := tadd centers_x (slice3 pos_size 2 (Some 3)) in
  let y2 := tadd centers_y (slice3 pos_size 3 (Some 4)) in
  concat_axis [x1; y1; x2; y2] (-1).

(** [CenterNetHead.get_loss(inputs, weights, heatmap, size, offset, iou)] *)
Definition get_loss (self : head) (inputs : gmap string Tensor)
    (weights : gmap string Q) (heatmap size offset : Tensor)
    (iou : option Tensor) : res (gmap string Tensor) :=
  (* heatmap head loss: CTFocalLoss *)
  heatmap_target ← getitem inputs "heatmap";
  let heatmap := clip (sigmoid heatmap) (1 # 10000)%Q (1 - (1 # 10000))%Q in
  let heatmap_loss := CTFocalLoss heatmap heatmap_target in
  (* size head loss: L1 loss or GIoU loss *)
  index ← getitem inputs "index";
  mask ← getitem inputs "index_mask";
  let size := transpose size [0; 2; 3; 1] in
  '(size_n, size_h, size_w, size_c) ← unpack4 (shape size);
  let size := reshape size [size_n; -1; size_c] in
  let index := unsqueeze index 2 in
  batch_inds ← batch_inds_loop index
                  (Z.of_nat <$> seq 0%nat (Z.to_nat size_n)) [];
  let batch_inds := concat_axis batch_inds 0 in
  let index := concat_axis [batch_inds; index] 2 in
  let pos_size := gather_nd size index in
  let mask := unsqueeze mask 2 in
  let size_mask := expand_as mask pos_size in
  let size_mask := cast_like size_mask pos_size in
  let pos_num := tsum size_mask in
  size_loss ←
    (if String.eqb (size_loss self) "L1" then
       size_target ←
         (if regress_ltrb self then getitem inputs "size"
          else
            s ← getitem inputs "size";
            last ← shape_at (shape s) (-1);
            if last =? 2 then getitem inputs "size"
            else
              a ← getitem inputs "size";
              b ← getitem inputs "size";
              Ok (tadd (slice3 a 0 (Some 2)) (slice3 b 2 None)));
       let size_loss :=
         l1_loss_sum (tmul pos_size size_mask) (tmul size_target size_mask) in
       Ok (Some (tdiv size_loss (tadd_num pos_num (1 # 10000)%Q)))
     else if String.eqb (size_loss self) "giou" then
       size_target ← getitem inputs "bbox_xys";
       let pred_boxes := pred_boxes_around size_target pos_size in
       let size_loss :=
         GIoULoss_sum (tmul pred_boxes size_mask)
           (tmul size_target size_mask) size_mask in
       Ok (Some (tdiv size_loss (tadd_num pos_num (1 # 10000)%Q)))
     else Ok None);
  (* offset head loss: L1 loss *)
  offset_target ← getitem inputs "offset";
  let offset := transpose offset [0; 2; 3; 1] in
  '(offset_n, offset_h, offset_w, offset_c) ← unpack4 (shape offset);
  let offset := reshape offset [offset_n; -1; offset_c] in
  let pos_offset := gather_nd offset index in
  let offset_mask := expand_as mask pos_offset in
  let offset_mask := cast_like offset_mask pos_offset in
  let pos_num := tsum offset_mask in
  let offset_loss :=
    l1_loss_sum (tmul pos_offset offset_mask)
      (tmul offset_target offset_mask) in
  let offset_loss := tdiv offset_loss (tadd_num pos_num (1 # 10000)%Q) in
  (* iou head loss: GIoU loss *)
  iou_loss ←
    match iou with
    | Some iou =>
        let iou := transpose iou [0; 2; 3; 1] in
        '(iou_n, iou_h, iou_w, iou_c) ← unpack4 (shape iou);
        let iou := reshape iou [iou_n; -1; iou_c] in
        let pos_iou := gather_nd iou index in
        let iou_mask := expand_as mask pos_iou in
        let iou_mask := cast_like iou_mask pos_iou in
        let pos_num := tsum iou_mask in
        gt_bbox_xys ← getitem inputs "bbox_xys";
        let pred_boxes := pred_boxes_around gt_bbox_xys pos_size in
        let iou_loss :=
          GIoULoss_sum (tmul pred_boxes iou_mask)
            (tmul gt_bbox_xys iou_mask) iou_mask in
        Ok (Some (tdiv iou_loss (tadd_num pos_num (1 # 10000)%Q)))
    | None => Ok None
    end;
  size_loss ← local size_loss;
  let losses : gmap string Tensor :=
    <["offset_loss" := offset_loss]>
      (<["size_loss" := size_loss]>
         (<["heatmap_loss" := heatmap_loss]> ∅)) in
  w_heatmap ← getitem weights "heatmap";
  w_size ← getitem weights "size";
  w_offset ← getitem weights "offset";
  let det_loss :=
    tadd (tadd (num_mul w_heatmap heatmap_loss) (num_mul w_size size_loss))
      (num_mul w_offset offset_loss) in
  '(losses, det_loss) ←
    match iou with
    | Some _ =>
        iou_loss ← local iou_loss;
        let losses := <["iou_loss" := iou_loss]> losses in
        w_iou ← getitem weights "iou";
        Ok (losses, tadd det_loss (num_mul w_iou iou_loss))
    | None => Ok (losses, det_loss)
    end;
  Ok (<["det_loss" := det_loss]> losses).

(** [CenterNetHead.forward(feat, inputs)]: the loss dictionary in training
    mode, the head outputs otherwise. *)
Definition forward (self : head) (feat : Tensor)
    (inputs : gmap string Tensor) : res (gmap string Tensor) :=
  let heatmap_out := heatmap self feat in
  let size_out := size self feat in
  let offset_out := offset self feat in
  iou_out ←
    (if hasattr self "iou_weight" then
       match iou self with
       | Some layer => Ok (Some (layer feat))
       | None => Raise AttributeError
       end
     else Ok None);
  if training self then
    get_loss self inputs (weights self) heatmap_out size_out offset_out
      iou_out
  else
    let heatmap_out := sigmoid heatmap_out in
    let head_outs : gmap string Tensor :=
      <["offset" := offset_out]>
        (<["size" := size_out]> (<["heatmap" := heatmap_out]> ∅)) in
    let head_outs :=
      match iou_out with
      | Some t => <["iou" := t]> head_outs
      | None => head_outs
      end in
    Ok head_outs.

End WithPaddle.

End CenterNetHead.

(* ===================================================================== *)
(** * Concrete environments                                               *)
(* ===================================================================== *)

(** A POSIX file system with two configuration files, a small registry and
    a one-number tensor runtime, on which the definitions above can be
    run. *)
Module Sample.

Fixpoint drop_while {A : Type} (p : A -> bool) (l : list A) : list A :=
  match l with
  | [] => []
  | x :: l' => if p x then drop_while p l' else l
  end.

Definition is_slash (a : ascii) : bool := Ascii.eqb a "/"%char.

(** [posixpath.dirname] *)
Definition posix_dirname (p : string) : string :=
  let head_rev :=
    drop_while (fun a => negb (is_slash a)) (rev (list_ascii_of_string p)) in
  if forallb is_slash head_rev
  then string_of_list_ascii (rev head_rev)
  else string_of_list_ascii (rev (drop_while is_slash head_rev)).

(** [posixpath.join] of two components *)
Definition posix_join (a b : string) : string :=
  if String.prefix "/" b then b
  else if String.eqb a "" || endswith "/" a then a ++ b
  else a ++ "/" ++ b.

(** [literal_eval] on the literals the examples pass: decimal digits. *)
Definition digits_eval (s : string) : option value :=
  match s with
  | "0" => Some (VInt 0)
  | "1" => Some (VInt 1)
  | "2" => Some (VInt 2)
  | "4" => Some (VInt 4)
  | "8" => Some (VInt 8)
  | _ => None
  end.

(** [configs/base.yml] *)
Definition base_yml : value :=
  VDict [("batch_size", VInt 4);
         ("iters", VInt 1000);
         ("train_dataset",
           VDict [("type", VStr "Dataset");
                  ("dataset_root", VStr "data");
                  ("mode", VStr "train")]);
         ("model",
           VDict [("type", VStr "UNet");
                  ("num_classes", VInt 2);
                  ("backbone",
                    VDict [("type", VStr "ResNet"); ("depth", VInt 50)])]);
         ("loss",
           VDict [("types", VList [VDict [("type", VStr "CrossEntropyLoss")]]);
                  ("coef", VList [VInt 1; VInt 1])])].

(** [configs/child.yml] *)
Definition child_yml : value :=
  VDict [("_base_", VStr "base.yml");
         ("iters", VInt 2000);
         ("model",
           VDict [("num_classes", VInt 19);
                  ("backbone",
                    VDict [("_inherited_", VBool false);
                           ("type", VStr "HRNet")])])].

(** [configs/empty.yml]: a model built by [EmptyNet]. *)
Definition empty_yml : value :=
  VDict [("model", VDict [("type", VStr "EmptyNet")]);
         ("val_dataset", VDict [("type", VStr "Dataset")])].

(** [configs/nomodel.yml] and [configs/nodata.yml] *)
Definition nomodel_yml : value :=
  VDict [("batch_size", VInt 2);
         ("train_dataset", VDict [("type", VStr "Dataset")])].

Definition nodata_yml : value :=
  VDict [("model", VDict [("type", VStr "UNet")]);
         ("train_dataset", VDict [])].

(** A file that names itself as its base. *)
Definition loop_yml : value :=
  VDict [("_base_", VStr "loop.yml")].

#[export] Instance posix : OsEnv := {|
  os_path_dirname := posix_dirname;
  os_path_join := posix_join;
  literal_eval := digits_eval;
  yaml_files :=
    <["configs/child.yml" := child_yml]>
      (<["configs/base.yml" := base_yml]>
         (<["configs/loop.yml" := loop_yml]>
          (<["configs/empty.yml" := empty_yml]>
          (<["configs/nomodel.yml" := nomodel_yml]>
          (<["configs/nodata.yml" := nodata_yml]>
            (<["configs/notes.txt" := VDict [("model", VStr "x")]]> ∅))))))
|}.

(** A second file system, with [configs/top.yml] over
    [configs/bottom.yml]: the child replaces [model] and, inside it,
    asks to replace [backbone] too; [head] is a key the base lacks. *)
Definition top_yml : value :=
  VDict [("_base_", VStr "bottom.yml");
         ("model",
           VDict [("_inherited_", VBool false);
                  ("backbone",
                    VDict [("_inherited_", VBool false);
                           ("type", VStr "HRNet")])]);
         ("head", VDict [("_inherited_", VBool false); ("k", VInt 1)])].

Definition bottom_yml : value :=
  VDict [("model",
           VDict [("type", VStr "UNet");
                  ("backbone",
                    VDict [("type", VStr "ResNet"); ("depth", VInt 50)])])].

Definition nested : OsEnv := {|
  os_path_dirname := posix_dirname;
  os_path_join := posix_join;
  literal_eval := digits_eval;
  yaml_files :=
    <["configs/top.yml" := top_yml]>
      (<["configs/bottom.yml" := bottom_yml]> ∅)
|}.

(** Constructors: an ordinary class, whose objects are truthy and carry
    their keyword arguments as attributes; a dataset class, whose objects
    have the attribute [ignore_index]; and a container class whose empty
    object has length 0 and is therefore falsy, as an [nn.Sequential]
    without sub-layers is. *)
Definition plain_class : component :=
  fun params _ => Ok {| inst_truthy := true; inst_attrs := params |}.

Definition dataset_class : component :=
  fun params _ =>
    Ok {| inst_truthy := true;
          inst_attrs := d_set "ignore_index" (VInt 255) params |}.

Definition empty_container_class : component :=
  fun params _ => Ok {| inst_truthy := false; inst_attrs := params |}.

#[export] Instance registry : Manager := {|
  MODELS := <["UNet" := plain_class]>
              (<["EmptyNet" := empty_container_class]> ∅);
  BACKBONES := <["ResNet" := plain_class]> (<["HRNet" := plain_class]> ∅);
  DATASETS := <["Dataset" := dataset_class]> ∅;
  TRANSFORMS := <["Resize" := plain_class]> (<["UNet" := dataset_class]> ∅);
  LOSSES := <["CrossEntropyLoss" := plain_class]> ∅
|}.

(** Two scheduler classes. *)
#[export] Instance lr_module : LrModule := {|
  lr_classes := <["PolynomialDecay" := plain_class]>
                  (<["LinearWarmup" := plain_class]> ∅)
|}.

(** Class attributes: an attribute of a class shows on the object the
    class builds from no arguments. None of the registered classes has
    [NUM_CLASSES]. *)
#[export] Instance class_attrs : ClassAttrs := {|
  NUM_CLASSES := fun cls =>
    match cls [] [] with
    | Ok i => d_get "NUM_CLASSES" (inst_attrs i)
    | _ => None
    end
|}.

Definition empty_world : Config.world :=
  {| Config.heap := []; Config.calls := [] |}.

(** What [configs/child.yml] parses to, and [configs/empty.yml]. *)
Definition child_dic : value :=
  Eval vm_compute in
    match Config._parse_from_yaml 5 "configs/child.yml" with
    | Ok v => v
    | _ => VNone
    end.

Definition empty_dic : value :=
  Eval vm_compute in
    match Config._parse_from_yaml 5 "configs/empty.yml" with
    | Ok v => v
    | _ => VNone
    end.

(** A dataset configuration with a list of transforms, a nested
    component, and a nested dictionary that describes no component. *)
Definition dataset_cfg : dict :=
  [("type", VStr "Dataset");
   ("transforms",
     VList [VDict [("type", VStr "Resize"); ("target_size", VInt 512)];
            VStr "raw"]);
   ("mode", VStr "train");
   ("backbone", VDict [("type", VStr "ResNet"); ("depth", VInt 50)]);
   ("extra", VDict [("a", VInt 1)])].

(** A [Config] object holding [dic], nothing built yet. *)
Definition fresh_state (dic : value) : Config.state :=
  {| Config.self := {| Config.dic := dic; Config._model := VNone;
                       Config._losses := VNone;
                       Config._distill_losses := None |};
     Config.env := empty_world |}.

(** A tensor runtime in which every tensor is a single number of shape
    [1, 1, 1, 1] (and a gathered one of shape [1, 1, 1]); the
    transcendental [sigmoid] and the two loss classes are stand-ins. *)
#[export] Instance scalar_paddle : Paddle := {|
  Tensor := Q;
  conv_branch := fun _ _ _ x => x;
  heatmap_branch := fun _ _ _ x => x;
  sigmoid := fun x => x;
  clip := fun x lo hi => if Qle_bool x lo then lo
                         else if Qle_bool hi x then hi else x;
  transpose := fun x _ => x;
  shape := fun _ => [1; 1; 1; 1]%Z;
  reshape := fun x _ => x;
  unsqueeze := fun x _ => x;
  full := fun _ v => inject_Z v;
  concat_axis := fun xs _ => match xs with x :: _ => x | [] => 0%Q end;
  gather_nd := fun x _ => x;
  expand_as := fun x _ => x;
  cast_like := fun x _ => x;
  tsum := fun x => x;
  l1_loss_sum := fun x y => Qabs (x - y);
  slice3 := fun x _ _ => x;
  tadd := Qplus;
  tsub := Qminus;
  tmul := Qmult;
  tdiv := Qdiv;
  tadd_num := Qplus;
  tdiv_num := Qdiv;
  num_mul := Qmult;
  CTFocalLoss := fun p t => Qabs (p - t);
  GIoULoss_sum := fun p g w => (Qabs (p - g) * w)%Q
|}.

(** ** Tensors of floating-point numbers *)

(** Floating-point numbers as far as their special values go: a finite
    number, given by a rational in lowest terms, the two infinities, and
    NaN, with the IEEE 754 rules for the special values (rounding is
    left out). *)
Inductive fl : Type :=
| Fin (q : Q)
| PInf
| NInf
| NaN.

Definition fl_neg (x : fl) : fl :=
  match x with
  | Fin q => Fin (- q)
  | PInf => NInf
  | NInf => PInf
  | NaN => NaN
  end.

Definition fl_add (x y : fl) : fl :=
  match x, y with
  | NaN, _ | _, NaN => NaN
  | Fin a, Fin b => Fin (Qred (a + b))
  | PInf, NInf | NInf, PInf => NaN
  | PInf, _ | _, PInf => PInf
  | NInf, _ | _, NInf => NInf
  end.

Definition fl_sub (x y : fl) : fl := fl_add x (fl_neg y).

(** An infinity times a finite number: NaN for 0, else the infinity
    with the sign of the product. *)
Definition inf_times (positive : bool) (a : Q) : fl :=
  match (a ?= 0)%Q with
  | Eq => NaN
  | Gt => if positive then PInf else NInf
  | Lt => if positive then NInf else PInf
  end.

Definition fl_mul (x y : fl) : fl :=
  match x, y with
  | NaN, _ | _, NaN => NaN
  | Fin a, Fin b => Fin (Qred (a * b))
  | Fin a, PInf | PInf, Fin a => inf_times true a
  | Fin a, NInf | NInf, Fin a => inf_times false a
  | PInf, PInf | NInf, NInf => PInf
  | PInf, NInf | NInf, PInf => NInf
  end.

Definition fl_div (x y : fl) : fl :=
  match x, y with
  | NaN, _ | _, NaN => NaN
  | Fin a, Fin b =>
      match (b ?= 0)%Q with
      | Eq => inf_times true a
      | _ => Fin (Qred (a / b))
      end
  | Fin _, _ => Fin 0
  | PInf, Fin b => if Qle_bool 0 b then PInf else NInf
  | NInf, Fin b => if Qle_bool 0 b then NInf else PInf
  | _, _ => NaN
  end.

Definition fl_abs (x : fl) : fl :=
  match x with
  | Fin q => Fin (Qabs q)
  | PInf | NInf => PInf
  | NaN => NaN
  end.

Definition fl_clip (lo hi : Q) (x : fl) : fl :=
  match x with
  | Fin q => if Qle_bool q lo then Fin lo
             else if Qle_bool hi q then Fin hi else Fin q
  | PInf => Fin hi
  | NInf => Fin lo
  | NaN => NaN
  end.

(** A rational stand-in for the logistic function: increasing, with
    values between 0 and 1 and the value 1/2 at 0. *)
Definition fl_sigmoid (x : fl) : fl :=
  match x with
  | Fin q => Fin (Qred ((1 # 2) + q / (2 * (1 + Qabs q))))
  | PInf => Fin 1
  | NInf => Fin 0
  | NaN => NaN
  end.

(** The index a number stands for. *)
Definition fl_index (x : fl) : nat :=
  match x with
  | Fin q => Z.to_nat (Qnum q / Zpos (Qden q))
  | _ => 0
  end.

(** A tensor: its shape and its elements in row-major order. *)
Record tensor : Type := {
  dims : list Z;
  elems : list fl
}.

Definition count (ds : list nat) : nat := fold_right Nat.mul 1%nat ds.

Definition ndims (t : tensor) : list nat := map Z.to_nat (dims t).

(** The multi-index of the [i]-th element in row-major order, and back. *)
Fixpoint unravel (ds : list nat) (i : nat) : list nat :=
  match ds with
  | [] => []
  | d :: ds' =>
      (Nat.div i (count ds') mod d)%nat :: unravel ds' (i mod count ds')%nat
  end.

Fixpoint ravel (ds idx : list nat) : nat :=
  match ds, idx with
  | _ :: ds', x :: idx' => (x * count ds' + ravel ds' idx')%nat
  | _, _ => 0%nat
  end.

Fixpoint position (a : nat) (l : list nat) : nat :=
  match l with
  | [] => 0%nat
  | x :: l' => if Nat.eqb x a then 0%nat else S (position a l')
  end.

Definition axis (rank : nat) (a : Z) : nat :=
  Z.to_nat (if (a <? 0)%Z then Z.of_nat rank + a else a)%Z.

Definition t_transpose (t : tensor) (perm : list Z) : tensor :=
  let ds := ndims t in
  let p := map Z.to_nat perm in
  let nd := map (fun a => nth a ds 0%nat) p in
  {| dims := map Z.of_nat nd;
     elems :=
       map (fun j =>
              let idx := unravel nd j in
              let src := map (fun b => nth (position b p) idx 0%nat)
                           (seq 0 (List.length ds)) in
              nth (ravel ds src) (elems t) NaN)
         (seq 0 (count nd)) |}.

Definition t_reshape (t : tensor) (shp : list Z) : tensor :=
  let known :=
    count (map Z.to_nat (filter (fun d => negb (d =? -1)%Z) shp)) in
  let free := Nat.div (List.length (elems t)) known in
  {| dims := map (fun d => if (d =? -1)%Z then Z.of_nat free else d) shp;
     elems := elems t |}.

Definition t_unsqueeze (t : tensor) (a : Z) : tensor :=
  let k := axis (S (List.length (dims t))) a in
  {| dims := firstn k (dims t) ++ [1%Z] ++ skipn k (dims t);
     elems := elems t |}.

Definition t_full (shp : list Z) (v : Z) : tensor :=
  {| dims := shp;
     elems := repeat (Fin (inject_Z v)) (count (map Z.to_nat shp)) |}.

Definition t_concat (ts : list tensor) (a : Z) : tensor :=
  match ts with
  | [] => {| dims := [0%Z]; elems := [] |}
  | t0 :: _ =>
      let ds := ndims t0 in
      let k := axis (List.length ds) a in
      let outer := count (firstn k ds) in
      let chunk (t : tensor) := count (skipn k (ndims t)) in
      let along :=
        fold_right Nat.add 0%nat (map (fun t => nth k (ndims t) 0%nat) ts) in
      {| dims := firstn k (dims t0) ++ [Z.of_nat along]
                   ++ skipn (S k) (dims t0);
         elems :=
           flat_map (fun o =>
                       flat_map (fun t =>
                                   firstn (chunk t)
                                     (skipn (o * chunk t) (elems t)))
                         ts)
             (seq 0 outer) |}
  end.

(** The consecutive groups of [n] elements of a list. *)
Fixpoint groups {A : Type} (n : nat) (fuel : nat) (l : list A)
    : list (list A) :=
  match fuel with
  | O => []
  | S fuel' =>
      match l with
      | [] => []
      | _ => firstn n l :: groups n fuel' (skipn n l)
      end
  end.

Definition rows {A : Type} (n : nat) (l : list A) : list (list A) :=
  match n with
  | O => []
  | _ => groups n (List.length l) l
  end.

Definition t_gather_nd (x index : tensor) : tensor :=
  let m := Z.to_nat (List.last (dims index) 0%Z) in
  let inner := count (skipn m (ndims x)) in
  {| dims := removelast (dims index) ++ skipn m (dims x);
     elems :=
       flat_map (fun tuple =>
                   let at_ := ravel (firstn m (ndims x)) (map fl_index tuple) in
                   firstn inner (skipn (at_ * inner) (elems x)))
         (rows m (elems index)) |}.

Definition t_expand_as (x y : tensor) : tensor :=
  let xd := ndims x in
  let yd := ndims y in
  {| dims := dims y;
     elems :=
       map (fun j =>
              let idx := unravel yd j in
              let src :=
                map (fun '(d, i) => if Nat.eqb d 1 then 0%nat else i)
                  (combine xd idx) in
              nth (ravel xd src) (elems x) NaN)
         (seq 0 (count yd)) |}.

Definition t_map (f : fl -> fl) (t : tensor) : tensor :=
  {| dims := dims t; elems := map f (elems t) |}.

(** An operation element by element, on two tensors with as many
    elements, or on a tensor and a tensor with one element. *)
Definition t_zip (f : fl -> fl -> fl) (x y : tensor) : tensor :=
  if Nat.eqb (List.length (elems x)) (List.length (elems y)) then
    {| dims := dims x;
       elems := map (fun '(a, b) => f a b) (combine (elems x) (elems y)) |}
  else
    match elems x, elems y with
    | _, [b] => t_map (fun a => f a b) x
    | [a], _ => t_map (f a) y
    | _, _ => {| dims := dims x; elems := [] |}
    end.

Definition t_sum (t : tensor) : tensor :=
  {| dims := []; elems := [fold_right fl_add (Fin 0) (elems t)] |}.

Definition t_l1_sum (x y : tensor) : tensor :=
  t_sum (t_map fl_abs (t_zip fl_sub x y)).

Definition t_slice3 (x : tensor) (a : Z) (b : option Z) : tensor :=
  let len := Z.to_nat (List.last (dims x) 0%Z) in
  let lo := Z.to_nat a in
  let hi := Nat.min len (match b with Some b => Z.to_nat b | None => len end) in
  {| dims := removelast (dims x) ++ [Z.of_nat (hi - lo)];
     elems :=
       flat_map (fun row => firstn (hi - lo) (skipn lo row))
         (rows len (elems x)) |}.

(** Two lists of predictions [p] and [p'] that differ at most where the
    mask [m] is 0, and are finite there, as the target [t] is. *)
Inductive same_where_kept : list fl -> list fl -> list fl -> list fl -> Prop :=
| same_nil : same_where_kept [] [] [] []
| same_masked (z a a' b : Q) (m p p' t : list fl) :
    (z == 0)%Q ->
    same_where_kept m p p' t ->
    same_where_kept (Fin z :: m) (Fin a :: p) (Fin a' :: p') (Fin b :: t)
| same_kept (x y w : fl) (m p p' t : list fl) :
    same_where_kept m p p' t ->
    same_where_kept (x :: m) (y :: p) (y :: p') (w :: t).

(** The tensor run time over these tensors. The convolution branches
    are the identity, [sigmoid] is the rational stand-in, and the two
    loss classes are sums of absolute differences; what [get_loss] does
    between them is computed as the run time does. *)
Definition ieee_paddle : Paddle := {|
  Tensor := tensor;
  conv_branch := fun _ _ _ x => x;
  heatmap_branch := fun _ _ _ x => x;
  sigmoid := t_map fl_sigmoid;
  clip := fun x lo hi => t_map (fl_clip lo hi) x;
  transpose := t_transpose;
  shape := dims;
  reshape := t_reshape;
  unsqueeze := t_unsqueeze;
  full := t_full;
  concat_axis := t_concat;
  gather_nd := t_gather_nd;
  expand_as := t_expand_as;
  cast_like := fun x _ => x;
  tsum := t_sum;
  l1_loss_sum := t_l1_sum;
  slice3 := t_slice3;
  tadd := t_zip fl_add;
  tsub := t_zip fl_sub;
  tmul := t_zip fl_mul;
  tdiv := t_zip fl_div;
  tadd_num := fun x q => t_map (fun a => fl_add a (Fin q)) x;
  tdiv_num := fun x q => t_map (fun a => fl_div a (Fin q)) x;
  num_mul := fun q x => t_map (fl_mul (Fin q)) x;
  CTFocalLoss := t_l1_sum;
  GIoULoss_sum := fun p g w => t_sum (t_zip fl_mul (t_map fl_abs (t_zip fl_sub p g)) w)
|}.

Definition sample_inputs : gmap string Q :=
  <["heatmap" := 1%Q]>
    (<["index" := 0%Q]>
       (<["index_mask" := 1%Q]>
          (<["size" := 2%Q]>
             (<["offset" := (1 # 2)%Q]>
                (<["bbox_xys" := 3%Q]> ∅))))).

End Sample.


(* ===================================================================== *)
(** * Specification vocabulary                                            *)
(* ===================================================================== *)

Module Spec.

(** [rd] is [dic] merged over [base]: a key with a dictionary in [dic]
    that [base] has too holds the merge of the two entries, any other key
    of [dic] holds the value [dic] gives it, and the remaining keys are
    those of [base]. *)
Definition merged_over (dic base rd : dict) : Prop :=
  forall k,
    (forall v old,
        d_get k dic = Some (VDict v) -> d_get k base = Some old ->
        exists new,
          Config._update_dic (VDict v) old = Ok new /\ d_get k rd = Some new)
    /\ (forall v,
          d_get k dic = Some v ->
          is_dict v = false \/ d_get k base = None ->
          d_get k rd = Some v)
    /\ (d_get k dic = None -> d_get k rd = d_get k base).

(** What the merge of a child dictionary [dic] over a base value gives,
    level by level. A child that maps [_inherited_] to [False] is the
    result as it stands, less that key (the base must be a dictionary
    or a list, for it is copied first). Otherwise, over a base
    dictionary: a key that carries a dictionary in the child and is
    present in the base holds the merge of the two entries, every other
    key of the child holds the child's value as it stands, and the keys
    only the base has keep theirs. An empty child leaves a base list as
    it is. *)
Inductive merged : dict -> value -> value -> Prop :=
| merged_replaced (dic : dict) (base : value) :
    py_eq_False (default (VBool true) (d_get "_inherited_" dic)) = true ->
    (is_dict base = true \/ exists l, base = VList l) ->
    merged dic base (VDict (d_pop "_inherited_" dic))
| merged_keys (dic base rd : dict) :
    py_eq_False (default (VBool true) (d_get "_inherited_" dic)) = false ->
    (forall k,
        (forall v old,
            d_get k dic = Some (VDict v) -> d_get k base = Some old ->
            exists new, merged v old new /\ d_get k rd = Some new)
        /\ (forall v,
              d_get k dic = Some v ->
              is_dict v = false \/ d_get k base = None ->
              d_get k rd = Some v)
        /\ (d_get k dic = None -> d_get k rd = d_get k base)) ->
    merged dic (VDict base) (VDict rd)
| merged_empty (l : list value) : merged [] (VList l) (VList l).

Section Resolved.
Context `{OsEnv}.

(** The configuration a file stands for: the file itself when it has no
    [_base_]; otherwise the rest of its mapping merged over the
    configuration that the base file stands for, the base file being
    found from the directory of the file. *)
Inductive resolved : string -> value -> Prop :=
| resolved_plain (path : string) (dic : value) :
    yaml_files !! path = Some dic ->
    py_in "_base_" dic = Ok false ->
    resolved path dic
| resolved_base (path : string) (d : dict) (base_path : string)
    (base r : value) :
    yaml_files !! path = Some (VDict d) ->
    d_get "_base_" d = Some (VStr base_path) ->
    resolved (os_path_join (os_path_dirname path) base_path) base ->
    merged (d_pop "_base_" d) base r ->
    resolved path r.

End Resolved.

(** Every dictionary in [v], at any depth, has distinct keys, as every
    Python dictionary has. *)
Fixpoint well_keyed (v : value) : Prop :=
  match v with
  | VList xs =>
      (fix all (xs : list value) : Prop :=
         match xs with
         | [] => True
         | x :: xs' => well_keyed x /\ all xs'
         end) xs
  | VDict d =>
      List.NoDup (d_keys d)
      /\ (fix all (d : dict) : Prop :=
            match d with
            | [] => True
            | (_, x) :: d' => well_keyed x /\ all d'
            end) d
  | _ => True
  end.

(** A dataset configuration that is not there or has nothing in it. *)
Definition absent_or_empty (name : string) (d : dict) : Prop :=
  d_get name d = None
  \/ d_get name d = Some (VDict [])
  \/ d_get name d = Some (VList []).

(** A computation that leaves the [Config] object as it found it. *)
Definition keeps_self {A : Type} (m : Config.M A) : Prop :=
  forall st r st', m st = (r, st') -> Config.self st' = Config.self st.

Section Loaded.
Context `{Manager}.

(** What the claim about [_load_object] says, as a relation between
    the state before and the state after: [built cfg st o st'] holds
    when, in a run from [st] to [st'], the object [o] is built from the
    dictionary [cfg]. The constructor named by [type] is looked up; the
    keyword arguments are made from the other entries, in their order
    ([args_built]): the object built, in this run, from a value that is
    itself a dictionary with a [type], the list in which the dictionaries
    with a [type] are replaced by the objects built from them
    ([items_built]), and any other value as it stands; then the
    constructor is called with these arguments, the call is recorded
    and the new object is put on the heap. *)
Inductive built : value -> Config.state -> value -> Config.state -> Prop :=
| built_object (d : dict) (ty : value) (c : component) (params : dict)
    (inst : instance) (st st1 : Config.state) :
    d_get "type" d = Some ty ->
    Config._load_component ty = Ok c ->
    args_built (d_pop "type" d) st params st1 ->
    c params (Config.heap (Config.env st1)) = Ok inst ->
    built (VDict d) st
      (VObj (List.length (Config.heap (Config.env st1))))
      {| Config.self := Config.self st1;
         Config.env :=
           {| Config.heap := Config.heap (Config.env st1) ++ [inst];
              Config.calls :=
                Config.calls (Config.env st1) ++ [(ty, params)] |} |}
with args_built : dict -> Config.state -> dict -> Config.state -> Prop :=
| args_nil (st : Config.state) : args_built [] st [] st
| args_object (key : string) (val : value) (rest : dict) (o : value)
    (params : dict) (st st1 st' : Config.state) :
    Config._is_meta_type val = true ->
    built val st o st1 ->
    args_built rest st1 params st' ->
    args_built ((key, val) :: rest) st ((key, o) :: params) st'
| args_list (key : string) (xs : list value) (rest : dict)
    (l : list value) (params : dict) (st st1 st' : Config.state) :
    items_built xs st l st1 ->
    args_built rest st1 params st' ->
    args_built ((key, VList xs) :: rest) st ((key, VList l) :: params) st'
| args_verbatim (key : string) (val : value) (rest : dict) (params : dict)
    (st st' : Config.state) :
    Config._is_meta_type val = false ->
    (forall xs, val <> VList xs) ->
    args_built rest st params st' ->
    args_built ((key, val) :: rest) st ((key, val) :: params) st'
with items_built
    : list value -> Config.state -> list value -> Config.state -> Prop :=
| items_nil (st : Config.state) : items_built [] st [] st
| items_object (item : value) (xs : list value) (o : value)
    (l : list value) (st st1 st' : Config.state) :
    Config._is_meta_type item = true ->
    built item st o st1 ->
    items_built xs st1 l st' ->
    items_built (item :: xs) st (o :: l) st'
| items_verbatim (item : value) (xs : list value) (l : list value)
    (st st' : Config.state) :
    Config._is_meta_type item = false ->
    items_built xs st l st' ->
    items_built (item :: xs) st (item :: l) st'.

Scheme built_ind' := Minimality for built Sort Prop
  with args_built_ind' := Minimality for args_built Sort Prop
  with items_built_ind' := Minimality for items_built Sort Prop.

End Loaded.

Section LossCall.
Context `{Paddle}.
Local Open Scope Z_scope.

(** Ground truth, weights and predictions that every step of [get_loss]
    can work with: the ground truth and the weights have the entries that
    are read; the predictions are four-dimensional; the index has a second
    dimension once a third is added to it; and the ground-truth sizes have
    a last dimension. *)
Definition loss_inputs_ok (inputs : gmap string Tensor)
    (weights : gmap string Q) (size offset : Tensor) (iou : option Tensor)
    : Prop :=
  (forall k, k ∈ ["heatmap"; "index"; "index_mask"; "size"; "offset";
                  "bbox_xys"] -> is_Some (inputs !! k))
  /\ (forall k, k ∈ ["heatmap"; "size"; "offset"; "iou"] ->
                 is_Some (weights !! k))
  /\ (forall t, t = size \/ t = offset \/ iou = Some t ->
                 List.length (shape (transpose t [0; 2; 3; 1])) = 4%nat)
  /\ (forall index, inputs !! "index" = Some index ->
                     (2 <= List.length (shape (unsqueeze index 2)))%nat)
  /\ (forall s, inputs !! "size" = Some s -> shape s <> []).

(** The positions the losses are taken at: for each of the [n] samples
    of the batch, its number paired with each of the [k] flat spatial
    positions that [index] gives for it. *)
Definition positions (index : Tensor) (n k : Z) : Tensor :=
  let batch_inds :=
    (fun i => full [1; k; 1] i) <$> (Z.of_nat <$> seq 0 (Z.to_nat n)) in
  concat_axis [concat_axis batch_inds 0; unsqueeze index 2] 2.

(** The prediction [t], of [n] samples with [c] channels, at these
    positions. *)
Definition gathered_at (t : Tensor) (n c : Z) (pos : Tensor) : Tensor :=
  gather_nd (reshape (transpose t [0; 2; 3; 1]) [n; -1; c]) pos.

(** The mask derived from [index_mask] for the gathered prediction [t]. *)
Definition mask_like (index_mask t : Tensor) : Tensor :=
  cast_like (expand_as (unsqueeze index_mask 2) t) t.

(** A sum divided by the number of entries the mask keeps, plus 1e-4. *)
Definition masked_mean (sum mask : Tensor) : Tensor :=
  tdiv sum (tadd_num (tsum mask) (1 # 10000)%Q).

(** The target of the [L1] size loss: the ground-truth sizes, or, for a
    head that regresses width and height from four ground-truth
    extents, the sum of their two halves. *)
Definition l1_target (regress_ltrb : bool) (s : Tensor) (last : Z) : Tensor :=
  if regress_ltrb then s
  else if last =? 2 then s
  else tadd (slice3 s 0 (Some 2)) (slice3 s 2 None).


End LossCall.

End Spec.

Export Spec.

(** Further vocabulary, for the properties of the rest of the two files. *)
Module MoreSpec.

(** [v[k1][k2]...[kn]], through dictionaries only. *)
Fixpoint get_path (keys : list string) (v : value) : option value :=
  match keys with
  | [] => Some v
  | k :: keys' =>
      match v with
      | VDict d =>
          match d_get k d with
          | Some x => get_path keys' x
          | None => None
          end
      | _ => None
      end
  end.


(** A set of configuration files that is closed under [_base_]: each
    file of the set is a mapping that names, as its base, a file of the
    set again. A file that is its own base is the smallest example. *)
Definition base_closed `{OsEnv} (files : string -> Prop) : Prop :=
  forall path,
    files path ->
    exists d base_path,
      yaml_files !! path = Some (VDict d)
      /\ d_get "_base_" d = Some (VStr base_path)
      /\ files (os_path_join (os_path_dirname path) base_path).

(** The objects [os] are built from the entries [ts] one after the
    other in one run of [load]: the first in the state [st], each
    further one in the state the one before it has left, and [st'] is
    the state the last one leaves. *)
Inductive loaded_in_turn (load : value -> Config.M value)
    : list value -> Config.state -> list value -> Config.state -> Prop :=
| loaded_nil (st : Config.state) : loaded_in_turn load [] st [] st
| loaded_cons (t : value) (ts : list value) (o : value) (os : list value)
    (st st1 st' : Config.state) :
    load t st = (Ok o, st1) ->
    loaded_in_turn load ts st1 os st' ->
    loaded_in_turn load (t :: ts) st (o :: os) st'.

(** A computation whose start and end states are always related by
    [R]. *)
Definition respects {A : Type} (R : Config.state -> Config.state -> Prop)
    (m : Config.M A) : Prop :=
  forall st r st', m st = (r, st') -> R st st'.

(** Nothing is ever taken back: the objects built and the constructor
    calls made can only become more. *)
Definition grown (st st' : Config.state) : Prop :=
  (List.length (Config.heap (Config.env st))
   <= List.length (Config.heap (Config.env st')))%nat
  /\ (List.length (Config.calls (Config.env st))
      <= List.length (Config.calls (Config.env st')))%nat.

(** A computation that only reads: it ends, with a value or an
    exception, in the state it started in. *)
Definition reader {A : Type} (m : Config.M A) : Prop :=
  forall st, exists r, m st = (r, st) /\ r <> Diverge.

(** The number of input channels a model configuration gives: that of
    its backbone when it has one, its own otherwise. *)
Definition model_channels (model_cfg : dict) : option value :=
  match d_get "backbone" model_cfg with
  | Some (VDict backbone) => d_get "in_channels" backbone
  | Some _ => None
  | None => d_get "in_channels" model_cfg
  end.

(** What [self.train_dataset_class] and [self.val_dataset_class] find
    in the configuration [dic], for [name] the key of the dataset. *)
Definition dataset_class_of `{Manager} (name : string) (dic : value)
    : res component :=
  cfg ← Config.dataset_config name dic;
  dataset_type ← py_getitem cfg "type";
  Config._load_component dataset_type.

(** The dataset [name] of the configuration [d] gives [x] as the number
    of classes: through the [NUM_CLASSES] of its class or, where the
    class has none, under [num_classes]. *)
Definition dataset_num_classes `{Manager} `{ClassAttrs} (name : string)
    (d : dict) (x : value) : Prop :=
  exists cfg ty cls,
    d_get name d = Some (VDict cfg)
    /\ d_get "type" cfg = Some ty
    /\ Config._load_component ty = Ok cls
    /\ match NUM_CLASSES cls with
       | Some n => x = n
       | None => d_get "num_classes" cfg = Some x
       end.

(** The configuration [d] gives [x] as the number of classes: its model
    does (a value that is not [None]), or one of its two datasets
    does. *)
Definition gives_num_classes `{Manager} `{ClassAttrs} (d : dict) (x : value)
    : Prop :=
  (exists m,
      d_get "model" d = Some (VDict m)
      /\ d_get "num_classes" m = Some x /\ x <> VNone)
  \/ dataset_num_classes "train_dataset" d x
  \/ dataset_num_classes "val_dataset" d x.

(** The decay arguments [a] that the configuration [d] gives: those
    under [decay] of its [learning_rate] section, or [type: poly, power:
    0.9] where the section, or [decay] in it, is missing. *)
Definition decay_section (d a : dict) : Prop :=
  let dflt := [("type", VStr "poly"); ("power", VFloat (9 # 10))] in
  (d_get "learning_rate" d = None /\ a = dflt)
  \/ exists lr,
       d_get "learning_rate" d = Some (VDict lr)
       /\ ((d_get "decay" lr = None /\ a = dflt)
           \/ d_get "decay" lr = Some (VDict a)).

(** Two entries of a dictionary that are the same, or are two
    dictionaries that differ at most under the keys [keys]. *)
Definition differs_only_at (keys : list string) (v v' : option value)
    : Prop :=
  v' = v
  \/ exists c c',
       v = Some (VDict c) /\ v' = Some (VDict c')
       /\ forall k, ~ In k keys -> d_get k c' = d_get k c.

(** Between two states only the dictionary of the configuration may
    have changed: the objects built, the constructor calls made, the
    cached model and the cached losses are the same. *)
Definition only_dic_changed (st st' : Config.state) : Prop :=
  Config.env st' = Config.env st
  /\ Config.self st'
     = Config.set_dic (Config.dic (Config.self st')) (Config.self st).

(** The configuration [d] gives [x] as the number of image channels:
    its model does (a value that is not [None]), or one of its two
    datasets does under [img_channels]. *)
Definition gives_channels (d : dict) (x : value) : Prop :=
  (exists m,
      d_get "model" d = Some (VDict m)
      /\ model_channels m = Some x /\ x <> VNone)
  \/ (exists name cfg,
         (name = "train_dataset" \/ name = "val_dataset")
         /\ d_get name d = Some (VDict cfg)
         /\ d_get "img_channels" cfg = Some x).

(** The configuration is a mapping whose [lr_scheduler] entry is the
    dictionary [params]. *)
Definition params_are (params : dict) (st : Config.state) : Prop :=
  exists d,
    Config.dic (Config.self st) = VDict d
    /\ d_get "lr_scheduler" d = Some (VDict params).

End MoreSpec.

Export MoreSpec.

(* ===================================================================== *)
(** * Properties: dictionaries                                            *)
(* ===================================================================== *)

Module PyFacts.

Lemma d_get_set_eq (k : string) (v : value) (d : dict) :
  d_get k (d_set k v d) = Some v.
Proof.
  induction d as [|[k' v'] d IH]; simpl.
  - now rewrite String.eqb_refl.
  - destruct (String.eqb k' k) eqn:E; simpl.
    + now rewrite String.eqb_refl.
    + now rewrite E.
Qed.

Lemma d_get_set_ne (k k' : string) (v : value) (d : dict) :
  k <> k' -> d_get k' (d_set k v d) = d_get k' d.
Proof.
  intros Hne. induction d as [|[k0 v0] d IH]; simpl.
  - apply String.eqb_neq in Hne. now rewrite Hne.
  - destruct (String.eqb k0 k) eqn:E; simpl.
    + apply String.eqb_eq in E. subst k0.
      apply String.eqb_neq in Hne. now rewrite Hne.
    + now rewrite IH.
Qed.

Lemma d_get_pop_eq (k : string) (d : dict) : d_get k (d_pop k d) = None.
Proof.
  induction d as [|[k' v'] d IH]; simpl; [reflexivity|].
  destruct (String.eqb k' k) eqn:E; simpl; [assumption|].
  now rewrite E.
Qed.

Lemma d_get_pop_ne (k k' : string) (d : dict) :
  k <> k' -> d_get k' (d_pop k d) = d_get k' d.
Proof.
  intros Hne. induction d as [|[k0 v0] d IH]; simpl; [reflexivity|].
  destruct (String.eqb k0 k) eqn:E; simpl.
  - apply String.eqb_eq in E. subst k0.
    apply String.eqb_neq in Hne. now rewrite Hne.
  - now rewrite IH.
Qed.

Lemma d_get_None_keys (k : string) (d : dict) :
  d_get k d = None <-> ~ In k (d_keys d).
Proof.
  induction d as [|[k' v'] d IH]; simpl.
  - intuition.
  - destruct (String.eqb k' k) eqn:E.
    + apply String.eqb_eq in E. split; [discriminate | intros Hn; exfalso; auto].
    + apply String.eqb_neq in E. rewrite IH. intuition.
Qed.

Lemma d_mem_true (k : string) (d : dict) :
  d_mem k d = true <-> exists v, d_get k d = Some v.
Proof.
  unfold d_mem. destruct (d_get k d); split; intros Hx; eauto.
  - discriminate.
  - destruct Hx as [? Hx]. discriminate.
Qed.

Lemma d_mem_false (k : string) (d : dict) :
  d_mem k d = false <-> d_get k d = None.
Proof.
  unfold d_mem. destruct (d_get k d); split; intros Hx; congruence.
Qed.

Lemma d_keys_pop_subset (k k' : string) (d : dict) :
  In k' (d_keys (d_pop k d)) -> In k' (d_keys d).
Proof.
  induction d as [|[k0 v0] d IH]; simpl; [tauto|].
  destruct (String.eqb k0 k); simpl; intuition.
Qed.

Lemma d_pop_NoDup (k : string) (d : dict) :
  List.NoDup (d_keys d) -> List.NoDup (d_keys (d_pop k d)).
Proof.
  induction d as [|[k0 v0] d IH]; simpl; intros Hnd; [constructor|].
  inversion Hnd as [|? ? Hnin Hnd']; subst.
  destruct (String.eqb k0 k); simpl; auto.
  constructor; auto. intros Hin. apply Hnin. eapply d_keys_pop_subset; eauto.
Qed.

Lemma well_keyed_list (xs : list value) :
  well_keyed (VList xs) <-> Forall well_keyed xs.
Proof.
  induction xs as [|x xs IH]; simpl; split; intros Hx.
  - constructor.
  - exact I.
  - destruct Hx as [Hx Hxs]. constructor; [assumption|]. now apply IH.
  - inversion Hx; subst. split; [assumption|]. now apply IH.
Qed.

Lemma well_keyed_dict (d : dict) :
  well_keyed (VDict d)
  <-> List.NoDup (d_keys d) /\ Forall (fun kv => well_keyed kv.2) d.
Proof.
  simpl. apply and_iff_compat_l.
  induction d as [|[k v] d IH]; split; intros Hx.
  - constructor.
  - exact I.
  - destruct Hx as [Hx Hxs]. constructor; [assumption|]. now apply IH.
  - inversion Hx; subst. split; [assumption|]. now apply IH.
Qed.

Lemma Forall_d_pop (P : string * value -> Prop) (k : string) (d : dict) :
  Forall P d -> Forall P (d_pop k d).
Proof.
  induction 1 as [|[k' v] d Hx _ IH]; simpl; [constructor|].
  destruct (String.eqb k' k); [assumption|]. now constructor.
Qed.

Lemma Forall_mp {A : Type} (P Q : A -> Prop) (l : list A) :
  Forall (fun a => P a -> Q a) l -> Forall P l -> Forall Q l.
Proof.
  induction 1 as [|a l Ha _ IH]; intros Hp; inversion Hp; subst;
    constructor; auto.
Qed.

Lemma d_get_In (k : string) (v : value) (d : dict) :
  d_get k d = Some v -> In (k, v) d.
Proof.
  induction d as [|[k' v'] d IH]; simpl; [discriminate|].
  destruct (String.eqb_spec k' k) as [->|_]; [|auto].
  intros [= ->]. now left.
Qed.

Lemma well_keyed_d_pop (k : string) (d : dict) :
  well_keyed (VDict d) -> well_keyed (VDict (d_pop k d)).
Proof.
  intros Hwk. apply well_keyed_dict in Hwk as [Hnd Hvals].
  apply well_keyed_dict. split; [now apply d_pop_NoDup|].
  now apply Forall_d_pop.
Qed.

Lemma well_keyed_get (k : string) (v : value) (d : dict) :
  well_keyed (VDict d) -> d_get k d = Some v -> well_keyed v.
Proof.
  intros Hwk Hk. apply well_keyed_dict in Hwk as [_ Hvals].
  apply d_get_In in Hk.
  exact (proj1 (List.Forall_forall _ _) Hvals _ Hk).
Qed.

End PyFacts.

(* ===================================================================== *)
(** * Properties of config.py                                             *)
(* ===================================================================== *)

Module ConfigSpec.

Import PyFacts Config.

(** ** The registry lookup *)

(** C5. [_load_component] looks the name up in MODELS, BACKBONES,
    DATASETS, TRANSFORMS and LOSSES, in this order, and returns the
    constructor of the first registry that has it; a name that is in none
    of them raises [RuntimeError]. *)
Theorem load_component_first_match `{Manager} (com_name : string) :
  _load_component (VStr com_name) =
    match MODELS !! com_name with
    | Some c => Ok c
    | None =>
    match BACKBONES !! com_name with
    | Some c => Ok c
    | None =>
    match DATASETS !! com_name with
    | Some c => Ok c
    | None =>
    match TRANSFORMS !! com_name with
    | Some c => Ok c
    | None =>
    match LOSSES !! com_name with
    | Some c => Ok c
    | None => Raise RuntimeError
    end end end end end.
Proof.
  unfold _load_component. simpl.
  repeat (match goal with
          | |- context [?m !! com_name] => destruct (m !! com_name)
          end; try reflexivity).
Qed.

Section RegistryRuns.
#[local] Existing Instance Sample.registry.

(** The same name in two registries: the earlier registry wins. *)
Example load_component_UNet :
  _load_component (VStr "UNet") = Ok Sample.plain_class
  /\ TRANSFORMS !! "UNet" = Some Sample.dataset_class
  /\ _load_component (VStr "Resize") = Ok Sample.plain_class
  /\ _load_component (VStr "DeepLab") = Raise RuntimeError.
Proof. repeat split; vm_compute; reflexivity. Qed.

End RegistryRuns.

(** ** Merging *)

#[local] Arguments _update_dic : simpl never.

Ltac res_simpl :=
  cbn [mbind mret res_bind res_ret bind py_copy py_in py_getitem py_setitem]
    in *.

Lemma res_bind_Ok {A B : Type} (m : res A) (k : A -> res B) (b : B) :
  (m ≫= k) = Ok b -> exists a, m = Ok a /\ k a = Ok b.
Proof. destruct m; res_simpl; intros; eauto; discriminate. Qed.

Lemma update_dic_dict (dic base : dict) :
  _update_dic (VDict dic) (VDict base) =
    if py_eq_False (default (VBool true) (d_get "_inherited_" dic))
    then Ok (VDict (d_pop "_inherited_" dic))
    else update_loop _update_dic dic (VDict base).
Proof. reflexivity. Qed.

Lemma merged_over_cons (key : string) (val x : value)
    (rest base rd : dict) :
  d_get key rest = None ->
  merged_over rest (d_set key x base) rd ->
  (forall v old, val = VDict v -> d_get key base = Some old ->
     _update_dic (VDict v) old = Ok x) ->
  (is_dict val = false \/ d_get key base = None -> x = val) ->
  merged_over ((key, val) :: rest) base rd.
Proof.
  intros Hnin Hm Hrec Hover k.
  destruct (String.eqb_spec key k) as [->|Hne].
  - destruct (Hm k) as (_ & _ & Hm3).
    specialize (Hm3 Hnin). rewrite d_get_set_eq in Hm3.
    cbn [d_get]. rewrite String.eqb_refl. repeat split.
    + intros v old [= ->] Hold. exists x. split; [eapply Hrec; eauto | assumption].
    + intros v [= <-] Hcase. rewrite Hm3. f_equal. auto.
    + discriminate.
  - destruct (Hm k) as (Hm1 & Hm2 & Hm3).
    rewrite d_get_set_ne in Hm1, Hm2, Hm3 by assumption.
    cbn [d_get]. apply String.eqb_neq in Hne. rewrite Hne.
    repeat split; assumption.
Qed.

Lemma update_loop_merged (its base : dict) (r : value) :
  List.NoDup (d_keys its) ->
  update_loop _update_dic its (VDict base) = Ok r ->
  exists rd, r = VDict rd /\ merged_over its base rd.
Proof.
  revert base. induction its as [|[key val] rest IH]; intros base Hnd Hrun.
  - simpl in Hrun. injection Hrun as <-. exists base. split; [reflexivity|].
    intros k. repeat split; simpl; intros; try discriminate; reflexivity.
  - simpl in Hnd. inversion Hnd as [|? ? Hnin Hnd']; subst.
    apply d_get_None_keys in Hnin.
    assert (Hplain :
      update_loop _update_dic rest (VDict (d_set key val base)) = Ok r ->
      is_dict val = false \/ d_get key base = None ->
      exists rd, r = VDict rd /\ merged_over ((key, val) :: rest) base rd).
    { intros Hx Hcase. destruct (IH _ Hnd' Hx) as (rd & -> & Hm).
      exists rd. split; [reflexivity|].
      apply (merged_over_cons key val val); auto.
      intros v old -> Hold.
      destruct Hcase as [Hd|Hn]; [simpl in Hd; discriminate | congruence]. }
    destruct val as [| | | | |xs|v|]; simpl in Hrun;
      try (apply Hplain; [exact Hrun | left; reflexivity]).
    res_simpl. destruct (d_mem key base) eqn:Hmem.
    + apply d_mem_true in Hmem as [old Hold]. rewrite Hold in Hrun.
      res_simpl.
      destruct (_update_dic (VDict v) old) as [new| |] eqn:Hnew;
        try discriminate.
      res_simpl. destruct (IH _ Hnd' Hrun) as (rd & -> & Hm).
      exists rd. split; [reflexivity|].
      apply (merged_over_cons key (VDict v) new); auto.
      * intros v' old' [= <-] Hold'. congruence.
      * intros [Hd|Hn]; [simpl in Hd; discriminate | congruence].
    + apply d_mem_false in Hmem. apply Hplain; [exact Hrun | now right].
Qed.

(** The loop goes through when each of the recursive merges does. *)
Lemma update_loop_returns (its base : dict) :
  List.NoDup (d_keys its) ->
  (forall k v old,
      d_get k its = Some (VDict v) -> d_get k base = Some old ->
      exists new, _update_dic (VDict v) old = Ok new) ->
  exists rd, update_loop _update_dic its (VDict base) = Ok (VDict rd).
Proof.
  revert base. induction its as [|[key val] rest IH]; intros base Hnd Hrec.
  - exists base. reflexivity.
  - simpl in Hnd. inversion Hnd as [|? ? Hnin Hnd']; subst.
    pose proof Hnin as Hnin'. apply d_get_None_keys in Hnin.
    assert (Hrest : forall x k v old,
      d_get k rest = Some (VDict v) ->
      d_get k (d_set key x base) = Some old ->
      exists new, _update_dic (VDict v) old = Ok new).
    { intros x k v old Hk Hold.
      destruct (String.eqb_spec key k) as [->|Hne]; [congruence|].
      rewrite d_get_set_ne in Hold by assumption.
      apply (Hrec k v old); [|assumption].
      simpl. apply String.eqb_neq in Hne. now rewrite Hne. }
    destruct val as [| | | | |xs|v|]; simpl; res_simpl;
      try (apply IH; [assumption | apply Hrest]).
    destruct (d_mem key base) eqn:Hmem.
    + apply d_mem_true in Hmem as [old Hold]. rewrite Hold. res_simpl.
      destruct (Hrec key v old) as [new Hnew]; [|assumption|].
      { simpl. now rewrite String.eqb_refl. }
      rewrite Hnew. res_simpl. apply IH; [assumption | apply Hrest].
    + apply IH; [assumption | apply Hrest].
Qed.

(** ** The merge, level by level *)

Lemma update_loop_list_base (its : dict) (l : list value) (r : value) :
  update_loop _update_dic its (VList l) = Ok r -> its = [] /\ r = VList l.
Proof.
  destruct its as [|[key val] rest]; simpl.
  - intros [= <-]. auto.
  - destruct val; res_simpl; try discriminate.
    destruct (existsb _ l); discriminate.
Qed.

(** A merge that returns has merged. *)
Lemma merged_sound (dic : dict) (base r : value) :
  well_keyed (VDict dic) ->
  _update_dic (VDict dic) base = Ok r -> merged dic base r.
Proof.
  set (P := fun v : value =>
    forall dic base r,
      v = VDict dic -> well_keyed v ->
      _update_dic v base = Ok r -> merged dic base r).
  cut (P (VDict dic)
       /\ match VDict dic with
          | VList xs => Forall P xs
          | _ => True
          end); [intros [HP _] Hwk Hrun; now apply (HP dic base r)|].
  generalize (VDict dic). clear dic base r.
  fix IH 1. intros [| | | | |xs|d|]; (split; [|try exact I]);
    try (intros dic base r Heq; discriminate).
  - revert xs. fix IHxs 1. intros [|x xs]; constructor.
    + apply IH.
    + apply IHxs.
  - intros dic base r [= <-] Hwk Hrun.
    assert (Hall : Forall (fun kv => P kv.2) d).
    { clear - IH. revert d. fix IHd 1. intros [|[k v] d]; constructor.
      - apply IH.
      - apply IHd. }
    clear IH.
    assert (Hcopy : is_dict base = true \/ exists l, base = VList l).
    { destruct base; try discriminate; eauto. }
    destruct (py_eq_False (default (VBool true) (d_get "_inherited_" d)))
      eqn:Hinh.
    + assert (r = VDict (d_pop "_inherited_" d)) as ->.
      { destruct Hcopy as [Hd|[l ->]].
        - destruct base; try discriminate. rewrite update_dic_dict in Hrun.
          rewrite Hinh in Hrun. congruence.
        - unfold _update_dic in Hrun. res_simpl. rewrite Hinh in Hrun.
          congruence. }
      now constructor.
    + destruct Hcopy as [Hd|[l ->]].
      * destruct base as [| | | | | |b|]; try discriminate.
        rewrite update_dic_dict, Hinh in Hrun.
        pose proof Hwk as Hwk'. apply well_keyed_dict in Hwk' as [Hnd _].
        apply update_loop_merged in Hrun as (rd & -> & Hm); [|assumption].
        apply merged_keys; [assumption|].
        intros k. destruct (Hm k) as (H1 & H2 & H3).
        split; [|split; assumption].
        intros v old Hv Hold. destruct (H1 v old Hv Hold) as (new & Hnew & Hk).
        exists new. split; [|assumption].
        pose proof (d_get_In _ _ _ Hv) as Hin.
        apply (proj1 (List.Forall_forall _ _) Hall _ Hin v old new eq_refl);
          [|assumption].
        eapply well_keyed_get; eauto.
      * assert (Hloop : update_loop _update_dic d (VList l) = Ok r).
        { unfold _update_dic in Hrun. res_simpl. rewrite Hinh in Hrun.
          exact Hrun. }
        apply update_loop_list_base in Hloop as [-> ->]. constructor.
Qed.

(** A merge that the relation admits returns. *)
Lemma merged_returns (dic : dict) (base r : value) :
  well_keyed (VDict dic) ->
  merged dic base r -> exists r', _update_dic (VDict dic) base = Ok r'.
Proof.
  set (P := fun v : value =>
    forall dic base r,
      v = VDict dic -> well_keyed v ->
      merged dic base r -> exists r', _update_dic v base = Ok r').
  cut (P (VDict dic)
       /\ match VDict dic with
          | VList xs => Forall P xs
          | _ => True
          end); [intros [HP _] Hwk Hm; now apply (HP dic base r)|].
  generalize (VDict dic). clear dic base r.
  fix IH 1. intros [| | | | |xs|d|]; (split; [|try exact I]);
    try (intros dic base r Heq; discriminate).
  - revert xs. fix IHxs 1. intros [|x xs]; constructor.
    + apply IH.
    + apply IHxs.
  - intros dic base r [= <-] Hwk Hm.
    assert (Hall : Forall (fun kv => P kv.2) d).
    { clear - IH. revert d. fix IHd 1. intros [|[k v] d]; constructor.
      - apply IH.
      - apply IHd. }
    clear IH.
    inversion Hm as [dic' base' Hinh Hcopy|dic' b rd Hinh Hkeys|l]; subst.
    + exists (VDict (d_pop "_inherited_" d)).
      destruct Hcopy as [Hd|[l ->]].
      * destruct base; try discriminate. rewrite update_dic_dict.
        now rewrite Hinh.
      * unfold _update_dic. res_simpl. now rewrite Hinh.
    + rewrite update_dic_dict, Hinh.
      pose proof Hwk as Hwk'. apply well_keyed_dict in Hwk' as [Hnd _].
      destruct (update_loop_returns d b Hnd) as [rd' Hrd']; [|eauto].
      intros k v old Hv Hold.
      destruct (Hkeys k) as (H1 & _ & _).
      destruct (H1 v old Hv Hold) as (new & Hnew & _).
      pose proof (d_get_In _ _ _ Hv) as Hin.
      apply (proj1 (List.Forall_forall _ _) Hall _ Hin v old new eq_refl);
        [|assumption].
      eapply well_keyed_get; eauto.
    + exists (VList l). reflexivity.
Qed.

(** ** Following [_base_] *)

Lemma parse_fuel_mono `{OsEnv} (fuel fuel' : nat) (path : string)
    (r : res value) :
  _parse_from_yaml fuel path = r -> r <> Diverge -> fuel <= fuel' ->
  _parse_from_yaml fuel' path = r.
Proof.
  revert fuel' path r.
  induction fuel as [|n IH]; intros fuel' path r Hrun Hr Hle.
  - simpl in Hrun. congruence.
  - destruct fuel' as [|m]; [lia|].
    simpl in Hrun |- *.
    destruct (yaml_files !! path) as [dic|]; [|assumption].
    destruct (py_in "_base_" dic) as [[|]| |]; res_simpl; try assumption.
    destruct dic as [| | | | |xs|d|]; try assumption.
    destruct (d_get "_base_" d) as [[| | | |base_path| | |]|]; try assumption.
    destruct (_parse_from_yaml n (os_path_join (os_path_dirname path) base_path))
      as [base_dic| |] eqn:Hbase.
    + rewrite (IH m _ (Ok base_dic)); [assumption|assumption|discriminate|lia].
    + rewrite (IH m _ (Raise e)); [assumption|assumption|discriminate|lia].
    + res_simpl. congruence.
Qed.

(** C2. A configuration file, the dictionaries in the files having
    distinct keys. A file without [_base_] is returned as it is. A file
    whose mapping has [_base_] is returned as the rest of its mapping
    merged over what the base file, found from the directory of the
    file, gives when parsed in the same way: whatever a parse returns is
    the configuration the file stands for, and a parse does return, for
    every budget larger than the one the base needs, once the base file
    parses and the merge is one the relation admits. The merge is the
    one of [merged], level by level: a dictionary reached by the
    recursion that maps [_inherited_] to [False] replaces the base entry
    and loses that key; a dictionary inside it, or under a key the base
    lacks, is taken as it stands. *)
Theorem base_config_merged `{OsEnv} :
  (forall p v, yaml_files !! p = Some v -> well_keyed v) ->
  (forall fuel path r, _parse_from_yaml fuel path = Ok r -> resolved path r)
  /\ (forall path dic fuel,
        yaml_files !! path = Some dic -> py_in "_base_" dic = Ok false ->
        _parse_from_yaml (S fuel) path = Ok dic)
  /\ (forall n path d base_path base r,
        yaml_files !! path = Some (VDict d) ->
        d_get "_base_" d = Some (VStr base_path) ->
        _parse_from_yaml n (os_path_join (os_path_dirname path) base_path)
          = Ok base ->
        merged (d_pop "_base_" d) base r ->
        exists r',
          (forall fuel, n < fuel -> _parse_from_yaml fuel path = Ok r')
          /\ merged (d_pop "_base_" d) base r').
Proof.
  intros Hfiles. split; [|split].
  - induction fuel as [|n IH]; intros path r Hrun; [discriminate|].
    simpl in Hrun.
    destruct (yaml_files !! path) as [dic|] eqn:Hfile; [|discriminate].
    destruct (py_in "_base_" dic) as [[|]| |] eqn:Hin; res_simpl;
      try discriminate.
    + destruct dic as [| | | | |xs|d|]; try discriminate.
      destruct (d_get "_base_" d) as [[| | | |base_path| | |]|] eqn:Hbase;
        try discriminate.
      apply res_bind_Ok in Hrun as (base & Hb & Hrun).
      eapply resolved_base; eauto.
      apply merged_sound; [|assumption].
      apply well_keyed_d_pop. eapply Hfiles; eauto.
    + injection Hrun as <-. now apply resolved_plain.
  - intros path dic fuel Hfile Hin. simpl. rewrite Hfile, Hin. reflexivity.
  - intros n path d base_path base r Hfile Hbase Hb Hm.
    assert (Hwk : well_keyed (VDict (d_pop "_base_" d))).
    { apply well_keyed_d_pop. eapply Hfiles; eauto. }
    destruct (merged_returns _ _ _ Hwk Hm) as [r' Hr'].
    exists r'. split; [|now apply merged_sound].
    intros fuel Hlt. destruct fuel as [|m]; [lia|].
    simpl. rewrite Hfile. res_simpl. unfold d_mem. rewrite Hbase.
    rewrite (parse_fuel_mono n m _ (Ok base)); [assumption|assumption| |lia].
    discriminate.
Qed.

Section MergeRuns.

Lemma posix_files_well_keyed :
  forall p v, @yaml_files Sample.posix !! p = Some v -> well_keyed v.
Proof.
  intros p v Hp. cbn [yaml_files Sample.posix] in Hp.
  repeat (apply lookup_insert_Some in Hp as [[_ <-]|[_ Hp]];
          [simpl; repeat split; repeat constructor; simpl;
           intuition discriminate|]).
  inversion Hp.
Qed.

Lemma base_config_merged_witness :
  let merged_yml :=
    VDict [("batch_size", VInt 4);
           ("iters", VInt 2000);
           ("train_dataset",
             VDict [("type", VStr "Dataset");
                    ("dataset_root", VStr "data");
                    ("mode", VStr "train")]);
           ("model",
             VDict [("type", VStr "UNet");
                    ("num_classes", VInt 19);
                    ("backbone", VDict [("type", VStr "HRNet")])]);
           ("loss",
             VDict [("types",
                      VList [VDict [("type", VStr "CrossEntropyLoss")]]);
                    ("coef", VList [VInt 1; VInt 1])])] in
  @_parse_from_yaml Sample.posix 1 "configs/base.yml" = Ok Sample.base_yml
  /\ (forall fuel,
        1 < fuel ->
        @_parse_from_yaml Sample.posix fuel "configs/child.yml"
        = Ok merged_yml)
  /\ @resolved Sample.posix "configs/child.yml" merged_yml.
Proof.
  intros merged_yml.
  destruct (@base_config_merged Sample.posix posix_files_well_keyed)
    as (Hsound & Hplain & Hbase).
  assert (Hb : @_parse_from_yaml Sample.posix 1 "configs/base.yml"
               = Ok Sample.base_yml).
  { apply Hplain; vm_compute; reflexivity. }
  split; [exact Hb|].
  assert (Hfile : @yaml_files Sample.posix !! "configs/child.yml"
                  = Some Sample.child_yml) by (vm_compute; reflexivity).
  assert (Hm : merged
                 (d_pop "_base_"
                    [("_base_", VStr "base.yml");
                     ("iters", VInt 2000);
                     ("model",
                       VDict [("num_classes", VInt 19);
                              ("backbone",
                                VDict [("_inherited_", VBool false);
                                       ("type", VStr "HRNet")])])])
                 Sample.base_yml merged_yml).
  { apply merged_sound; [|vm_compute; reflexivity].
    simpl. repeat split; repeat constructor; simpl; intuition discriminate. }
  destruct (Hbase 1 "configs/child.yml" _ "base.yml" Sample.base_yml
              merged_yml Hfile eq_refl Hb Hm) as (r' & Hr' & _).
  assert (r' = merged_yml) as ->.
  { specialize (Hr' 2 ltac:(lia)). vm_compute in Hr'. now injection Hr'. }
  split; [exact Hr'|].
  apply (Hsound 2). apply Hr'. lia.
Defined.

(** The [_inherited_] key is not always removed: in [configs/top.yml]
    the dictionary [backbone] sits inside the dictionary [model], which
    replaces its base entry and is therefore taken as it stands, and
    [head] is a key the base lacks; both map [_inherited_] to [False],
    [backbone] has a dictionary in the base to replace, and both keep
    the key in the parsed configuration. *)
Lemma inherited_key_kept :
  get_path ["model"; "backbone"; "_inherited_"] Sample.top_yml
    = Some (VBool false)
  /\ get_path ["head"; "_inherited_"] Sample.top_yml = Some (VBool false)
  /\ get_path ["model"; "backbone"] Sample.bottom_yml
     = Some (VDict [("type", VStr "ResNet"); ("depth", VInt 50)])
  /\ exists r,
       @_parse_from_yaml Sample.nested 2 "configs/top.yml" = Ok r
       /\ get_path ["model"; "backbone"] r
          = Some (VDict [("_inherited_", VBool false);
                         ("type", VStr "HRNet")])
       /\ get_path ["model"; "backbone"; "_inherited_"] r
          = Some (VBool false)
       /\ get_path ["head"; "_inherited_"] r = Some (VBool false).
Proof.
  repeat (split; [reflexivity|]).
  eexists. split; [vm_compute; reflexivity|]. repeat split.
Qed.

(** A dictionary that replaces its base entry is taken as it stands:
    nothing inside it is merged, so a dictionary inside it keeps its own
    [_inherited_] key; and so does a dictionary under a key the base does
    not have, which is simply assigned. *)
Example replaced_dictionary_is_not_merged :
  _update_dic
    (VDict [("a", VDict [("_inherited_", VBool false);
                         ("b", VDict [("_inherited_", VBool false);
                                      ("c", VInt 1)])]);
            ("n", VDict [("_inherited_", VBool false); ("c", VInt 1)])])
    (VDict [("a", VDict [("b", VDict [("d", VInt 2)]); ("e", VInt 3)])])
  = Ok (VDict
          [("a", VDict [("b", VDict [("_inherited_", VBool false);
                                     ("c", VInt 1)])]);
           ("n", VDict [("_inherited_", VBool false); ("c", VInt 1)])]).
Proof. reflexivity. Qed.

(** A base entry that is no dictionary cannot be merged with one. *)
Example merge_with_scalar_fails :
  _update_dic (VDict [("lr", VDict [("value", VInt 1)])])
              (VDict [("lr", VInt 3)])
  = Raise AttributeError.
Proof. reflexivity. Qed.

End MergeRuns.

(** ** The constructor *)

Lemma dataset_config_falsy (name : string) (d : dict) :
  absent_or_empty name d ->
  exists c, dataset_config name (VDict d) = Ok c /\ truthy_builtin c = false.
Proof.
  unfold dataset_config, py_get.
  intros [Hd|[Hd|Hd]]; rewrite Hd; simpl; eauto.
Qed.

Lemma dataset_config_truthy (name : string) (d : dict) (c : value) :
  dataset_config name (VDict d) = Ok c -> truthy_builtin c = true ->
  exists v, d_get name d = Some v /\ truthy_builtin v = true.
Proof.
  unfold dataset_config, py_get. res_simpl.
  destruct (d_get name d) as [v|]; simpl.
  - intros Hc Ht. exists v. split; [reflexivity|].
    destruct v; simpl in Hc; try discriminate; injection Hc as <-; exact Ht.
  - intros [= <-]. discriminate.
Qed.

(** C8. The checks of [Config.__init__], in the order in which they are
    made: an empty path raises [ValueError]; a path that is no file
    raises [FileNotFoundError]; a file whose name ends neither in [yml]
    nor in [yaml] raises [RuntimeError]; once the file is parsed and the
    overrides are applied, a configuration without the key [model] raises
    [RuntimeError], and one with a model whose [train_dataset] and
    [val_dataset] are both absent or empty raises [ValueError]. A [Config]
    object comes into being only when every one of these checks has
    passed. *)
Theorem init_checks `{OsEnv} (fuel : nat) (path : string)
    (learning_rate batch_size iters : value) (opts : option (list value)) :
  let init := __init__ fuel path learning_rate batch_size iters opts in
  let is_yaml := endswith "yml" path || endswith "yaml" path in
  (path = "" -> init = Raise ValueError)
  /\ (path <> "" -> yaml_files !! path = None ->
      init = Raise FileNotFoundError)
  /\ (path <> "" -> is_Some (yaml_files !! path) -> is_yaml = false ->
      init = Raise RuntimeError)
  /\ (forall parsed d,
        path <> "" -> is_Some (yaml_files !! path) -> is_yaml = true ->
        _parse_from_yaml fuel path = Ok parsed ->
        update learning_rate batch_size iters opts parsed = Ok (VDict d) ->
        (d_get "model" d = None -> init = Raise RuntimeError)
        /\ (forall m,
              d_get "model" d = Some m -> m <> VNone ->
              absent_or_empty "train_dataset" d ->
              absent_or_empty "val_dataset" d ->
              init = Raise ValueError))
  /\ (forall c,
        init = Ok c ->
        path <> "" /\ is_Some (yaml_files !! path) /\ is_yaml = true
        /\ exists parsed d m,
             _parse_from_yaml fuel path = Ok parsed
             /\ update learning_rate batch_size iters opts parsed = Ok (VDict d)
             /\ dic c = VDict d
             /\ d_get "model" d = Some m /\ m <> VNone
             /\ ((exists v, d_get "train_dataset" d = Some v
                            /\ truthy_builtin v = true)
                 \/ (exists v, d_get "val_dataset" d = Some v
                               /\ truthy_builtin v = true))).
Proof.
  intros init is_yaml. subst init is_yaml. unfold __init__, os_path_exists.
  cbn [truthy_builtin].
  repeat apply conj.
  - intros ->. reflexivity.
  - intros Hp Hf. apply String.eqb_neq in Hp. rewrite Hp, Hf. reflexivity.
  - intros Hp [x Hf] Hy. apply String.eqb_neq in Hp.
    rewrite Hp, Hf, Hy. reflexivity.
  - intros parsed d Hp [x Hf] Hy Hparse Hupd.
    apply String.eqb_neq in Hp. rewrite Hp, Hf, Hy. cbn [negb].
    rewrite Hparse. res_simpl. rewrite Hupd. res_simpl. cbn [py_get].
    split.
    + intros Hm. rewrite Hm. reflexivity.
    + intros m Hm Hne Htrain Hval. rewrite Hm. cbn [default].
      destruct (dataset_config_falsy _ _ Htrain) as (t & Ht & Htf).
      destruct (dataset_config_falsy _ _ Hval) as (v & Hv & Hvf).
      unfold train_dataset_config, val_dataset_config.
      rewrite Ht, Hv. res_simpl. rewrite Htf, Hvf.
      destruct m; try reflexivity. congruence.
  - intros c Hinit.
    destruct (String.eqb path "") eqn:Hp; [discriminate|].
    apply String.eqb_neq in Hp. cbn [negb] in Hinit.
    destruct (yaml_files !! path) as [x|] eqn:Hf; [|discriminate].
    cbn [negb] in Hinit.
    destruct (endswith "yml" path || endswith "yaml" path) eqn:Hy;
      [|discriminate].
    apply res_bind_Ok in Hinit as (parsed & Hparse & Hinit).
    apply res_bind_Ok in Hinit as (d0 & Hupd & Hinit).
    apply res_bind_Ok in Hinit as (m & Hget & Hinit).
    destruct d0 as [| | | | | |d|]; try discriminate.
    cbn [py_get] in Hget. injection Hget as Hget.
    assert (Hm : d_get "model" d = Some m /\ m <> VNone).
    { destruct (d_get "model" d) as [m'|]; simpl in Hget; subst m.
      - split; [reflexivity|]. intros Hn. rewrite Hn in Hinit. discriminate.
      - discriminate. }
    destruct Hm as [Hm Hne].
    assert (Hdone :
      dic c = VDict d
      /\ ((exists v, d_get "train_dataset" d = Some v
                     /\ truthy_builtin v = true)
          \/ (exists v, d_get "val_dataset" d = Some v
                        /\ truthy_builtin v = true))).
    { destruct m; [congruence|..];
        (apply res_bind_Ok in Hinit as (t & Ht & Hrest);
         destruct (truthy_builtin t) eqn:Htt; cbn [negb] in Hrest;
         [ injection Hrest as <-; split;
           [reflexivity | left; eapply dataset_config_truthy; eauto]
         | apply res_bind_Ok in Hrest as (v & Hv & Hrest);
           destruct (truthy_builtin v) eqn:Hvt; cbn [negb] in Hrest;
           [|discriminate];
           injection Hrest as <-; split;
           [reflexivity | right; eapply dataset_config_truthy; eauto] ]). }
    destruct Hdone as [Hdic Hdata].
    repeat split; eauto.
    exists parsed, d, m. repeat split; assumption.
Qed.

Section InitRuns.
#[local] Existing Instance Sample.posix.

Lemma init_checks_witness :
  __init__ 5 "" VNone VNone VNone None = Raise ValueError
  /\ __init__ 5 "configs/none.yml" VNone VNone VNone None
     = Raise FileNotFoundError
  /\ __init__ 5 "configs/notes.txt" VNone VNone VNone None
     = Raise RuntimeError
  /\ __init__ 5 "configs/nomodel.yml" VNone VNone VNone None
     = Raise RuntimeError
  /\ __init__ 5 "configs/nodata.yml" VNone VNone VNone None
     = Raise ValueError
  /\ (exists c d,
        __init__ 5 "configs/child.yml" VNone VNone (VInt 3000) None = Ok c
        /\ dic c = VDict d
        /\ d_get "iters" d = Some (VInt 3000)
        /\ is_Some (d_get "model" d)).
Proof.
  assert (Hne : forall s, String.eqb s "" = false -> s <> "")
    by (intros s Hs; now apply String.eqb_neq).
  assert (Hsome : forall p x, yaml_files !! p = Some x ->
                              is_Some (yaml_files !! p)) by eauto.
  split.
  { apply (init_checks 5 "" VNone VNone VNone None). reflexivity. }
  split.
  { apply (init_checks 5 "configs/none.yml" VNone VNone VNone None).
    - now apply Hne.
    - vm_compute. reflexivity. }
  split.
  { apply (init_checks 5 "configs/notes.txt" VNone VNone VNone None).
    - now apply Hne.
    - eapply Hsome. vm_compute. reflexivity.
    - vm_compute. reflexivity. }
  split.
  { eapply (init_checks 5 "configs/nomodel.yml" VNone VNone VNone None).
    - now apply Hne.
    - eapply Hsome. vm_compute. reflexivity.
    - vm_compute. reflexivity.
    - vm_compute. reflexivity.
    - vm_compute. reflexivity.
    - reflexivity. }
  split.
  { eapply (init_checks 5 "configs/nodata.yml" VNone VNone VNone None).
    - now apply Hne.
    - eapply Hsome. vm_compute. reflexivity.
    - vm_compute. reflexivity.
    - vm_compute. reflexivity.
    - vm_compute. reflexivity.
    - reflexivity.
    - discriminate.
    - right. left. reflexivity.
    - left. reflexivity. }
  destruct (__init__ 5 "configs/child.yml" VNone VNone (VInt 3000) None)
    as [c| |] eqn:Hc; try (vm_compute in Hc; discriminate).
  destruct (init_checks 5 "configs/child.yml" VNone VNone (VInt 3000) None)
    as (_ & _ & _ & _ & Hok).
  destruct (Hok c Hc) as (_ & _ & _ & parsed & d & m & _ & _ & Hd & Hm & _).
  exists c, d. split; [reflexivity|]. split; [exact Hd|].
  split; [|eauto].
  vm_compute in Hc. injection Hc as <-. injection Hd as <-. reflexivity.
Defined.

End InitRuns.

(** ** Methods as state transformers *)

Lemma M_bind_Ok {A B : Type} (m : M A) (k : A -> M B) (st st' : state)
    (b : B) :
  (m ≫= k) st = (Ok b, st') ->
  exists a st1, m st = (Ok a, st1) /\ k a st1 = (Ok b, st').
Proof.
  unfold mbind, M_bind. destruct (m st) as [[a|e|] st1]; intros Hrun.
  - eauto.
  - congruence.
  - congruence.
Qed.

Lemma lift_Ok {A : Type} (r : res A) (st st' : state) (a : A) :
  lift r st = (Ok a, st') -> r = Ok a /\ st' = st.
Proof. unfold lift. intros [= -> ->]. auto. Qed.

Lemma keeps_self_ret {A : Type} (a : A) : keeps_self (mret a : M A).
Proof. intros st r st' [= _ <-]. reflexivity. Qed.

Lemma keeps_self_lift {A : Type} (r : res A) : keeps_self (lift r).
Proof. intros st r' st' [= _ <-]. reflexivity. Qed.

Lemma keeps_self_raise {A : Type} (e : exn) : keeps_self (raise e : M A).
Proof. apply keeps_self_lift. Qed.

Lemma keeps_self_bind {A B : Type} (m : M A) (k : A -> M B) :
  keeps_self m -> (forall a, keeps_self (k a)) -> keeps_self (m ≫= k).
Proof.
  intros Hm Hk st r st'. unfold mbind, M_bind.
  destruct (m st) as [[a|e|] st1] eqn:Hrun; intros Hr.
  - rewrite (Hk _ _ _ _ Hr). eapply Hm; eauto.
  - injection Hr as <- <-. eapply Hm; eauto.
  - injection Hr as <- <-. eapply Hm; eauto.
Qed.

Lemma keeps_self_call (type : value) (c : component) (params : dict) :
  keeps_self (call type c params).
Proof.
  intros st r st'. unfold call.
  destruct (c params _); intros [= _ <-]; reflexivity.
Qed.

Create HintDb keeps.

#[local] Hint Resolve keeps_self_ret keeps_self_lift keeps_self_raise
  keeps_self_call : keeps.

Section LoadObject.
Context `{Manager}.

#[local] Arguments _load_object : simpl never.

Lemma load_object_dict (d : dict) :
  _load_object (VDict d) =
    if negb (d_mem "type" d) then raise RuntimeError
    else
      type ← lift (py_getitem (VDict d) "type");
      component ← lift (_load_component type);
      params ← load_params _load_object d [];
      call type component params.
Proof. reflexivity. Qed.

Lemma load_list_keeps_self (xs : list value) :
  Forall (fun x => keeps_self (_load_object x)) xs ->
  keeps_self (load_list _load_object xs).
Proof.
  induction 1 as [|x xs Hx _ IH]; simpl; auto with keeps.
  apply keeps_self_bind.
  - destruct (_is_meta_type x); auto with keeps.
  - intros a. apply keeps_self_bind; auto with keeps.
Qed.

Lemma load_params_keeps_self (its params : dict) :
  Forall (fun kv =>
            keeps_self (_load_object kv.2)
            /\ match kv.2 with
               | VList xs => Forall (fun x => keeps_self (_load_object x)) xs
               | _ => True
               end) its ->
  keeps_self (load_params _load_object its params).
Proof.
  intros Hits. revert params.
  induction Hits as [|[key val] its [Hval Hlist] _ IH]; intros params;
    simpl; auto with keeps.
  destruct (String.eqb key "type"); [apply IH|].
  destruct (_is_meta_type val).
  - apply keeps_self_bind; auto.
  - simpl in Hlist. destruct val; auto.
    apply keeps_self_bind; auto using load_list_keeps_self.
Qed.

(** Building an object changes nothing in the [Config] object: neither
    its dictionary, from which [cfg] comes, nor what it has cached. *)
Lemma load_object_keeps_self (cfg : value) : keeps_self (_load_object cfg).
Proof.
  cut (keeps_self (_load_object cfg)
       /\ match cfg with
          | VList xs => Forall (fun x => keeps_self (_load_object x)) xs
          | _ => True
          end); [tauto|].
  revert cfg. fix IH 1. intros [| | | | |xs|d|]; (split; [|try exact I]);
    try (apply keeps_self_raise).
  - unfold _load_object. destruct (existsb _ xs); apply keeps_self_raise.
  - revert xs. fix IHxs 1. intros [|x xs]; constructor.
    + apply IH.
    + apply IHxs.
  - rewrite load_object_dict.
    destruct (negb (d_mem "type" d)); [apply keeps_self_raise|].
    apply keeps_self_bind; [auto with keeps|]. intros type.
    apply keeps_self_bind; [auto with keeps|]. intros component.
    apply keeps_self_bind; [|auto with keeps].
    apply load_params_keeps_self.
    revert d. fix IHd 1. intros [|[k v] d]; constructor.
    + apply IH.
    + apply IHd.
Qed.

End LoadObject.

Section LoadObjectSpec.
Context `{Manager}.

#[local] Arguments _load_object : simpl never.

Lemma d_get_app (k : string) (d1 d2 : dict) :
  d_get k (d1 ++ d2) =
    match d_get k d1 with Some v => Some v | None => d_get k d2 end.
Proof.
  induction d1 as [|[k' v'] d1 IH]; simpl; [reflexivity|].
  destruct (String.eqb k' k); auto.
Qed.

Lemma d_set_fresh (k : string) (v : value) (d : dict) :
  d_get k d = None -> d_set k v d = d ++ [(k, v)].
Proof.
  induction d as [|[k' v'] d IH]; simpl; [reflexivity|].
  destruct (String.eqb k' k); [discriminate|]. intros Hd. now rewrite IH.
Qed.

(** Iterating over the copy from which ["type"] was popped, and passing
    over ["type"] in the original, come to the same thing. *)
Lemma load_params_pop (its params : dict) (st : state) :
  load_params _load_object its params st
  = load_params _load_object (d_pop "type" its) params st.
Proof.
  revert params st. induction its as [|[key val] its IH]; intros params st;
    [reflexivity|].
  simpl. destruct (String.eqb key "type") eqn:Hk; [apply IH|].
  simpl. rewrite Hk.
  destruct (_is_meta_type val).
  - unfold mbind, M_bind. destruct (_load_object val st) as [[o|e|] st1]; auto.
  - destruct val; auto.
    unfold mbind, M_bind.
    destruct (load_list _load_object xs st) as [[l|e|] st1]; auto.
Qed.

(** *** From a run of the code to the relation *)

Section Sound.
(** What is to be shown of a configuration value: a run of
    [_load_object] on it that returns has built the object. *)
Let sound (v : value) : Prop :=
  forall st o st', _load_object v st = (Ok o, st') -> built v st o st'.

Lemma load_list_built (xs l : list value) (st st' : state) :
  Forall sound xs ->
  load_list _load_object xs st = (Ok l, st') -> items_built xs st l st'.
Proof.
  intros Hall. revert l st st'.
  induction Hall as [|x xs Hx _ IH]; intros l st st' Hrun; simpl in Hrun.
  - injection Hrun as <- <-. constructor.
  - apply M_bind_Ok in Hrun as (y & st1 & Hy & Hrun).
    apply M_bind_Ok in Hrun as (ys & st2 & Hys & Hrun).
    injection Hrun as <- <-.
    destruct (_is_meta_type x) eqn:Hmeta.
    + eapply items_object; eauto.
    + injection Hy as <- <-. apply items_verbatim; auto.
Qed.

Lemma load_params_built (its params params' : dict) (st st' : state) :
  Forall (fun kv =>
            sound kv.2
            /\ match kv.2 with
               | VList xs => Forall sound xs
               | _ => True
               end) its ->
  List.NoDup (d_keys its) ->
  ~ In "type" (d_keys its) ->
  (forall k, In k (d_keys its) -> d_get k params = None) ->
  load_params _load_object its params st = (Ok params', st') ->
  exists new, params' = params ++ new /\ args_built its st new st'.
Proof.
  intros Hall. revert params st.
  induction Hall as [|[key val] its [Hval Hlist] _ IH];
    intros params st Hnd Hty Hfresh Hrun.
  - injection Hrun as <- <-. exists []. split; [now rewrite app_nil_r|].
    constructor.
  - simpl in Hnd, Hty, Hval, Hlist.
    inversion Hnd as [|? ? Hnin Hnd']; subst.
    assert (Hkey : String.eqb key "type" = false).
    { apply String.eqb_neq. intros ->. apply Hty. now left. }
    assert (Hstep : forall x st1,
      (forall new',
          args_built its st1 new' st' ->
          args_built ((key, val) :: its) st ((key, x) :: new') st') ->
      load_params _load_object its (d_set key x params) st1
        = (Ok params', st') ->
      exists new,
        params' = params ++ new /\ args_built ((key, val) :: its) st new st').
    { intros x st1 Hbuild Hrest.
      rewrite d_set_fresh in Hrest by (apply Hfresh; now left).
      apply IH in Hrest as (new' & -> & Hnew'); auto.
      - exists ((key, x) :: new'). split; [|auto].
        now rewrite <- app_assoc.
      - intros k Hk. rewrite d_get_app, Hfresh by now right.
        simpl. destruct (String.eqb_spec key k) as [->|]; [|reflexivity].
        contradiction. }
    simpl in Hrun. rewrite Hkey in Hrun.
    destruct (_is_meta_type val) eqn:Hmeta.
    + apply M_bind_Ok in Hrun as (o & st1 & Ho & Hrun).
      apply (Hstep o st1); [|assumption].
      intros new' Hnew'. eapply args_object; eauto.
    + destruct val as [| | | | |xs| |];
        try (eapply (Hstep _ st); [|eassumption];
             intros new' Hnew'; apply args_verbatim; auto; discriminate).
      apply M_bind_Ok in Hrun as (l & st1 & Hl & Hrun).
      apply (Hstep (VList l) st1); [|assumption].
      intros new' Hnew'. eapply args_list; [|eassumption].
      eapply load_list_built; eauto.
Qed.

Lemma load_object_built (v : value) : well_keyed v -> sound v.
Proof.
  cut ((well_keyed v -> sound v)
       /\ match v with
          | VList xs => Forall (fun x => well_keyed x -> sound x) xs
          | _ => True
          end); [tauto|].
  revert v. fix IH 1. intros [| | | | |xs|d|]; (split; [|try exact I]);
    try (intros _ st o st' Hrun; discriminate).
  - intros _ st o st' Hrun. unfold _load_object in Hrun.
    destruct (existsb _ xs); discriminate.
  - revert xs. fix IHxs 1. intros [|x xs]; constructor.
    + apply IH.
    + apply IHxs.
  - intros Hwk st o st' Hrun.
    apply well_keyed_dict in Hwk as [Hnd Hvals].
    assert (Hall : Forall (fun kv =>
              (well_keyed kv.2 -> sound kv.2)
              /\ match kv.2 with
                 | VList xs => Forall (fun x => well_keyed x -> sound x) xs
                 | _ => True
                 end) d).
    { clear - IH. revert d. fix IHd 1. intros [|[k v] d]; constructor.
      - apply IH.
      - apply IHd. }
    assert (Hsound : Forall (fun kv =>
              sound kv.2
              /\ match kv.2 with
                 | VList xs => Forall sound xs
                 | _ => True
                 end) d).
    { clear Hrun Hnd. induction Hall as [|[k v] d [Hv Hl] _ IHd];
        inversion Hvals as [|? ? Hwv Hwd]; subst; constructor; auto.
      simpl in *. split; [auto|]. destruct v; auto.
      apply well_keyed_list in Hwv. eapply Forall_mp; eauto. }
    clear Hall IH.
    rewrite load_object_dict in Hrun.
    destruct (d_get "type" d) as [ty|] eqn:Hty.
    2:{ unfold d_mem in Hrun. rewrite Hty in Hrun. discriminate. }
    unfold d_mem in Hrun. rewrite Hty in Hrun. cbn [negb] in Hrun.
    apply M_bind_Ok in Hrun as (ty' & st1 & Hty' & Hrun).
    apply lift_Ok in Hty' as [Hty' ->]. simpl in Hty'.
    rewrite Hty in Hty'. injection Hty' as <-.
    apply M_bind_Ok in Hrun as (c & st1 & Hc & Hrun).
    apply lift_Ok in Hc as [Hc ->].
    apply M_bind_Ok in Hrun as (params & st2 & Hparams & Hrun).
    rewrite load_params_pop in Hparams.
    apply load_params_built in Hparams as (new & Hnew & Hargs).
    + simpl in Hnew. subst new. unfold call in Hrun.
      cbn [heap calls app] in Hrun.
      destruct (c params (heap (env st2))) as [inst| |] eqn:Hinst;
        try congruence.
      injection Hrun as <- <-. eapply built_object; eauto.
    + now apply Forall_d_pop.
    + now apply d_pop_NoDup.
    + apply d_get_None_keys, d_get_pop_eq.
    + reflexivity.
Qed.

End Sound.

(** *** From the relation to a run of the code *)

Lemma built_runs (v o : value) (st st' : state) :
  built v st o st' -> well_keyed v -> _load_object v st = (Ok o, st').
Proof.
  intros Hbuilt. revert v st o st' Hbuilt.
  apply (built_ind'
    (fun v st o st' => well_keyed v -> _load_object v st = (Ok o, st'))
    (fun its st new st' =>
       Forall (fun kv => well_keyed kv.2) its ->
       List.NoDup (d_keys its) ->
       ~ In "type" (d_keys its) ->
       forall params,
         (forall k, In k (d_keys its) -> d_get k params = None) ->
         load_params _load_object its params st = (Ok (params ++ new), st'))
    (fun xs st l st' =>
       Forall well_keyed xs ->
       load_list _load_object xs st = (Ok l, st'))).
  - intros d ty c params inst st st1 Hty Hc _ IHargs Hinst Hwk.
    apply well_keyed_dict in Hwk as [Hnd Hvals].
    rewrite load_object_dict. unfold d_mem. rewrite Hty.
    cbn [negb py_getitem]. rewrite Hty.
    unfold mbind at 1, M_bind at 1, lift at 1.
    unfold mbind at 1, M_bind at 1, lift at 1. rewrite Hc.
    unfold mbind, M_bind. rewrite load_params_pop.
    rewrite (IHargs (Forall_d_pop _ _ _ Hvals) (d_pop_NoDup _ _ Hnd)
               (proj1 (d_get_None_keys _ _) (d_get_pop_eq _ _)) []
               (fun _ _ => eq_refl)).
    cbn [app]. unfold call. cbn [heap calls env]. rewrite Hinst. reflexivity.
  - intros st _ _ _ params _. simpl. now rewrite app_nil_r.
  - intros key val rest o params st st1 st' Hmeta _ IHval _ IHrest
      Hvals Hnd Hty params0 Hfresh.
    inversion Hvals as [|? ? Hwv Hwr]; subst.
    simpl in Hnd, Hty. inversion Hnd as [|? ? Hnin Hnd']; subst.
    assert (Hkey : String.eqb key "type" = false).
    { apply String.eqb_neq. intros ->. apply Hty. now left. }
    simpl. rewrite Hkey, Hmeta. unfold mbind, M_bind.
    rewrite (IHval Hwv).
    rewrite d_set_fresh by (apply Hfresh; now left).
    rewrite (IHrest Hwr Hnd' (fun Hin => Hty (or_intror Hin))).
    + now rewrite <- app_assoc.
    + intros k Hk. rewrite d_get_app, Hfresh by now right.
      simpl. destruct (String.eqb_spec key k) as [->|]; [|reflexivity].
      contradiction.
  - intros key xs rest l params st st1 st' _ IHitems _ IHrest
      Hvals Hnd Hty params0 Hfresh.
    inversion Hvals as [|? ? Hwv Hwr]; subst.
    simpl in Hnd, Hty. inversion Hnd as [|? ? Hnin Hnd']; subst.
    assert (Hkey : String.eqb key "type" = false).
    { apply String.eqb_neq. intros ->. apply Hty. now left. }
    simpl. rewrite Hkey. unfold mbind, M_bind.
    rewrite (IHitems (proj1 (well_keyed_list _) Hwv)).
    rewrite d_set_fresh by (apply Hfresh; now left).
    rewrite (IHrest Hwr Hnd' (fun Hin => Hty (or_intror Hin))).
    + now rewrite <- app_assoc.
    + intros k Hk. rewrite d_get_app, Hfresh by now right.
      simpl. destruct (String.eqb_spec key k) as [->|]; [|reflexivity].
      contradiction.
  - intros key val rest params st st' Hmeta Hnl _ IHrest
      Hvals Hnd Hty params0 Hfresh.
    inversion Hvals as [|? ? Hwv Hwr]; subst.
    simpl in Hnd, Hty. inversion Hnd as [|? ? Hnin Hnd']; subst.
    assert (Hkey : String.eqb key "type" = false).
    { apply String.eqb_neq. intros ->. apply Hty. now left. }
    assert (Hrest : load_params _load_object rest (d_set key val params0) st
                    = (Ok (params0 ++ (key, val) :: params), st')).
    { rewrite d_set_fresh by (apply Hfresh; now left).
      rewrite (IHrest Hwr Hnd' (fun Hin => Hty (or_intror Hin))).
      + now rewrite <- app_assoc.
      + intros k Hk. rewrite d_get_app, Hfresh by now right.
        simpl. destruct (String.eqb_spec key k) as [->|]; [|reflexivity].
        contradiction. }
    simpl. rewrite Hkey, Hmeta.
    destruct val; try exact Hrest. now destruct (Hnl xs).
  - intros st _. reflexivity.
  - intros item xs o l st st1 st' Hmeta _ IHitem _ IHxs Hwk.
    inversion Hwk as [|? ? Hwi Hwx]; subst.
    simpl. rewrite Hmeta. unfold mbind, M_bind.
    rewrite (IHitem Hwi), (IHxs Hwx). reflexivity.
  - intros item xs l st st' Hmeta _ IHxs Hwk.
    inversion Hwk as [|? ? Hwi Hwx]; subst.
    simpl. rewrite Hmeta. unfold mbind, M_bind. cbn.
    rewrite (IHxs Hwx). reflexivity.
Qed.

(** C6. [_load_object] on a dictionary [cfg]: without the key [type] it
    raises [RuntimeError]; the [Config] object, and with it the
    dictionary [cfg] was taken from, is left as it was; and, the
    dictionaries having distinct keys, it returns the object [o] and
    ends in the state [st'] exactly when [o] is built from [cfg] in a
    run from [st] to [st']: the constructor named by [type] is looked up
    in the registry and called once, after the objects for the nested
    dictionaries with a [type] (also those in lists) have been built in
    this same run, one after the other in the order of the entries, with
    the keyword arguments made from the entries other than [type]: the
    object just built for such a dictionary, the list with the objects
    in the place of such dictionaries, any other value as it stands. *)
Theorem load_object_spec (d : dict) (st : state) :
  (d_get "type" d = None ->
   _load_object (VDict d) st = (Raise RuntimeError, st))
  /\ (forall r st',
        _load_object (VDict d) st = (r, st') -> self st' = self st)
  /\ (well_keyed (VDict d) ->
      forall o st',
        _load_object (VDict d) st = (Ok o, st') <-> built (VDict d) st o st').
Proof.
  split; [|split].
  - intros Hty. rewrite load_object_dict. unfold d_mem. now rewrite Hty.
  - apply load_object_keeps_self.
  - intros Hwk o st'. split.
    + now apply load_object_built.
    + intros Hbuilt. now apply built_runs.
Qed.

End LoadObjectSpec.

Section LoadRuns.
#[local] Existing Instance Sample.registry.

Lemma load_object_spec_witness :
  let st := Sample.fresh_state (VDict [("train_dataset", VDict Sample.dataset_cfg)]) in
  _load_object (VDict [("mode", VStr "train")]) st = (Raise RuntimeError, st)
  /\ well_keyed (VDict Sample.dataset_cfg)
  /\ exists st',
       _load_object (VDict Sample.dataset_cfg) st = (Ok (VObj 2), st')
       /\ self st' = self st
       /\ calls (env st') =
            [(VStr "Resize", [("target_size", VInt 512)]);
             (VStr "ResNet", [("depth", VInt 50)]);
             (VStr "Dataset",
               [("transforms", VList [VObj 0; VStr "raw"]);
                ("mode", VStr "train");
                ("backbone", VObj 1);
                ("extra", VDict [("a", VInt 1)])])]
       /\ built (VDict Sample.dataset_cfg) st (VObj 2) st'.
Proof.
  intros st.
  split.
  { apply (load_object_spec [("mode", VStr "train")] st). reflexivity. }
  assert (Hwk : well_keyed (VDict Sample.dataset_cfg)).
  { simpl. repeat split; repeat constructor; simpl; intuition discriminate. }
  split; [exact Hwk|].
  destruct (_load_object (VDict Sample.dataset_cfg) st) as [r st'] eqn:Hrun.
  assert (Hr : r = Ok (VObj 2) /\ calls (env st') =
            [(VStr "Resize", [("target_size", VInt 512)]);
             (VStr "ResNet", [("depth", VInt 50)]);
             (VStr "Dataset",
               [("transforms", VList [VObj 0; VStr "raw"]);
                ("mode", VStr "train");
                ("backbone", VObj 1);
                ("extra", VDict [("a", VInt 1)])])]).
  { vm_compute in Hrun. injection Hrun as <- <-. split; reflexivity. }
  destruct Hr as [-> Hcalls].
  destruct (load_object_spec Sample.dataset_cfg st) as (_ & Hself & Hiff).
  exists st'. split; [reflexivity|]. split; [exact (Hself _ _ Hrun)|].
  split; [exact Hcalls|].
  exact (proj1 (Hiff Hwk (VObj 2) st') Hrun).
Defined.

End LoadRuns.


(** ** Losses *)

Section PrepareLoss.
Context `{Manager}.

Ltac m_simpl :=
  unfold mbind, M_bind, mret, M_ret, get_self, raise, lift;
  cbn [res_bind res_ret bind
       py_get py_copy py_in py_getitem py_setitem py_len py_repeat
       default from_option id negb andb].

Lemma concat_replicate_single {A : Type} (n : nat) (x : A) :
  concat (replicate n [x]) = replicate n x.
Proof. induction n; simpl; congruence. Qed.

Lemma build_losses_lengths (loss_name : string) (shared : bool)
    (args r : value) (st st' : state) :
  build_losses loss_name shared args st = (Ok r, st') ->
  exists losses types coef n,
    r = VDict losses
    /\ d_get "types" losses = Some types
    /\ d_get "coef" losses = Some coef
    /\ py_len types = Ok n /\ py_len coef = Ok n.
Proof.
  unfold build_losses. intros Hrun.
  apply M_bind_Ok in Hrun as (losses & st1 & _ & Hrun).
  apply M_bind_Ok in Hrun as (coef & st2 & Hcoef & Hrun).
  apply lift_Ok in Hcoef as [Hcoef ->].
  apply M_bind_Ok in Hrun as (len_coef & st3 & Hlc & Hrun).
  apply lift_Ok in Hlc as [Hlc ->].
  apply M_bind_Ok in Hrun as (types & st4 & Htypes & Hrun).
  apply lift_Ok in Htypes as [Htypes ->].
  apply M_bind_Ok in Hrun as (len_types & st5 & Hlt & Hrun).
  apply lift_Ok in Hlt as [Hlt ->].
  destruct (Nat.eqb len_coef len_types) eqn:Heq; cbn [negb] in Hrun;
    [|discriminate].
  apply Nat.eqb_eq in Heq. subst len_types. injection Hrun as <- _.
  cbn [py_getitem] in Hcoef, Htypes.
  destruct (d_get "coef" losses) as [coef'|] eqn:Hc; [|discriminate].
  destruct (d_get "types" losses) as [types'|] eqn:Ht; [|discriminate].
  injection Hcoef as ->. injection Htypes as ->.
  exists losses, types, coef, len_coef. auto.
Qed.

(** C9. [_prepare_loss] for the loss configuration [cfg] found under
    [loss_name] (an empty dictionary when there is none): without the key
    [types] or without the key [coef] it raises [ValueError]; with both,
    of lengths [n] and [m], it goes on to build the losses from the
    configuration as it is when [n = m], from the configuration with the
    single type repeated [m] times when [n = 1], and raises [ValueError]
    otherwise. Whatever dictionary it returns has a [types] and a [coef]
    entry of the same length. *)
Theorem prepare_loss_spec (loss_name : string) (st : state) (d l : dict) :
  dic (self st) = VDict d ->
  default (VDict []) (d_get loss_name d) = VDict l ->
  (d_get "types" l = None \/ d_get "coef" l = None ->
   _prepare_loss loss_name st = (Raise ValueError, st))
  /\ (forall types coef n m,
        d_get "types" l = Some types -> d_get "coef" l = Some coef ->
        py_len types = Ok n -> py_len coef = Ok m ->
        (n = m ->
         _prepare_loss loss_name st
         = build_losses loss_name false (VDict l) st)
        /\ (n <> m -> n <> 1 ->
            _prepare_loss loss_name st = (Raise ValueError, st))
        /\ (forall x,
              n <> m -> types = VList [x] ->
              _prepare_loss loss_name st
              = build_losses loss_name true
                  (VDict (d_set "types" (VList (replicate m x)) l)) st))
  /\ (forall r st',
        _prepare_loss loss_name st = (Ok r, st') ->
        exists losses types coef n,
          r = VDict losses
          /\ d_get "types" losses = Some types
          /\ d_get "coef" losses = Some coef
          /\ py_len types = Ok n /\ py_len coef = Ok n).
Proof.
  intros Hdic Hcfg. split; [|split].
  - intros Hlack. unfold _prepare_loss. m_simpl. rewrite Hdic. m_simpl.
    rewrite Hcfg. m_simpl. unfold d_mem.
    destruct (d_get "types" l) as [types|]; m_simpl; [|reflexivity].
    destruct Hlack as [Hl|Hl]; [discriminate|]. rewrite Hl. reflexivity.
  - intros types coef n m Htypes Hcoef Hn Hm.
    assert (Hstart :
      _prepare_loss loss_name st =
        ((if negb (Nat.eqb n m) then
            if Nat.eqb n 1 then
              types ← lift (py_repeat types m);
              args ← lift (py_setitem (VDict l) "types" types);
              mret (args, true)
            else raise ValueError
          else mret (VDict l, false))
         ≫= (fun '(args, shared) => build_losses loss_name shared args)) st).
    { unfold _prepare_loss. m_simpl. rewrite Hdic. m_simpl.
      rewrite Hcfg. m_simpl. unfold d_mem. rewrite Htypes, Hcoef. m_simpl.
      rewrite Hn. m_simpl. rewrite Hm. reflexivity. }
    rewrite Hstart. clear Hstart.
    split; [|split].
    + intros ->. rewrite Nat.eqb_refl. reflexivity.
    + intros Hnm Hn1. apply Nat.eqb_neq in Hnm, Hn1. rewrite Hnm, Hn1.
      reflexivity.
    + intros x Hnm ->. injection Hn as <-. apply Nat.eqb_neq in Hnm.
      rewrite Hnm. m_simpl. now rewrite concat_replicate_single.
  - intros r st' Hrun. unfold _prepare_loss in Hrun.
    apply M_bind_Ok in Hrun as (c & st1 & _ & Hrun).
    apply M_bind_Ok in Hrun as (args & st2 & _ & Hrun).
    apply M_bind_Ok in Hrun as (ht & st3 & _ & Hrun).
    apply M_bind_Ok in Hrun as (hc & st4 & _ & Hrun).
    apply M_bind_Ok in Hrun as ([args' shared] & st5 & _ & Hrun).
    eapply build_losses_lengths; eauto.
Qed.

End PrepareLoss.

Section LossRuns.
#[local] Existing Instance Sample.registry.

Lemma prepare_loss_spec_witness :
  let st := Sample.fresh_state Sample.child_dic in
  let one := VDict [("type", VStr "CrossEntropyLoss")] in
  (* no loss configuration under this name *)
  _prepare_loss "distill_loss" st = (Raise ValueError, st)
  (* one type for two coefficients *)
  /\ _prepare_loss "loss" st
     = build_losses "loss" true
         (VDict [("types", VList [one; one]);
                 ("coef", VList [VInt 1; VInt 1])]) st
  /\ exists st',
       _prepare_loss "loss" st
       = (Ok (VDict [("types", VList [VObj 1; VObj 4]);
                     ("coef", VList [VInt 1; VInt 1])]), st').
Proof.
  intros st one.
  assert (Hdic : exists d, dic (self st) = VDict d
                           /\ d_get "distill_loss" d = None
                           /\ d_get "loss" d
                              = Some (VDict [("types", VList [one]);
                                             ("coef", VList [VInt 1; VInt 1])])).
  { eexists. split; [reflexivity|]. split; reflexivity. }
  destruct Hdic as (d & Hd & Hnone & Hloss).
  split.
  { apply (prepare_loss_spec "distill_loss" st d []); [exact Hd| |].
    - now rewrite Hnone.
    - now left. }
  destruct (prepare_loss_spec "loss" st d
              [("types", VList [one]); ("coef", VList [VInt 1; VInt 1])] Hd)
    as (_ & Hboth & Hlen); [now rewrite Hloss|].
  split.
  { apply (Hboth (VList [one]) (VList [VInt 1; VInt 1]) 1 2);
      [reflexivity..| |reflexivity]. lia. }
  destruct (_prepare_loss "loss" st) as [r st'] eqn:Hrun.
  exists st'. f_equal.
  vm_compute in Hrun. injection Hrun as <- _. reflexivity.
Defined.

End LossRuns.


(** ** What is built, and when *)

Lemma init_builds_nothing `{OsEnv} (fuel : nat) (path : string)
    (learning_rate batch_size iters : value) (opts : option (list value))
    (c : config) :
  __init__ fuel path learning_rate batch_size iters opts = Ok c ->
  _model c = VNone /\ _losses c = VNone /\ _distill_losses c = None.
Proof.
  unfold __init__. intros Hinit.
  destruct (negb _); [discriminate|].
  destruct (negb _); [discriminate|].
  apply res_bind_Ok in Hinit as (parsed & _ & Hinit).
  apply res_bind_Ok in Hinit as (d & _ & Hinit).
  apply res_bind_Ok in Hinit as (m & _ & Hinit).
  destruct m; [discriminate|..];
    (apply res_bind_Ok in Hinit as (t & _ & Hinit);
     destruct (negb (truthy_builtin t));
     [ apply res_bind_Ok in Hinit as (v & _ & Hinit);
       destruct (negb (truthy_builtin v)); [discriminate|]
     | ];
     injection Hinit as <-; auto).
Qed.

Section Lazy.
Context `{Manager}.

(** [model], case by case. *)
Lemma model_run (st : state) :
  model st =
    match (m ← py_get (dic (self st)) "model" VNone; py_copy m) with
    | Ok model_cfg =>
        if truthy (heap (env st)) (_model (self st))
        then (Ok (_model (self st)), st)
        else
          match _load_object model_cfg st with
          | (Ok o, st') =>
              (Ok o, {| self := set_model o (self st'); env := env st' |})
          | (Raise e, st') => (Raise e, st')
          | (Diverge, st') => (Diverge, st')
          end
    | Raise e => (Raise e, st)
    | Diverge => (Diverge, st)
    end.
Proof.
  unfold model, mbind at 1 2 3, M_bind at 1 2 3, get_self at 1, lift.
  destruct (py_get (dic (self st)) "model" VNone ≫= _) as [mc|e|];
    try reflexivity.
  unfold mbind, M_bind.
  destruct (truthy (heap (env st)) (_model (self st))); cbn [negb].
  - reflexivity.
  - destruct (_load_object mc st) as [[o|e|] st']; reflexivity.
Qed.

(** A model that is truthy, as every object is whose class defines
    neither [__bool__] nor [__len__], is built once: later reads return
    that very object and build nothing. *)
Lemma model_cached_when_truthy (st st1 : state) (o : value) :
  model st = (Ok o, st1) ->
  truthy (heap (env st1)) o = true ->
  model st1 = (Ok o, st1).
Proof.
  rewrite (model_run st). intros Hrun Ho.
  destruct (py_get (dic (self st)) "model" VNone ≫= _) as [mc|e|] eqn:Hcfg;
    try discriminate.
  assert (Hsame : dic (self st1) = dic (self st) /\ _model (self st1) = o).
  { destruct (truthy (heap (env st)) (_model (self st))).
    - injection Hrun as <- <-. auto.
    - destruct (_load_object mc st) as [[o'|e|] st'] eqn:Hload;
        try discriminate.
      injection Hrun as <- <-. cbn [self set_model dic _model].
      now rewrite (load_object_keeps_self mc _ _ _ Hload). }
  destruct Hsame as [Hdic Hmodel].
  rewrite (model_run st1), Hdic, Hcfg, Hmodel, Ho. reflexivity.
Qed.

(** [loss], case by case. *)
Lemma loss_run (st : state) :
  loss st =
    match _losses (self st) with
    | VNone =>
        match _prepare_loss "loss" st with
        | (Ok l, st') =>
            (Ok l, {| self := set_losses l (self st'); env := env st' |})
        | (Raise e, st') => (Raise e, st')
        | (Diverge, st') => (Diverge, st')
        end
    | l => (Ok l, st)
    end.
Proof.
  unfold loss, mbind, M_bind, get_self, set_self, mret, M_ret.
  destruct (_losses (self st)) eqn:Hl; cbn [self]; rewrite ?Hl;
    try reflexivity.
  destruct (_prepare_loss "loss" st) as [[l|e|] st']; reflexivity.
Qed.

(** The losses are prepared once: later reads return the dictionary that
    the first read stored and build nothing. *)
Lemma loss_cached (st st1 : state) (l : value) :
  loss st = (Ok l, st1) -> loss st1 = (Ok l, st1).
Proof.
  rewrite (loss_run st). intros Hrun.
  assert (Hl : _losses (self st1) = l /\ l <> VNone).
  { destruct (_losses (self st)) eqn:Hst;
      try (injection Hrun as <- <-; split; [assumption|discriminate]).
    destruct (_prepare_loss "loss" st) as [[l'|e|] st'] eqn:Hprep;
      try discriminate.
    injection Hrun as <- <-. split; [reflexivity|].
    unfold _prepare_loss in Hprep.
    apply M_bind_Ok in Hprep as (c & s1 & _ & Hprep).
    apply M_bind_Ok in Hprep as (args & s2 & _ & Hprep).
    apply M_bind_Ok in Hprep as (ht & s3 & _ & Hprep).
    apply M_bind_Ok in Hprep as (hc & s4 & _ & Hprep).
    apply M_bind_Ok in Hprep as ([args' shared] & s5 & _ & Hprep).
    apply build_losses_lengths in Hprep as (losses & ? & ? & ? & -> & _).
    discriminate. }
  destruct Hl as [Hl Hne].
  rewrite (loss_run st1), Hl. destruct l; congruence.
Qed.

End Lazy.

Section LazyRuns.
#[local] Existing Instance Sample.registry.
#[local] Existing Instance Sample.posix.

(** C3, at [configs/empty.yml]. The model this configuration names is an
    empty container, an object for which [not self._model] holds: reading
    [model] twice calls the constructor twice and gives two objects, where
    every read after the first should have returned the first one. The
    losses, tested with [is None], are prepared once. *)
Theorem model_rebuilt_when_falsy :
  exists c st1 st2,
    __init__ 5 "configs/empty.yml" VNone VNone VNone None = Ok c
    /\ let st0 := {| self := c; env := Sample.empty_world |} in
       model st0 = (Ok (VObj 0), st1)
       /\ model st1 = (Ok (VObj 1), st2)
       /\ calls (env st1) = [(VStr "EmptyNet", [])]
       /\ calls (env st2) = [(VStr "EmptyNet", []); (VStr "EmptyNet", [])].
Proof.
  destruct (__init__ 5 "configs/empty.yml" VNone VNone VNone None)
    as [c| |] eqn:Hc; try (vm_compute in Hc; discriminate).
  vm_compute in Hc. injection Hc as <-.
  eexists _, _, _. split; [reflexivity|].
  cbv zeta. split; [vm_compute; reflexivity|].
  split; [vm_compute; reflexivity|].
  split; reflexivity.
Qed.

(** The same two reads of a model that is truthy. *)
Example model_cached_child :
  exists st1,
    model (Sample.fresh_state Sample.child_dic) = (Ok (VObj 1), st1)
    /\ model st1 = (Ok (VObj 1), st1)
    /\ List.length (calls (env st1)) = 2.
Proof.
  destruct (model (Sample.fresh_state Sample.child_dic)) as [r st1] eqn:Hrun.
  assert (Hr : r = Ok (VObj 1) /\ truthy (heap (env st1)) (VObj 1) = true
               /\ List.length (calls (env st1)) = 2).
  { vm_compute in Hrun. injection Hrun as <- <-. repeat split. }
  destruct Hr as (-> & Ht & Hlen).
  exists st1. split; [reflexivity|]. split; [|exact Hlen].
  now apply (model_cached_when_truthy _ _ _ Hrun).
Qed.

End LazyRuns.

End ConfigSpec.

(* ===================================================================== *)
(** * Properties of centernet_head.py                                     *)
(* ===================================================================== *)

Module CenterNetHeadSpec.

Import CenterNetHead.

Section Head.
Context `{Paddle}.

Lemma res_bind_Ok' {A B : Type} (m : res A) (k : A -> res B) (b : B) :
  (m ≫= k) = Ok b -> exists a, m = Ok a /\ k a = Ok b.
Proof. destruct m; cbn; intros; eauto; discriminate. Qed.

Tactic Notation "inv_bind" hyp(H) "as" ident(a) ident(Ha) :=
  cbv beta zeta in H; apply res_bind_Ok' in H as (a & Ha & H).

Lemma getitem_Ok {A : Type} (d : gmap string A) (k : string) (x : A) :
  getitem d k = Ok x -> d !! k = Some x.
Proof. unfold getitem. destruct (d !! k); congruence. Qed.

Lemma local_Ok {A : Type} (o : option A) (x : A) :
  local o = Ok x -> o = Some x.
Proof. destruct o; simpl; congruence. Qed.

(** What a call of [get_loss] that returns has gone through, and the
    dictionary it hands back. *)
Lemma get_loss_Ok (self : head) (inputs : gmap string Tensor)
    (weights : gmap string Q) (heatmap size offset : Tensor)
    (iou : option Tensor) (losses : gmap string Tensor) :
  get_loss self inputs weights heatmap size offset iou = Ok losses ->
  exists hl sl ol wh ws wo,
    (size_loss self = "L1" \/ size_loss self = "giou")
    /\ weights !! "heatmap" = Some wh
    /\ weights !! "size" = Some ws
    /\ weights !! "offset" = Some wo
    /\ let three : gmap string Tensor :=
         <["offset_loss" := ol]>
           (<["size_loss" := sl]> (<["heatmap_loss" := hl]> ∅)) in
       let det :=
         tadd (tadd (num_mul wh hl) (num_mul ws sl)) (num_mul wo ol) in
       match iou with
       | None => losses = <["det_loss" := det]> three
       | Some _ =>
           exists il wi,
             weights !! "iou" = Some wi
             /\ losses = <["det_loss" := tadd det (num_mul wi il)]>
                           (<["iou_loss" := il]> three)
       end.
Proof.
  unfold get_loss. intros Hrun.
  inv_bind Hrun as heatmap_target Hht.
  inv_bind Hrun as index Hindex.
  inv_bind Hrun as mask Hmask.
  inv_bind Hrun as dims Hdims.
  destruct dims as [[[size_n size_h] size_w] size_c].
  inv_bind Hrun as batch_inds Hbatch.
  inv_bind Hrun as sl_var Hsl.
  inv_bind Hrun as offset_target Hot.
  inv_bind Hrun as odims Hodims.
  destruct odims as [[[offset_n offset_h] offset_w] offset_c].
  inv_bind Hrun as il_var Hil.
  inv_bind Hrun as sl Hlocal.
  inv_bind Hrun as wh Hwh.
  inv_bind Hrun as ws Hws.
  inv_bind Hrun as wo Hwo.
  inv_bind Hrun as last Hlast.
  destruct last as [losses' det_loss]. injection Hrun as <-.
  apply local_Ok in Hlocal. subst sl_var.
  apply getitem_Ok in Hwh, Hws, Hwo.
  assert (Hkind : size_loss self = "L1" \/ size_loss self = "giou").
  { destruct (String.eqb_spec (size_loss self) "L1") as [->|]; [now left|].
    destruct (String.eqb_spec (size_loss self) "giou") as [->|];
      [now right|]. discriminate. }
  eexists _, sl, _, wh, ws, wo.
  split; [exact Hkind|]. repeat (split; [eassumption|]).
  cbv zeta. destruct iou as [t|].
  - inv_bind Hlast as il Hil'. inv_bind Hlast as wi Hwi.
    injection Hlast as <- <-.
    apply getitem_Ok in Hwi. eauto.
  - injection Hlast as <- <-. reflexivity.
Qed.

Lemma getitem_Some {A : Type} (d : gmap string A) (k : string) (x : A) :
  d !! k = Some x -> getitem d k = Ok x.
Proof. unfold getitem. now intros ->. Qed.

Lemma unpack4_length (s : list Z) :
  List.length s = 4%nat -> exists a b c d, unpack4 s = Ok (a, b, c, d).
Proof.
  destruct s as [|a [|b [|c [|d [|e s]]]]]; simpl; try discriminate.
  eauto.
Qed.

Lemma shape_at_second (s : list Z) :
  (2 <= List.length s)%nat -> exists n, shape_at s 1 = Ok n.
Proof.
  destruct s as [|a [|b s]]; simpl; try lia. intros _.
  unfold shape_at. cbn [List.length]. exists b.
  replace (1 <? 0)%Z with false by reflexivity.
  replace ((0 <=? 1)%Z && (1 <? Z.of_nat (S (S (List.length s))))%Z)
    with true; [reflexivity|].
  symmetry. apply andb_true_iff. split; [reflexivity|].
  apply Z.ltb_lt. lia.
Qed.

Lemma shape_at_last (s : list Z) :
  s <> [] -> exists n, shape_at s (-1) = Ok n.
Proof.
  intros Hs. unfold shape_at.
  assert (Hlen : (0 < List.length s)%nat)
    by (destruct s; [congruence | simpl; lia]).
  replace (-1 <? 0)%Z with true by reflexivity.
  replace ((0 <=? Z.of_nat (List.length s) + -1)%Z
           && (Z.of_nat (List.length s) + -1 <? Z.of_nat (List.length s))%Z)
    with true.
  - destruct (s !! Z.to_nat (Z.of_nat (List.length s) + -1)) as [x|] eqn:Hx;
      [eauto|].
    apply lookup_ge_None in Hx. lia.
  - symmetry. apply andb_true_iff. split; [apply Z.leb_le | apply Z.ltb_lt]; lia.
Qed.

Lemma batch_inds_loop_returns (index : Tensor) (range : list Z)
    (batch_inds : list Tensor) :
  (2 <= List.length (shape index))%nat ->
  exists r, batch_inds_loop index range batch_inds = Ok r.
Proof.
  intros Hlen. destruct (shape_at_second _ Hlen) as [n Hn].
  revert batch_inds. induction range as [|i range IH]; intros batch_inds.
  - simpl. eauto.
  - simpl. rewrite Hn. cbn [mbind res_bind bind]. apply IH.
Qed.

Lemma get_loss_returns (self : head) (inputs : gmap string Tensor)
    (weights : gmap string Q) (heatmap size offset : Tensor)
    (iou : option Tensor) :
  size_loss self = "L1" \/ size_loss self = "giou" ->
  loss_inputs_ok inputs weights size offset iou ->
  exists losses,
    get_loss self inputs weights heatmap size offset iou = Ok losses.
Proof.
  intros Hkind (Hin & Hw & Hdim & Hidx & Hsz).
  destruct (Hin "heatmap") as [i_heatmap Hi1]; [repeat constructor|].
  destruct (Hin "index") as [i_index Hi2]; [repeat constructor|].
  destruct (Hin "index_mask") as [i_mask Hi3]; [repeat constructor|].
  destruct (Hin "size") as [i_size Hi4]; [repeat constructor|].
  destruct (Hin "offset") as [i_offset Hi5]; [repeat constructor|].
  destruct (Hin "bbox_xys") as [i_xys Hi6]; [repeat constructor|].
  destruct (Hw "heatmap") as [wh Hw1]; [repeat constructor|].
  destruct (Hw "size") as [ws Hw2]; [repeat constructor|].
  destruct (Hw "offset") as [wo Hw3]; [repeat constructor|].
  destruct (Hw "iou") as [wi Hw4]; [repeat constructor|].
  destruct (unpack4_length _ (Hdim size (or_introl eq_refl)))
    as (sn & sh & sw & sc & Hsize).
  destruct (unpack4_length _ (Hdim offset (or_intror (or_introl eq_refl))))
    as (on & oh & ow & oc & Hoffset).
  destruct (batch_inds_loop_returns (unsqueeze i_index 2)
              (Z.of_nat <$> seq 0 (Z.to_nat sn)) [] (Hidx _ Hi2))
    as [batch Hbatch].
  destruct (shape_at_last _ (Hsz _ Hi4)) as [last Hlast].
  apply getitem_Some in Hi1, Hi2, Hi3, Hi4, Hi5, Hi6, Hw1, Hw2, Hw3, Hw4.
  unfold get_loss.
  rewrite Hi1, Hi2, Hi3, Hi4, Hi5, Hi6, Hw1, Hw2, Hw3, Hw4.
  cbn [mbind res_bind bind]. rewrite Hsize. cbn [mbind res_bind bind].
  rewrite Hbatch. cbn [mbind res_bind bind]. rewrite Hlast, Hoffset.
  assert (Hiou : forall t, iou = Some t ->
            exists a b c d, unpack4 (shape (transpose t [0; 2; 3; 1]%Z))
                            = Ok (a, b, c, d)).
  { intros t Ht. apply unpack4_length, Hdim. auto. }
  destruct Hkind as [-> | ->]; cbn [String.eqb Ascii.eqb Bool.eqb
                                     mbind res_bind bind local];
    destruct (regress_ltrb self); cbn [mbind res_bind bind local];
    try destruct (last =? 2)%Z; cbn [mbind res_bind bind local];
    (destruct iou as [t|];
     [ destruct (Hiou t eq_refl) as (a & b & c & d & ->);
       cbn [mbind res_bind bind local]; eauto
     | eauto ]).
Qed.

(** No head has an attribute called [iou_weight]: the constructor keeps
    the weight in [weights] only. *)
Lemma no_iou_weight_attribute (self : head) :
  hasattr self "iou_weight" = false.
Proof.
  unfold hasattr, attribute_names. apply bool_decide_eq_false.
  destruct (iou self); intros Hin; simpl in Hin;
    repeat (apply elem_of_cons in Hin as [Hin|Hin]; [discriminate|]);
    inversion Hin.
Qed.

(** C4. Whenever [get_loss] returns, the dictionary has [heatmap_loss],
    [size_loss] and [offset_loss], and [det_loss] is the sum of the three
    losses, each times its weight; with an IoU prediction there is
    [iou_loss] too and [det_loss] has its weighted value added, without
    one there is no [iou_loss]. It does return for every head whose size
    loss is [L1] or [giou] when the ground truth, the weights and the
    predictions are such that each step can be carried out. *)
Theorem get_loss_dict (self : head) (inputs : gmap string Tensor)
    (weights : gmap string Q) (heatmap size offset : Tensor)
    (iou : option Tensor) :
  (forall losses,
      get_loss self inputs weights heatmap size offset iou = Ok losses ->
      exists hl sl ol wh ws wo,
        losses !! "heatmap_loss" = Some hl
        /\ losses !! "size_loss" = Some sl
        /\ losses !! "offset_loss" = Some ol
        /\ weights !! "heatmap" = Some wh
        /\ weights !! "size" = Some ws
        /\ weights !! "offset" = Some wo
        /\ let det :=
             tadd (tadd (num_mul wh hl) (num_mul ws sl)) (num_mul wo ol) in
           match iou with
           | None =>
               losses !! "iou_loss" = None
               /\ losses !! "det_loss" = Some det
           | Some _ =>
               exists il wi,
                 losses !! "iou_loss" = Some il
                 /\ weights !! "iou" = Some wi
                 /\ losses !! "det_loss" = Some (tadd det (num_mul wi il))
           end)
  /\ (size_loss self = "L1" \/ size_loss self = "giou" ->
      loss_inputs_ok inputs weights size offset iou ->
      exists losses,
        get_loss self inputs weights heatmap size offset iou = Ok losses).
Proof.
  split; [|apply get_loss_returns].
  intros losses Hrun.
  apply get_loss_Ok in Hrun
    as (hl & sl & ol & wh & ws & wo & _ & Hwh & Hws & Hwo & Hlosses).
  exists hl, sl, ol, wh, ws, wo. cbv zeta in Hlosses |- *.
  destruct iou as [t|].
  - destruct Hlosses as (il & wi & Hwi & ->).
    repeat (split; [first [assumption | by simplify_map_eq]|]).
    exists il, wi. by simplify_map_eq.
  - subst losses.
    repeat (split; [first [assumption | by simplify_map_eq]|]).
    by simplify_map_eq.
Qed.

(** C1. A head given a positive [iou_weight] does have the branch [iou],
    but [forward] never runs it: it asks for an attribute [iou_weight],
    which no head has. So the outputs in evaluation mode are [heatmap],
    [size] and [offset] and nothing else, and in training mode the losses
    are computed without an IoU prediction and never include
    [iou_loss]. *)
Theorem forward_ignores_iou_branch (in_channels num_classes head_planes : Z)
    (heatmap_weight : Q) (ltrb : bool) (size_weight : Q) (sl : string)
    (offset_weight iou_weight : Q) (feat : Tensor)
    (inputs : gmap string Tensor) :
  let self := __init__ in_channels num_classes head_planes heatmap_weight
                ltrb size_weight sl offset_weight iou_weight in
  ((0 < iou_weight)%Q -> is_Some (iou self))
  /\ (exists outs,
        forward (set_training false self) feat inputs = Ok outs
        /\ outs !! "iou" = None
        /\ dom outs = {[ "heatmap"; "size"; "offset" ]})
  /\ forward self feat inputs
     = get_loss self inputs (weights self) (heatmap self feat)
         (size self feat) (offset self feat) None
  /\ (forall losses,
        forward self feat inputs = Ok losses -> losses !! "iou_loss" = None).
Proof.
  intros self.
  assert (Hfwd : forward self feat inputs
     = get_loss self inputs (weights self) (heatmap self feat)
         (size self feat) (offset self feat) None).
  { unfold forward. rewrite no_iou_weight_attribute. reflexivity. }
  split; [|split; [|split; [exact Hfwd|]]].
  - intros Hpos. subst self. cbn [iou __init__].
    destruct (Qlt_le_dec 0 iou_weight) as [_|Hle]; [eauto|].
    exfalso. apply (Qlt_not_le _ _ Hpos Hle).
  - unfold forward. rewrite no_iou_weight_attribute.
    cbn [mbind res_bind bind training set_training].
    eexists. split; [reflexivity|]. split; [by simplify_map_eq|].
    rewrite !dom_insert_L, dom_empty_L. set_solver.
  - intros losses Hrun. rewrite Hfwd in Hrun.
    apply get_loss_Ok in Hrun as (? & ? & ? & ? & ? & ? & _ & _ & _ & _ & ->).
    by simplify_map_eq.
Qed.






End Head.

Section HeadRuns.
#[local] Existing Instance Sample.scalar_paddle.

Lemma sample_inputs_ok (weights : gmap string Q) (size offset : Q)
    (iou : option Q) :
  (forall k, k ∈ ["heatmap"; "size"; "offset"; "iou"] ->
             is_Some (weights !! k)) ->
  loss_inputs_ok Sample.sample_inputs weights size offset iou.
Proof.
  intros Hw. split; [|split; [exact Hw|split; [|split]]].
  - intros k Hk.
    repeat (apply elem_of_cons in Hk as [->|Hk]; [vm_compute; eauto|]).
    inversion Hk.
  - intros t _. reflexivity.
  - intros index _. simpl. lia.
  - intros s _. discriminate.
Qed.

Lemma init_weights_ok (in_channels num_classes head_planes : Z)
    (heatmap_weight : Q) (ltrb : bool) (size_weight : Q) (sl : string)
    (offset_weight iou_weight : Q) :
  forall k, k ∈ ["heatmap"; "size"; "offset"; "iou"] ->
    is_Some (weights (__init__ in_channels num_classes head_planes
                        heatmap_weight ltrb size_weight sl offset_weight
                        iou_weight) !! k).
Proof.
  intros k Hk. cbn [weights __init__].
  repeat (apply elem_of_cons in Hk as [->|Hk];
          [eexists; by simplify_map_eq|]).
  inversion Hk.
Qed.

Lemma get_loss_dict_witness :
  let self := __init__ 64 80 256 1 true (1 # 10) "giou" 1 (1 # 2) in
  loss_inputs_ok Sample.sample_inputs (weights self) 1%Q 1%Q (Some 1%Q)
  /\ exists losses il,
       get_loss self Sample.sample_inputs (weights self) 1%Q 1%Q 1%Q
         (Some 1%Q) = Ok losses
       /\ losses !! "iou_loss" = Some il
       /\ is_Some (losses !! "det_loss")
       /\ is_Some (losses !! "size_loss").
Proof.
  intros self.
  assert (Hok : loss_inputs_ok Sample.sample_inputs (weights self)
                  1%Q 1%Q (Some 1%Q)).
  { apply sample_inputs_ok. apply init_weights_ok. }
  split; [exact Hok|].
  destruct (@get_loss_dict Sample.scalar_paddle self Sample.sample_inputs (weights self)
              1%Q 1%Q 1%Q (Some 1%Q)) as [Hdict Hreturns].
  destruct Hreturns as [losses Hrun]; [now right | exact Hok |].
  destruct (Hdict losses Hrun)
    as (hl & sl & ol & wh & ws & wo & _ & Hsl & _ & _ & _ & _ & Hdet).
  destruct Hdet as (il & wi & Hil & _ & Hdet).
  exists losses, il. eauto.
Defined.

Lemma forward_ignores_iou_branch_witness :
  let self := __init__ 64 80 256 1 true (1 # 10) "L1" 1 (1 # 2) in
  (0 < 1 # 2)%Q
  /\ is_Some (iou self)
  /\ (exists outs,
        forward (set_training false self) 5%Q Sample.sample_inputs = Ok outs
        /\ outs !! "iou" = None)
  /\ (exists losses,
        forward self 5%Q Sample.sample_inputs = Ok losses
        /\ losses !! "iou_loss" = None).
Proof.
  intros self.
  destruct (@forward_ignores_iou_branch Sample.scalar_paddle 64 80 256 1 true (1 # 10) "L1" 1
              (1 # 2) 5%Q Sample.sample_inputs)
    as (Hbranch & (outs & Houts & Hnone & _) & Hfwd & Hlosses).
  split; [reflexivity|]. split; [apply Hbranch; reflexivity|].
  split; [eauto|].
  fold self in Hfwd, Hlosses.
  destruct (forward self 5%Q Sample.sample_inputs) as [losses| |] eqn:Hrun;
    try (vm_compute in Hrun; discriminate).
  exists losses. split; [reflexivity|]. now apply Hlosses.
Defined.



End HeadRuns.

End CenterNetHeadSpec.

(* ===================================================================== *)
(** * Further properties of config.py                                     *)
(* ===================================================================== *)

Module ConfigMore.

Import PyFacts Config ConfigSpec.

#[local] Arguments _update_dic : simpl never.

Ltac res_simpl :=
  cbn [mbind mret res_bind res_ret bind py_copy py_in py_getitem py_setitem]
    in *.

(** ** Parsing and merging *)

Lemma update_dic_unfold (dic : dict) (base : value) :
  _update_dic (VDict dic) base =
    (base_dic ← py_copy base;
     if py_eq_False (default (VBool true) (d_get "_inherited_" dic))
     then Ok (VDict (d_pop "_inherited_" dic))
     else update_loop _update_dic dic base_dic).
Proof. reflexivity. Qed.

Lemma d_get_pop_None (k k' : string) (d : dict) :
  d_get k d = None -> d_get k (d_pop k' d) = None.
Proof.
  induction d as [|[k0 v0] d IH]; simpl; [reflexivity|].
  destruct (String.eqb k0 k) eqn:Hk; [discriminate|]. intros Hd.
  destruct (String.eqb k0 k'); simpl; [auto|]. rewrite Hk. auto.
Qed.

(** Over a list as base nothing can be merged but the empty mapping. *)
Lemma update_loop_over_list (its : dict) (l : list value) (r : value) :
  update_loop _update_dic its (VList l) = Ok r -> its = [] /\ r = VList l.
Proof.
  destruct its as [|[key val] rest]; simpl.
  - intros [= <-]. auto.
  - destruct val; res_simpl; try discriminate.
    destruct (existsb (is_VStr key) l); res_simpl; discriminate.
Qed.

(** A key that neither side has is not in the merge. *)
Lemma update_loop_get_None (k : string) (its base : dict) (r : value) :
  d_get k its = None -> d_get k base = None ->
  update_loop _update_dic its (VDict base) = Ok r ->
  exists rd, r = VDict rd /\ d_get k rd = None.
Proof.
  revert base. induction its as [|[key val] rest IH]; intros base Hits Hbase.
  - simpl. intros [= <-]. eauto.
  - simpl in Hits. destruct (String.eqb_spec key k) as [->|Hne];
      [discriminate|].
    assert (Hset : forall x, d_get k (d_set key x base) = None)
      by (intros x; now rewrite d_get_set_ne).
    simpl. destruct val; res_simpl; try (apply IH; auto).
    destruct (d_mem key base); res_simpl; [|apply IH; auto].
    destruct (d_get key base) as [old|]; res_simpl; [|discriminate].
    destruct (_update_dic (VDict kvs) old) as [new| |]; res_simpl;
      try discriminate.
    apply IH; auto.
Qed.

(** X1. A configuration that [_parse_from_yaml] returns as a mapping
    never has the key [_base_] at its top level: the key is taken out of
    the file before the merge, and the base it is merged over was parsed
    in the same way. *)
Theorem parsed_has_no_base_key `{OsEnv} (fuel : nat) (path : string)
    (d : dict) :
  _parse_from_yaml fuel path = Ok (VDict d) -> d_get "_base_" d = None.
Proof.
  revert path d. induction fuel as [|n IH]; intros path d; simpl;
    [discriminate|].
  destruct (yaml_files !! path) as [dic|]; [|discriminate].
  destruct (py_in "_base_" dic) as [[|]| |] eqn:Hin; res_simpl;
    try discriminate.
  - destruct dic as [| | | | |xs|d0|]; try discriminate.
    destruct (d_get "_base_" d0) as [[| | | |base_path| | |]|];
      try discriminate.
    destruct (_parse_from_yaml n _) as [base_dic| |] eqn:Hbase;
      res_simpl; try discriminate.
    rewrite update_dic_unfold.
    assert (Hpop : d_get "_base_" (d_pop "_base_" d0) = None)
      by apply d_get_pop_eq.
    destruct base_dic as [| | | | |l|b|]; res_simpl; try discriminate.
    + destruct (py_eq_False _).
      * intros [= <-]. now apply d_get_pop_None.
      * intros Hrun. apply update_loop_over_list in Hrun as [_ Hr].
        discriminate.
    + destruct (py_eq_False _).
      * intros [= <-]. now apply d_get_pop_None.
      * intros Hrun.
        apply (update_loop_get_None "_base_") in Hrun as (rd & [= <-] & Hrd);
          auto.
        eapply IH; eauto.
  - intros [= ->]. simpl in Hin. injection Hin as Hin.
    now apply d_mem_false.
Qed.

(** X2. [_parse_from_yaml] has no protection against a circular chain of
    bases: for a file of a set that is closed under [_base_], no
    configuration is ever returned, however deep the recursion is allowed
    to go. (Python ends such a recursion with [RecursionError] once its
    recursion limit is reached; in the model the budget runs out.) *)
Theorem circular_base_never_parses `{OsEnv} (files : string -> Prop)
    (path : string) (fuel : nat) :
  base_closed files -> files path ->
  forall r, _parse_from_yaml fuel path <> Ok r.
Proof.
  intros Hclosed Hpath r.
  cut (_parse_from_yaml fuel path = Diverge); [congruence|].
  revert path Hpath.
  induction fuel as [|n IH]; intros path Hpath; [reflexivity|].
  destruct (Hclosed path Hpath) as (d & base_path & Hfile & Hbase & Hnext).
  simpl. rewrite Hfile. res_simpl. unfold d_mem. rewrite Hbase.
  now rewrite (IH _ Hnext).
Qed.

(** X3. A mapping cannot be merged over a base entry that is neither a
    mapping nor a list: when the child gives a key a dictionary and the
    base gives the same key a scalar, the merge returns no
    configuration. *)
Theorem mapping_over_scalar_fails (dic base v : dict) (k : string)
    (old : value) :
  List.NoDup (d_keys dic) ->
  py_eq_False (default (VBool true) (d_get "_inherited_" dic)) = false ->
  d_get k dic = Some (VDict v) ->
  d_get k base = Some old ->
  is_dict old = false -> (forall l, old <> VList l) ->
  forall r, _update_dic (VDict dic) (VDict base) <> Ok r.
Proof.
  intros Hnd Hinh Hk Hold Hnd1 Hnl r Hrun.
  rewrite update_dic_dict, Hinh in Hrun.
  apply update_loop_merged in Hrun as (rd & -> & Hm); [|assumption].
  destruct (Hm k) as (Hm1 & _).
  destruct (Hm1 v old Hk Hold) as (new & Hnew & _).
  rewrite update_dic_unfold in Hnew.
  destruct old; try discriminate. eapply Hnl; eauto.
Qed.

(** When every key is new to the base, the loop appends the entries. *)
Lemma update_loop_fresh (its acc : dict) :
  List.NoDup (d_keys its) ->
  (forall k, In k (d_keys its) -> d_get k acc = None) ->
  update_loop _update_dic its (VDict acc) = Ok (VDict (acc ++ its)).
Proof.
  revert acc. induction its as [|[key val] rest IH]; intros acc Hnd Hfresh.
  - simpl. now rewrite app_nil_r.
  - simpl in Hnd. inversion Hnd as [|? ? Hnin Hnd']; subst.
    assert (Hkey : d_get key acc = None) by (apply Hfresh; now left).
    assert (Hstep : update_loop _update_dic rest (VDict (d_set key val acc))
                    = Ok (VDict (acc ++ (key, val) :: rest))).
    { rewrite d_set_fresh by assumption. rewrite IH; auto.
      - now rewrite <- app_assoc.
      - intros k Hin. rewrite d_get_app, Hfresh by (now right). simpl.
        destruct (String.eqb_spec key k) as [->|]; [contradiction|reflexivity]. }
    simpl. destruct val; res_simpl; try exact Hstep.
    apply d_mem_false in Hkey. rewrite Hkey. exact Hstep.
Qed.

(** X4. Merging over an empty base returns the child as it is, with its
    entries in their order (a child that asks for replacement, by
    [_inherited_] equal to [False], loses that key instead). *)
Theorem merge_over_empty_base (dic : dict) :
  List.NoDup (d_keys dic) ->
  py_eq_False (default (VBool true) (d_get "_inherited_" dic)) = false ->
  _update_dic (VDict dic) (VDict []) = Ok (VDict dic).
Proof.
  intros Hnd Hinh. rewrite update_dic_dict, Hinh.
  now apply (update_loop_fresh dic []).
Qed.

Section ParseRuns.
#[local] Existing Instance Sample.posix.

Lemma parsed_has_no_base_key_witness :
  exists d,
    _parse_from_yaml 5 "configs/child.yml" = Ok (VDict d)
    /\ d_get "_base_" d = None
    /\ d_get "iters" d = Some (VInt 2000).
Proof.
  destruct (_parse_from_yaml 5 "configs/child.yml") as [[| | | | | |d|]| |]
    eqn:Hrun; try (vm_compute in Hrun; discriminate).
  exists d. split; [reflexivity|].
  split; [exact (parsed_has_no_base_key _ _ _ Hrun)|].
  vm_compute in Hrun. injection Hrun as <-. reflexivity.
Defined.

Lemma circular_base_never_parses_witness :
  base_closed (fun p => p = "configs/loop.yml")
  /\ forall r, _parse_from_yaml 1000 "configs/loop.yml" <> Ok r.
Proof.
  assert (Hclosed : base_closed (fun p => p = "configs/loop.yml")).
  { intros path ->. exists [("_base_", VStr "loop.yml")], "loop.yml".
    split; [vm_compute; reflexivity|]. split; reflexivity. }
  split; [exact Hclosed|].
  exact (circular_base_never_parses _ "configs/loop.yml" 1000 Hclosed eq_refl).
Defined.

Lemma mapping_over_scalar_fails_witness :
  let dic := [("iters", VInt 10); ("lr", VDict [("value", VInt 1)])] in
  let base := [("lr", VFloat (1 # 100)); ("iters", VInt 5)] in
  List.NoDup (d_keys dic)
  /\ _update_dic (VDict dic) (VDict base) = Raise AttributeError.
Proof.
  intros dic base.
  assert (Hnd : List.NoDup (d_keys dic))
    by (repeat constructor; simpl; intuition discriminate).
  split; [exact Hnd|].
  destruct (_update_dic (VDict dic) (VDict base)) as [r|e|] eqn:Hrun.
  - exfalso.
    apply (mapping_over_scalar_fails dic base [("value", VInt 1)] "lr"
             (VFloat (1 # 100)) Hnd eq_refl eq_refl eq_refl eq_refl
             ltac:(discriminate) r Hrun).
  - vm_compute in Hrun. exact (eq_sym Hrun).
  - vm_compute in Hrun. discriminate.
Defined.

Lemma merge_over_empty_base_witness :
  let dic := [("model", VDict [("type", VStr "UNet")]); ("iters", VInt 10)] in
  List.NoDup (d_keys dic)
  /\ _update_dic (VDict dic) (VDict []) = Ok (VDict dic).
Proof.
  intros dic.
  assert (Hnd : List.NoDup (d_keys dic))
    by (repeat constructor; simpl; intuition discriminate).
  split; [exact Hnd|].
  exact (merge_over_empty_base dic Hnd eq_refl).
Defined.

End ParseRuns.

(** ** Overrides *)





Section OverrideRuns.
#[local] Existing Instance Sample.posix.


End OverrideRuns.


(** ** Building objects *)

Section Respects.
Context `{Manager}.
Variable R : state -> state -> Prop.
Hypothesis R_refl : forall st, R st st.
Hypothesis R_trans : forall a b c, R a b -> R b c -> R a c.
Hypothesis R_call : forall ty c params, respects R (call ty c params).

#[local] Arguments _load_object : simpl never.

Lemma respects_ret {A : Type} (a : A) : respects R (mret a : M A).
Proof. intros st r st' [= _ <-]. apply R_refl. Qed.

Lemma respects_lift {A : Type} (r : res A) : respects R (lift r).
Proof. intros st r' st' [= _ <-]. apply R_refl. Qed.

Lemma respects_bind {A B : Type} (m : M A) (k : A -> M B) :
  respects R m -> (forall a, respects R (k a)) -> respects R (m ≫= k).
Proof.
  intros Hm Hk st r st'. unfold mbind, M_bind.
  destruct (m st) as [[a|e|] st1] eqn:Hrun; intros Hr.
  - eapply R_trans; [eapply Hm | eapply Hk]; eauto.
  - injection Hr as <- <-. eapply Hm; eauto.
  - injection Hr as <- <-. eapply Hm; eauto.
Qed.

Lemma load_list_respects (xs : list value) :
  Forall (fun x => respects R (_load_object x)) xs ->
  respects R (load_list _load_object xs).
Proof.
  induction 1 as [|x xs Hx _ IH]; simpl; [apply respects_ret|].
  apply respects_bind.
  - destruct (_is_meta_type x); [assumption | apply respects_ret].
  - intros a. apply respects_bind; [assumption|].
    intros l. apply respects_ret.
Qed.

Lemma load_params_respects (its params : dict) :
  Forall (fun kv =>
            respects R (_load_object kv.2)
            /\ match kv.2 with
               | VList xs => Forall (fun x => respects R (_load_object x)) xs
               | _ => True
               end) its ->
  respects R (load_params _load_object its params).
Proof.
  intros Hits. revert params.
  induction Hits as [|[key val] its [Hval Hlist] _ IH]; intros params;
    simpl; [apply respects_ret|].
  destruct (String.eqb key "type"); [apply IH|].
  destruct (_is_meta_type val).
  - apply respects_bind; auto.
  - simpl in Hlist. destruct val; auto.
    apply respects_bind; auto using load_list_respects.
Qed.

Lemma load_object_respects (cfg : value) : respects R (_load_object cfg).
Proof.
  cut (respects R (_load_object cfg)
       /\ match cfg with
          | VList xs => Forall (fun x => respects R (_load_object x)) xs
          | _ => True
          end); [tauto|].
  revert cfg. fix IH 1. intros [| | | | |xs|d|]; (split; [|try exact I]);
    try (apply respects_lift).
  - unfold _load_object. destruct (existsb _ xs); apply respects_lift.
  - revert xs. fix IHxs 1. intros [|x xs]; constructor.
    + apply IH.
    + apply IHxs.
  - rewrite load_object_dict.
    destruct (negb (d_mem "type" d)); [apply respects_lift|].
    apply respects_bind; [apply respects_lift|]. intros type.
    apply respects_bind; [apply respects_lift|]. intros component.
    apply respects_bind; [|intros; apply R_call].
    apply load_params_respects.
    revert d. fix IHd 1. intros [|[k v] d]; constructor.
    + apply IH.
    + apply IHd.
Qed.

End Respects.

Section Objects.
Context `{Manager}.

#[local] Arguments _load_object : simpl never.

Lemma grown_refl (st : state) : grown st st.
Proof. split; lia. Qed.

Lemma grown_trans (a b c : state) : grown a b -> grown b c -> grown a c.
Proof. intros [? ?] [? ?]. split; lia. Qed.

Lemma call_grown (ty : value) (c : component) (params : dict) :
  respects grown (call ty c params).
Proof.
  intros st r st'. unfold call, grown. cbn [heap calls].
  destruct (c params _); intros [= _ <-]; cbn [env heap calls];
    rewrite ?length_app; simpl; lia.
Qed.

Lemma load_object_grown (cfg : value) : respects grown (_load_object cfg).
Proof.
  apply (load_object_respects grown grown_refl grown_trans call_grown).
Qed.

(** An object that [_load_object] returns did not exist before, and at
    least one constructor call was made for it. *)
Lemma load_object_fresh (cfg o : value) (st st' : state) :
  _load_object cfg st = (Ok o, st') ->
  exists n,
    o = VObj n
    /\ (List.length (heap (env st)) <= n < List.length (heap (env st')))%nat
    /\ (List.length (calls (env st)) < List.length (calls (env st')))%nat.
Proof.
  destruct cfg as [| | | | |xs|d|]; try discriminate.
  - unfold _load_object. destruct (existsb _ xs); discriminate.
  - rewrite load_object_dict.
    destruct (negb (d_mem "type" d)); [discriminate|]. intros Hrun.
    apply M_bind_Ok in Hrun as (ty & st1 & Hty & Hrun).
    apply lift_Ok in Hty as [_ ->].
    apply M_bind_Ok in Hrun as (c & st2 & Hc & Hrun).
    apply lift_Ok in Hc as [_ ->].
    apply M_bind_Ok in Hrun as (params & st3 & Hparams & Hrun).
    assert (Hg : grown st st3).
    { eapply (load_params_respects grown grown_refl grown_trans);
        [|exact Hparams].
      clear. induction d as [|[k v] d IHd]; constructor; [|assumption].
      split; [apply load_object_grown|].
      simpl. destruct v; try exact I.
      induction xs as [|x xs IHxs]; constructor;
        [apply load_object_grown | assumption]. }
    destruct Hg as [Hheap Hcalls].
    unfold call in Hrun. cbn [heap calls] in Hrun.
    destruct (c params (heap (env st3))) as [inst| |]; try congruence.
    injection Hrun as <- <-. exists (List.length (heap (env st3))).
    cbn [env heap calls]. rewrite !length_app. simpl.
    repeat split; lia.
Qed.

(** X6. The datasets are not cached, unlike the model and the losses:
    each read of [train_dataset] that returns a dataset has called the
    constructor again, and two reads in a row return two different
    objects. *)
Theorem train_dataset_not_cached (st st1 st2 : state) (o o' : value) :
  train_dataset st = (Ok o, st1) -> o <> VNone ->
  train_dataset st1 = (Ok o', st2) ->
  o' <> o
  /\ (List.length (calls (env st)) < List.length (calls (env st1)))%nat
  /\ (List.length (calls (env st1)) < List.length (calls (env st2)))%nat.
Proof.
  unfold train_dataset. intros Hfirst Ho Hsecond.
  apply M_bind_Ok in Hfirst as (c & s & [= <- <-] & Hfirst).
  apply M_bind_Ok in Hfirst as (cfg & s & Hcfg & Hfirst).
  apply lift_Ok in Hcfg as [Hcfg ->].
  destruct (truthy_builtin cfg) eqn:Htruthy; cbn [negb] in Hfirst.
  2:{ injection Hfirst as <- _. congruence. }
  pose proof (load_object_keeps_self _ _ _ _ Hfirst) as Hself.
  apply M_bind_Ok in Hsecond as (c' & s & [= <- <-] & Hsecond).
  rewrite Hself, Hcfg in Hsecond.
  apply M_bind_Ok in Hsecond as (cfg' & s & Hcfg' & Hsecond).
  apply lift_Ok in Hcfg' as [[= <-] ->].
  rewrite Htruthy in Hsecond. cbn [negb] in Hsecond.
  apply load_object_fresh in Hfirst as (n & -> & Hn & Hc1).
  apply load_object_fresh in Hsecond as (n' & -> & Hn' & Hc2).
  repeat split; try assumption.
  intros [= ->]. lia.
Qed.

(** X7. A configuration whose [type] names no registered component is
    refused before anything is built: [_load_object] raises what
    [_load_component] raises, no constructor has been called, not even for
    the components nested in the configuration, and the state is as it
    was. *)
Theorem unknown_type_builds_nothing (d : dict) (ty : value) (e : exn)
    (st : state) :
  d_get "type" d = Some ty ->
  _load_component ty = Raise e ->
  _load_object (VDict d) st = (Raise e, st).
Proof.
  intros Hty Hcom. rewrite load_object_dict. unfold d_mem. rewrite Hty.
  cbn [negb py_getitem]. rewrite Hty.
  unfold mbind, M_bind, lift. now rewrite Hcom.
Qed.

Lemma transforms_loop_spec (items os : list value) (st st' : state) :
  transforms_loop items st = (Ok os, st')
  <-> loaded_in_turn _load_object items st os st'.
Proof.
  revert os st st'.
  induction items as [|i items IH]; intros os st st'; simpl; split.
  - intros [= <- <-]. constructor.
  - intros Hrun. inversion Hrun; subst. reflexivity.
  - intros Hrun.
    apply M_bind_Ok in Hrun as (o & st1 & Ho & Hrun).
    apply M_bind_Ok in Hrun as (os' & st2 & Hos & Hrun).
    injection Hrun as <- <-. econstructor; [exact Ho|]. now apply IH.
  - intros Hrun. inversion Hrun as [|? ? o os' ? st1 ? Ho Hos]; subst.
    apply IH in Hos. unfold mbind, M_bind. rewrite Ho, Hos. reflexivity.
Qed.

Lemma loaded_in_turn_keeps_self (items os : list value) (st st' : state) :
  loaded_in_turn _load_object items st os st' -> self st' = self st.
Proof.
  induction 1 as [|t ts o os st st1 st' Ho _ IH]; [reflexivity|].
  rewrite IH. eapply load_object_keeps_self; eauto.
Qed.

(** X8. [val_transforms]: without a validation dataset (none configured,
    or an empty one) the result is the empty list and nothing is built;
    with one, the call returns exactly when [_load_object] builds an
    object from every entry of its [transforms] list, one after the
    other in the order of the list, each in the state the one before
    has left; the result is the list of these objects, the state is the
    one the last call leaves, and the [Config] object is as it was. *)
Theorem val_transforms_spec (st : state) (d : dict) :
  dic (self st) = VDict d ->
  (absent_or_empty "val_dataset" d ->
   val_transforms st = (Ok (VList []), st))
  /\ (forall cfg ts r st',
        d_get "val_dataset" d = Some (VDict cfg) -> cfg <> [] ->
        d_get "transforms" cfg = Some (VList ts) ->
        (val_transforms st = (Ok r, st')
         <-> exists os,
               r = VList os /\ loaded_in_turn _load_object ts st os st')
        /\ (val_transforms st = (Ok r, st') -> self st' = self st)).
Proof.
  intros Hdic. split.
  - intros Habsent.
    destruct (dataset_config_falsy _ _ Habsent) as (c & Hc & Hfalse).
    unfold val_transforms, val_dataset_config, mbind, M_bind, get_self, lift.
    rewrite Hdic, Hc, Hfalse. reflexivity.
  - intros cfg ts r st' Hval Hne Hts.
    assert (Htruthy : truthy_builtin (VDict cfg) = true)
      by (destruct cfg; [congruence | reflexivity]).
    assert (Hrun : val_transforms st
                   = (os ← transforms_loop ts; mret (VList os)) st).
    { unfold val_transforms, val_dataset_config, dataset_config.
      unfold mbind at 1, M_bind at 1, get_self.
      rewrite Hdic. cbn [py_get]. rewrite Hval.
      unfold mbind at 1, M_bind at 1, lift at 1.
      cbn [default from_option id mbind res_bind bind py_copy].
      rewrite Htruthy. cbn [negb py_get]. rewrite Hts.
      reflexivity. }
    assert (Hiff : val_transforms st = (Ok r, st')
                   <-> exists os,
                         r = VList os
                         /\ loaded_in_turn _load_object ts st os st').
    { rewrite Hrun. split.
      - intros H1. apply M_bind_Ok in H1 as (os & s & Hos & H1).
        injection H1 as <- <-. exists os. split; [reflexivity|].
        now apply transforms_loop_spec.
      - intros (os & -> & Hos). apply transforms_loop_spec in Hos.
        unfold mbind, M_bind. rewrite Hos. reflexivity. }
    split; [exact Hiff|].
    intros H1. apply Hiff in H1 as (os & _ & Hos).
    eapply loaded_in_turn_keeps_self; eauto.
Qed.

End Objects.

Section ObjectRuns.
#[local] Existing Instance Sample.registry.

Lemma train_dataset_not_cached_witness :
  exists st1 st2,
    train_dataset (Sample.fresh_state Sample.child_dic) = (Ok (VObj 0), st1)
    /\ train_dataset st1 = (Ok (VObj 1), st2)
    /\ (List.length (calls (env st1)) < List.length (calls (env st2)))%nat.
Proof.
  destruct (train_dataset (Sample.fresh_state Sample.child_dic))
    as [r1 st1] eqn:H1.
  destruct (train_dataset st1) as [r2 st2] eqn:H2.
  assert (Hr : r1 = Ok (VObj 0) /\ r2 = Ok (VObj 1)).
  { vm_compute in H1. injection H1 as <- <-.
    vm_compute in H2. injection H2 as <- _. split; reflexivity. }
  destruct Hr as [-> ->]. exists st1, st2.
  split; [reflexivity|]. split; [exact H2|].
  apply (train_dataset_not_cached _ _ _ _ _ H1 ltac:(discriminate) H2).
Defined.

Lemma unknown_type_builds_nothing_witness :
  let d := [("type", VStr "DeepLab");
            ("backbone", VDict [("type", VStr "ResNet")])] in
  let st := Sample.fresh_state VNone in
  _load_component (VStr "DeepLab") = Raise RuntimeError
  /\ _load_object (VDict d) st = (Raise RuntimeError, st).
Proof.
  intros d st.
  assert (Hcom : _load_component (VStr "DeepLab") = Raise RuntimeError)
    by (vm_compute; reflexivity).
  split; [exact Hcom|].
  exact (unknown_type_builds_nothing d (VStr "DeepLab") RuntimeError st
           eq_refl Hcom).
Defined.

Lemma val_transforms_spec_witness :
  let ts := [VDict [("type", VStr "Resize"); ("target_size", VInt 512)];
             VDict [("type", VStr "Resize")]] in
  let cfg := [("type", VStr "Dataset"); ("transforms", VList ts)] in
  let st := Sample.fresh_state (VDict [("val_dataset", VDict cfg)]) in
  val_transforms (Sample.fresh_state (VDict [("model", VNone)]))
    = (Ok (VList []), Sample.fresh_state (VDict [("model", VNone)]))
  /\ exists st',
       val_transforms st = (Ok (VList [VObj 0; VObj 1]), st')
       /\ loaded_in_turn _load_object ts st [VObj 0; VObj 1] st'
       /\ self st' = self st.
Proof.
  intros ts cfg st. split.
  { apply (val_transforms_spec
             (Sample.fresh_state (VDict [("model", VNone)]))
             [("model", VNone)] eq_refl).
    left. reflexivity. }
  destruct (val_transforms st) as [r st'] eqn:Hrun.
  assert (Hr : r = Ok (VList [VObj 0; VObj 1])).
  { vm_compute in Hrun. injection Hrun as <- _. reflexivity. }
  subst r. exists st'. split; [reflexivity|].
  destruct (val_transforms_spec st [("val_dataset", VDict cfg)] eq_refl)
    as [_ Hsome].
  destruct (Hsome cfg ts (VList [VObj 0; VObj 1]) st' eq_refl
              ltac:(discriminate) eq_refl) as [Hiff Hself].
  destruct (proj1 Hiff Hrun) as (os & Hos & Hturn).
  injection Hos as <-. split; [exact Hturn|]. exact (Hself Hrun).
Defined.

End ObjectRuns.


(** ** Losses *)

Section Losses.
Context `{Manager}.

Ltac m_simpl :=
  unfold mbind, M_bind, mret, M_ret, get_self, raise, lift;
  cbn [res_bind res_ret bind
       py_get py_copy py_in py_getitem py_setitem py_len py_repeat
       default from_option id negb andb].

(** [distill_loss], case by case. *)
Lemma distill_loss_run (st : state) :
  distill_loss st =
    match _distill_losses (self st) with
    | Some l => (Ok l, st)
    | None =>
        match _prepare_loss "distill_loss" st with
        | (Ok l, st') =>
            (Ok l,
             {| self := set_distill_losses l (self st'); env := env st' |})
        | (Raise e, st') => (Raise e, st')
        | (Diverge, st') => (Diverge, st')
        end
    end.
Proof.
  unfold distill_loss, mbind, M_bind, get_self, set_self, mret, M_ret.
  destruct (_distill_losses (self st)) eqn:Hl; cbn [self]; rewrite ?Hl;
    try reflexivity.
  destruct (_prepare_loss "distill_loss" st) as [[l|e|] st']; reflexivity.
Qed.

(** X9. The two loss properties prepare their losses once: after a read
    of [loss], or of [distill_loss], has returned, every further read
    returns the same dictionary, builds nothing and changes nothing. *)
Theorem losses_prepared_once (st st1 : state) (l : value) :
  (loss st = (Ok l, st1) -> loss st1 = (Ok l, st1))
  /\ (distill_loss st = (Ok l, st1) -> distill_loss st1 = (Ok l, st1)).
Proof.
  split; [apply loss_cached|].
  rewrite (distill_loss_run st). intros Hrun.
  assert (Hl : _distill_losses (self st1) = Some l).
  { destruct (_distill_losses (self st)) as [l0|] eqn:Hst.
    - injection Hrun as <- <-. assumption.
    - destruct (_prepare_loss "distill_loss" st) as [[l'|e|] st'];
        try discriminate.
      injection Hrun as <- <-. reflexivity. }
  now rewrite (distill_loss_run st1), Hl.
Qed.

Lemma train_dataset_none (st : state) (d : dict) :
  dic (self st) = VDict d -> absent_or_empty "train_dataset" d ->
  train_dataset st = (Ok VNone, st).
Proof.
  intros Hdic Habsent.
  destruct (dataset_config_falsy _ _ Habsent) as (c & Hc & Hfalse).
  unfold train_dataset, train_dataset_config, mbind, M_bind, get_self, lift.
  now rewrite Hdic, Hc, Hfalse.
Qed.

Lemma set_ignore_index_no_dataset (st : state) (it : dict) :
  train_dataset st = (Ok VNone, st) ->
  set_ignore_index (VDict it) st = (Raise AttributeError, st).
Proof.
  intros Hds. unfold set_ignore_index. m_simpl. unfold d_mem.
  destruct (d_get "ignore_index" it); rewrite Hds; reflexivity.
Qed.

Lemma losses_loop_no_dataset (loss_name : string) (shared : bool)
    (args its losses it : dict) (ty : value) (rest : list value)
    (st : state) :
  train_dataset st = (Ok VNone, st) ->
  d_get "types" args = Some (VList (VDict it :: rest)) ->
  d_get "type" it = Some ty -> py_eq ty (VStr "MixedLoss") = false ->
  d_mem "types" its = true ->
  losses_loop loss_name shared (VDict args) its losses st
  = (Raise AttributeError, st).
Proof.
  intros Hds Htypes Hty Hmixed. revert losses.
  induction its as [|[key val] its IH]; intros losses Hmem;
    [discriminate|].
  simpl. unfold d_mem in Hmem. simpl in Hmem.
  destruct (String.eqb key "types") eqn:Hkey; [|now apply IH].
  m_simpl. rewrite Htypes. cbn [py_iter types_loop].
  assert (Hitem : (if shared then default (VDict it) None else VDict it)
                  = VDict it) by (destruct shared; reflexivity).
  rewrite Hitem. m_simpl. rewrite Hty, Hmixed. cbn [negb].
  now rewrite (set_ignore_index_no_dataset st it Hds).
Qed.

(** X10. The losses cannot be prepared without a training dataset:
    when [train_dataset] is absent or empty and the first loss type is
    not a [MixedLoss], [_prepare_loss] raises [AttributeError], for it
    asks the dataset, which is [None], for its [ignore_index]. Nothing has
    been built or changed by then. *)
Theorem prepare_loss_needs_train_dataset (loss_name : string) (st : state)
    (d l it : dict) (ty coef : value) (rest : list value) (m : nat) :
  dic (self st) = VDict d ->
  absent_or_empty "train_dataset" d ->
  d_get loss_name d = Some (VDict l) ->
  d_get "types" l = Some (VList (VDict it :: rest)) ->
  d_get "type" it = Some ty -> py_eq ty (VStr "MixedLoss") = false ->
  d_get "coef" l = Some coef -> py_len coef = Ok m ->
  m = S (List.length rest) \/ (rest = [] /\ m <> 0%nat) ->
  _prepare_loss loss_name st = (Raise AttributeError, st).
Proof.
  intros Hdic Habsent Hloss Htypes Hty Hmixed Hcoef Hm Hlen.
  pose proof (train_dataset_none st d Hdic Habsent) as Hds.
  unfold _prepare_loss. m_simpl. rewrite Hdic. m_simpl. rewrite Hloss.
  m_simpl. unfold d_mem. rewrite Htypes, Hcoef. m_simpl. rewrite Hm.
  cbn [List.length].
  destruct (Nat.eqb_spec (S (List.length rest)) m) as [Heq|Hne];
    cbn [negb].
  - unfold build_losses. m_simpl.
    erewrite losses_loop_no_dataset; eauto.
    unfold d_mem. now rewrite Htypes.
  - destruct Hlen as [->|[-> Hm0]]; [congruence|].
    cbn [List.length Nat.eqb]. destruct m as [|m']; [congruence|].
    unfold build_losses. m_simpl.
    erewrite losses_loop_no_dataset; eauto.
    + rewrite d_get_set_eq. reflexivity.
    + unfold d_mem. now rewrite d_get_set_eq.
Qed.

End Losses.

Section LossesRuns.
#[local] Existing Instance Sample.registry.

Lemma losses_prepared_once_witness :
  let ce := VDict [("type", VStr "CrossEntropyLoss")] in
  let st := Sample.fresh_state
              (VDict [("train_dataset", VDict [("type", VStr "Dataset")]);
                      ("loss", VDict [("types", VList [ce]);
                                      ("coef", VList [VInt 1])]);
                      ("distill_loss", VDict [("types", VList [ce; ce]);
                                              ("coef", VList [VInt 1; VInt 3])])]) in
  exists l st1 l' st2,
    loss st = (Ok l, st1) /\ loss st1 = (Ok l, st1)
    /\ distill_loss st1 = (Ok l', st2) /\ distill_loss st2 = (Ok l', st2).
Proof.
  intros ce st.
  destruct (loss st) as [[l| |] st1] eqn:H1;
    try (vm_compute in H1; discriminate).
  destruct (distill_loss st1) as [[l'| |] st2] eqn:H2;
    try (vm_compute in H1; injection H1 as _ <-;
         vm_compute in H2; discriminate).
  exists l, st1, l', st2.
  split; [reflexivity|].
  split; [exact (proj1 (losses_prepared_once st st1 l) H1)|].
  split; [exact H2|].
  exact (proj2 (losses_prepared_once st1 st2 l') H2).
Defined.

Lemma prepare_loss_needs_train_dataset_witness :
  let st := Sample.fresh_state
              (VDict [("val_dataset", VDict [("type", VStr "Dataset")]);
                      ("loss",
                        VDict [("types",
                                 VList [VDict [("type", VStr "CrossEntropyLoss")]]);
                               ("coef", VList [VInt 1; VInt 1; VInt 1])])]) in
  _prepare_loss "loss" st = (Raise AttributeError, st).
Proof.
  intros st.
  refine (prepare_loss_needs_train_dataset "loss" st _ _ _
            (VStr "CrossEntropyLoss") _ [] 3 eq_refl (or_introl eq_refl)
            eq_refl eq_refl eq_refl eq_refl eq_refl eq_refl
            (or_intror (conj eq_refl _))).
  discriminate.
Defined.

End LossesRuns.


(** ** The learning-rate scheduler *)

Section Scheduler.
Context `{LrModule}.

Lemma write_params_run (params d : dict) (st : state) :
  dic (self st) = VDict d ->
  write_params params st
  = (Ok tt,
     {| self := set_dic (VDict (d_set "lr_scheduler" (VDict params) d))
                  (self st);
        env := env st |}).
Proof.
  intros Hdic. unfold write_params, mbind, M_bind, get_self, lift, set_self.
  rewrite Hdic. reflexivity.
Qed.

Lemma write_params_post (params : dict) (st st' : state) (r : res unit) :
  (exists d, dic (self st) = VDict d) ->
  write_params params st = (r, st') ->
  r = Ok tt /\ params_are params st' /\ env st' = env st.
Proof.
  intros [d Hdic]. rewrite (write_params_run params d st Hdic).
  intros [= <- <-]. split; [reflexivity|]. split; [|reflexivity].
  unfold params_are. eexists. split; [reflexivity|]. apply d_get_set_eq.
Qed.

Lemma iters_keeps_state (st st' : state) (r : res value) :
  iters st = (r, st') -> st' = st.
Proof.
  unfold iters, mbind, M_bind, get_self, lift, py_bool.
  destruct (py_get (dic (self st)) "iters" VNone) as [v| |];
    try (now intros [= _ <-]).
  destruct (negb _); now intros [= _ <-].
Qed.

Lemma d_get_setdefault_ne (k k' : string) (v : value) (d : dict) :
  k <> k' -> d_get k' (d_setdefault k v d) = d_get k' d.
Proof.
  intros Hne. unfold d_setdefault. destruct (d_mem k d); [reflexivity|].
  now apply d_get_set_ne.
Qed.

Lemma pop_warmup_post (params params' : dict)
    (warmup : option (value * value * value)) (st st' : state) :
  params_are params st ->
  pop_warmup (d_mem "warmup_iters" params) params st
  = (Ok (params', warmup), st') ->
  params_are params' st'
  /\ d_get "warmup_iters" params' = None
  /\ env st' = env st.
Proof.
  intros Hparams. unfold pop_warmup.
  destruct (d_mem "warmup_iters" params) eqn:Hmem.
  - intros Hrun.
    apply M_bind_Ok in Hrun as (wi & s & Hwi & Hrun).
    apply lift_Ok in Hwi as [_ ->].
    apply M_bind_Ok in Hrun as ([] & st1 & Hw1 & Hrun).
    apply write_params_post in Hw1 as (_ & Hp1 & Henv1);
      [|destruct Hparams as (d & Hd & _); eauto].
    destruct (negb _); [discriminate|].
    apply M_bind_Ok in Hrun as (ws & s & Hws & Hrun).
    apply lift_Ok in Hws as [_ ->].
    apply M_bind_Ok in Hrun as ([] & st2 & Hw2 & Hrun).
    apply write_params_post in Hw2 as (_ & Hp2 & Henv2);
      [|destruct Hp1 as (d & Hd & _); eauto].
    apply M_bind_Ok in Hrun as (el & s & Hel & Hrun).
    apply lift_Ok in Hel as [_ ->].
    injection Hrun as <- _ <-.
    split; [assumption|]. split; [|congruence].
    apply d_get_pop_None, d_get_pop_eq.
  - intros [= <- _ <-]. split; [assumption|].
    split; [now apply d_mem_false | reflexivity].
Qed.

Lemma polynomial_defaults_post (lr_type : value)
    (warmup : option (value * value * value)) (params params' : dict)
    (st st' : state) :
  params_are params st ->
  polynomial_defaults lr_type warmup params st = (Ok params', st') ->
  params_are params' st'
  /\ d_get "type" params' = d_get "type" params
  /\ d_get "warmup_iters" params' = d_get "warmup_iters" params
  /\ env st' = env st.
Proof.
  intros Hparams. unfold polynomial_defaults.
  destruct (py_eq lr_type (VStr "PolynomialDecay")).
  - intros Hrun.
    apply M_bind_Ok in Hrun as (its & st1 & Hits & Hrun).
    apply iters_keeps_state in Hits as ->.
    apply M_bind_Ok in Hrun as (its' & st1 & Hsub & Hrun).
    assert (st1 = st) as ->.
    { destruct warmup as [[[wi ws] el]|].
      - now apply lift_Ok in Hsub as [_ ->].
      - now injection Hsub as _ <-. }
    apply M_bind_Ok in Hrun as (steps & s & Hmax & Hrun).
    apply lift_Ok in Hmax as [_ ->].
    apply M_bind_Ok in Hrun as ([] & st2 & Hw & Hrun).
    apply write_params_post in Hw as (_ & Hp & Henv);
      [|destruct Hparams as (d & Hd & _); eauto].
    injection Hrun as <- <-.
    split; [assumption|].
    rewrite !d_get_setdefault_ne by discriminate. auto.
  - intros [= <- <-]. auto.
Qed.

(** X11. The scheduler can be read from a configuration only once.
    [lr_scheduler] takes [type] (and the warm-up entries) out of the
    configuration itself, not out of a copy: after a read that returned a
    scheduler, the [lr_scheduler] entry has no [type] any more, and the
    next read raises [KeyError] and changes nothing. *)
Theorem lr_scheduler_single_use (st st1 : state) (o : value) :
  lr_scheduler st = (Ok o, st1) ->
  (exists params,
      params_are params st1
      /\ d_get "type" params = None
      /\ d_get "warmup_iters" params = None)
  /\ lr_scheduler st1 = (Raise KeyError, st1).
Proof.
  intros Hrun.
  assert (Hleft : exists params,
            params_are params st1
            /\ d_get "type" params = None
            /\ d_get "warmup_iters" params = None).
  { unfold lr_scheduler in Hrun.
    apply M_bind_Ok in Hrun as (c & s & [= <- <-] & Hrun).
    apply M_bind_Ok in Hrun as (has & s & Hhas & Hrun).
    apply lift_Ok in Hhas as [Hhas ->].
    destruct has; cbn [negb] in Hrun; [|discriminate].
    apply M_bind_Ok in Hrun as (params & s & Hget & Hrun).
    apply lift_Ok in Hget as [Hget ->].
    apply M_bind_Ok in Hrun as (hw & s & Hhw & Hrun).
    apply lift_Ok in Hhw as [Hhw ->].
    destruct (dic (self st)) as [| | | | | |d|] eqn:Hdic; try discriminate.
    cbn [py_in py_get] in Hhas, Hget.
    injection Hhas as Hhas. apply d_mem_true in Hhas as [x Hx].
    rewrite Hx in Hget. injection Hget as ->.
    destruct params as [| | | | | |p|]; try discriminate.
    cbn [py_in] in Hhw. injection Hhw as <-.
    assert (Hp0 : params_are p st) by (unfold params_are; eauto).
    apply M_bind_Ok in Hrun as ([p1 warmup] & st2 & Hpop & Hrun).
    apply pop_warmup_post in Hpop as (Hp1 & Hw1 & Henv1); [|assumption].
    apply M_bind_Ok in Hrun as (lr_type & s & Hty & Hrun).
    apply lift_Ok in Hty as [_ ->].
    apply M_bind_Ok in Hrun as ([] & st3 & Hwr & Hrun).
    apply write_params_post in Hwr as (_ & Hp2 & Henv2);
      [|destruct Hp1 as (d1 & Hd1 & _); eauto].
    apply M_bind_Ok in Hrun as (p3 & st4 & Hpoly & Hrun).
    apply polynomial_defaults_post in Hpoly as (Hp3 & Hty3 & Hwi3 & Henv3);
      [|assumption].
    rewrite d_get_pop_eq in Hty3.
    rewrite (d_get_pop_None _ _ _ Hw1) in Hwi3.
    apply M_bind_Ok in Hrun as (cls & s & Hcls & Hrun).
    apply lift_Ok in Hcls as [_ ->].
    apply M_bind_Ok in Hrun as (lr_sche & st5 & Hcall & Hrun).
    apply keeps_self_call in Hcall.
    assert (Hself : self st1 = self st4).
    { destruct warmup as [[[wi ws] el]|].
      - apply M_bind_Ok in Hrun as (cls' & s & Hcls' & Hrun).
        apply lift_Ok in Hcls' as [_ ->].
        apply keeps_self_call in Hrun. congruence.
      - injection Hrun as _ <-. assumption. }
    exists p3. unfold params_are in *. rewrite Hself. auto. }
  split; [exact Hleft|].
  destruct Hleft as (params & (d & Hdic & Hparams) & Hty & Hwi).
  unfold lr_scheduler, mbind, M_bind, get_self, lift.
  rewrite Hdic. cbn [py_in py_get]. unfold d_mem at 1. rewrite Hparams.
  cbn [negb default from_option id py_in].
  apply d_mem_false in Hwi. rewrite Hwi.
  cbn [pop_warmup mret M_ret py_getitem]. now rewrite Hty.
Qed.

End Scheduler.

Section SchedulerRuns.
#[local] Existing Instance Sample.lr_module.

Lemma lr_scheduler_single_use_witness :
  let st := Sample.fresh_state
              (VDict [("iters", VInt 1000);
                      ("lr_scheduler",
                        VDict [("type", VStr "PolynomialDecay");
                               ("learning_rate", VFloat (1 # 100));
                               ("warmup_iters", VInt 100);
                               ("warmup_start_lr", VInt 0)])]) in
  exists st1,
    lr_scheduler st = (Ok (VObj 1), st1)
    /\ lr_scheduler st1 = (Raise KeyError, st1).
Proof.
  intros st. destruct (lr_scheduler st) as [r st1] eqn:Hrun.
  assert (Hr : r = Ok (VObj 1))
    by (vm_compute in Hrun; injection Hrun as <- _; reflexivity).
  subst r. exists st1. split; [reflexivity|].
  apply (lr_scheduler_single_use st st1 (VObj 1) Hrun).
Defined.

End SchedulerRuns.

Section DecaySteps.
Context `{LrModule}.

Lemma py_max_int (x : Z) :
  py_max (VInt x) (VInt 1) = Ok (VInt (Z.max x 1)).
Proof.
  unfold py_max, py_gt. cbn [num_of mbind res_bind bind].
  unfold Qle_bool. cbn [inject_Z Qnum Qden].
  rewrite !Z.mul_1_r.
  destruct (Z.leb_spec 1 x); cbn [negb]; f_equal; f_equal; lia.
Qed.

Lemma pop_warmup_frame (params params' d : dict)
    (warmup : option (value * value * value)) (st st' : state) :
  dic (self st) = VDict d ->
  pop_warmup (d_mem "warmup_iters" params) params st
  = (Ok (params', warmup), st') ->
  (exists d', dic (self st') = VDict d'
              /\ forall k, k <> "lr_scheduler" -> d_get k d' = d_get k d)
  /\ (forall k, k <> "warmup_iters" -> k <> "warmup_start_lr" ->
                d_get k params' = d_get k params)
  /\ match d_get "warmup_iters" params with
     | Some wi => exists ws el, warmup = Some (wi, ws, el)
     | None => warmup = None
     end.
Proof.
  intros Hdic. unfold pop_warmup, d_mem.
  destruct (d_get "warmup_iters" params) as [wi|] eqn:Hwi.
  - intros Hrun. cbn [py_getitem] in Hrun. rewrite Hwi in Hrun.
    apply M_bind_Ok in Hrun as (wi' & s & Hwi' & Hrun).
    apply lift_Ok in Hwi' as [[= <-] ->].
    unfold mbind at 1, M_bind at 1 in Hrun.
    rewrite (write_params_run _ d st Hdic) in Hrun.
    destruct (negb _); [discriminate|].
    apply M_bind_Ok in Hrun as (ws & s & Hws & Hrun).
    apply lift_Ok in Hws as [_ ->].
    unfold mbind at 1, M_bind at 1 in Hrun.
    erewrite write_params_run in Hrun by reflexivity.
    apply M_bind_Ok in Hrun as (el & s & Hel & Hrun).
    apply lift_Ok in Hel as [_ ->].
    injection Hrun as <- <- <-. cbn [self dic set_dic].
    split; [|split; [|eauto]].
    + eexists. split; [reflexivity|]. intros k Hk.
      now rewrite !d_get_set_ne by congruence.
    + intros k Hk1 Hk2. now rewrite !d_get_pop_ne by congruence.
  - intros [= <- <- <-]. split; [eauto|]. split; auto.
Qed.

(** X12. A [PolynomialDecay] scheduler for which no [decay_steps] is
    configured is built with [decay_steps] equal to the number of
    iterations left after the warm-up, and never less than 1: with
    integers [iters = n] and [warmup_iters = w] (0 without warm-up), the
    constructor receives [decay_steps = max (n - w) 1]. *)
Theorem polynomial_decay_steps (st st' : state) (o : value) (d p : dict)
    (n w : Z) :
  dic (self st) = VDict d ->
  d_get "iters" d = Some (VInt n) ->
  d_get "lr_scheduler" d = Some (VDict p) ->
  d_get "type" p = Some (VStr "PolynomialDecay") ->
  d_get "decay_steps" p = None ->
  d_get "warmup_iters" p = Some (VInt w)
  \/ (d_get "warmup_iters" p = None /\ w = 0%Z) ->
  lr_scheduler st = (Ok o, st') ->
  exists params,
    In (VStr "PolynomialDecay", params) (calls (env st'))
    /\ d_get "decay_steps" params = Some (VInt (Z.max (n - w) 1)).
Proof.
  intros Hdic Hiters Hlr Hty Hsteps Hwarm Hrun.
  unfold lr_scheduler in Hrun.
  apply M_bind_Ok in Hrun as (c & s & [= <- <-] & Hrun).
  rewrite Hdic in Hrun. cbn [py_in py_get] in Hrun.
  unfold d_mem at 1 in Hrun. rewrite Hlr in Hrun.
  apply M_bind_Ok in Hrun as (has & s & [= <- <-] & Hrun).
  cbn [negb default from_option id] in Hrun.
  apply M_bind_Ok in Hrun as (params & s & [= <- <-] & Hrun).
  apply M_bind_Ok in Hrun as (hw & s & [= <- <-] & Hrun).
  apply M_bind_Ok in Hrun as ([p1 warmup] & st1 & Hpop & Hrun).
  apply (pop_warmup_frame _ _ d) in Hpop
    as ((d1 & Hdic1 & Hd1) & Hp1 & Hwm); [|assumption].
  cbn [py_getitem] in Hrun.
  rewrite (Hp1 "type"), Hty in Hrun by discriminate.
  apply M_bind_Ok in Hrun as (lr_type & s & [= <- <-] & Hrun).
  unfold mbind at 1, M_bind at 1 in Hrun.
  rewrite (write_params_run _ d1 st1 Hdic1) in Hrun.
  apply M_bind_Ok in Hrun as (p3 & st3 & Hpoly & Hrun).
  assert (Hp3 : d_get "decay_steps" p3 = Some (VInt (Z.max (n - w) 1))).
  { unfold polynomial_defaults in Hpoly. cbn [py_eq String.eqb Ascii.eqb
      Bool.eqb] in Hpoly.
    unfold iters, py_bool in Hpoly.
    apply M_bind_Ok in Hpoly as (its & s & Hits & Hpoly).
    unfold mbind, M_bind, get_self, lift in Hits.
    cbn [self dic set_dic py_get env] in Hits.
    rewrite d_get_set_ne, Hd1, Hiters in Hits by discriminate.
    cbn [default from_option id truthy truthy_builtin] in Hits.
    destruct (negb (negb (n =? 0)%Z)); [discriminate|].
    injection Hits as <- <-.
    assert (Hsub :
      (match warmup with
       | Some (warmup_iters, _, _) => lift (py_sub (VInt n) warmup_iters)
       | None => mret (VInt n)
       end : M value) = lift (Ok (VInt (n - w)))).
    { destruct Hwarm as [Hw|[Hw ->]]; rewrite Hw in Hwm.
      - destruct Hwm as (ws & el & ->). reflexivity.
      - subst warmup. now rewrite Z.sub_0_r. }
    rewrite Hsub in Hpoly.
    apply M_bind_Ok in Hpoly as (its' & s & [= <- <-] & Hpoly).
    rewrite py_max_int in Hpoly.
    apply M_bind_Ok in Hpoly as (steps & s & [= <- <-] & Hpoly).
    apply M_bind_Ok in Hpoly as ([] & s & _ & Hpoly).
    injection Hpoly as <- _.
    rewrite !d_get_setdefault_ne by discriminate.
    unfold d_setdefault, d_mem.
    rewrite d_get_pop_ne, Hp1, Hsteps by discriminate.
    apply d_get_set_eq. }
  apply M_bind_Ok in Hrun as (cls & s & Hcls & Hrun).
  apply lift_Ok in Hcls as [_ ->].
  apply M_bind_Ok in Hrun as (lr_sche & st4 & Hcall & Hrun).
  assert (Hlog : In (VStr "PolynomialDecay", p3) (calls (env st4))).
  { unfold call in Hcall. cbn [heap calls] in Hcall.
    destruct (cls p3 _); injection Hcall as _ <-; cbn [env calls];
      apply in_or_app; right; now left. }
  exists p3. split; [|exact Hp3].
  destruct warmup as [[[wi ws] el]|].
  - apply M_bind_Ok in Hrun as (cls' & s & Hcls' & Hrun).
    apply lift_Ok in Hcls' as [_ ->].
    unfold call in Hrun. cbn [heap calls] in Hrun.
    destruct (cls' _ _); injection Hrun as _ <-; cbn [env calls];
      apply in_or_app; now left.
  - injection Hrun as _ <-. assumption.
Qed.

End DecaySteps.

Section DecayRuns.
#[local] Existing Instance Sample.lr_module.

Lemma polynomial_decay_steps_witness :
  let p := [("type", VStr "PolynomialDecay");
            ("learning_rate", VFloat (1 # 100));
            ("warmup_iters", VInt 500);
            ("warmup_start_lr", VInt 0)] in
  let d := [("iters", VInt 200); ("lr_scheduler", VDict p)] in
  exists o st' params,
    lr_scheduler (Sample.fresh_state (VDict d)) = (Ok o, st')
    /\ In (VStr "PolynomialDecay", params) (calls (env st'))
    /\ d_get "decay_steps" params = Some (VInt 1).
Proof.
  intros p d.
  destruct (lr_scheduler (Sample.fresh_state (VDict d))) as [[o| |] st']
    eqn:Hrun; try (vm_compute in Hrun; discriminate).
  destruct (polynomial_decay_steps (Sample.fresh_state (VDict d)) st' o d p
              200 500 eq_refl eq_refl eq_refl
              eq_refl eq_refl (or_introl eq_refl) Hrun)
    as (params & Hin & Hsteps).
  exists o, st', params. auto.
Defined.

End DecayRuns.


(** ** Synchronising the image channels *)


Lemma py_eq_refl (x : value) : hashable x = true -> py_eq x x = true.
Proof.
  destruct x; simpl; intros Hh; try discriminate; try reflexivity.
  - apply Qeq_bool_iff. reflexivity.
  - apply Qeq_bool_iff. reflexivity.
  - apply Qeq_bool_iff. reflexivity.
  - apply String.eqb_refl.
  - apply Nat.eqb_refl.
Qed.

Lemma py_eq_close (x y c : value) :
  hashable x = true -> hashable y = true -> hashable c = true ->
  py_eq x c = true -> py_eq y c = true -> py_eq x y = true.
Proof.
  intros Hx Hy Hc.
  destruct x; try discriminate Hx; destruct y; try discriminate Hy;
    destruct c; try discriminate Hc; simpl; intros H1 H2;
    try discriminate; try reflexivity;
    try (apply Qeq_bool_iff; apply Qeq_bool_iff in H1, H2;
         now rewrite H1, H2);
    try (apply String.eqb_eq in H1, H2; subst; apply String.eqb_refl);
    try (apply Nat.eqb_eq in H1, H2; subst; apply Nat.eqb_refl).
Qed.

Lemma set_add_spec (x : value) (s s' : list value) :
  set_add x s = Ok s' ->
  hashable x = true
  /\ (forall y, In y s -> In y s')
  /\ (forall y, In y s' -> In y s \/ y = x)
  /\ (exists y, In y s' /\ py_eq x y = true).
Proof.
  unfold set_add. destruct (hashable x) eqn:Hh; [|discriminate].
  destruct (existsb (py_eq x) s) eqn:Hex; intros [= <-].
  - split; [reflexivity|]. split; [auto|]. split; [auto|].
    apply existsb_exists in Hex. exact Hex.
  - split; [reflexivity|]. split; [intros y Hy; apply in_or_app; auto|].
    split.
    + intros y Hy. apply in_app_or in Hy as [Hy|[Hy|[]]]; auto.
    + exists x. split; [apply in_or_app; right; left; reflexivity|].
      now apply py_eq_refl.
Qed.

Lemma add_dataset_channels_spec (name : string) (s s' : list value)
    (st st1 : state) :
  add_dataset_channels name s st = (Ok s', st1) ->
  st1 = st
  /\ exists d,
       dic (self st) = VDict d
       /\ ((s' = s
            /\ forall cfg x,
                 d_get name d = Some (VDict cfg) ->
                 d_get "img_channels" cfg <> Some x)
           \/ (exists cfg x,
                 d_get name d = Some (VDict cfg)
                 /\ d_get "img_channels" cfg = Some x
                 /\ set_add x s = Ok s')).
Proof.
  unfold add_dataset_channels, dataset_config_has, mbind, M_bind, get_self,
    lift, dataset_config, py_get.
  destruct (dic (self st)) as [| | | | | |d|] eqn:Hdic; simpl;
    try (intros [=]; fail).
  destruct (d_get name d) as [[| | | | |xs|cfg|]|] eqn:Hget; simpl;
    try (intros [=]; fail).
  - destruct xs as [|x0 xs]; simpl.
    + intros [= <- <-]. split; [reflexivity|]. exists d.
      split; [reflexivity|]. left. split; [reflexivity|]. congruence.
    + remember (x0 :: xs) as l eqn:Hl. clear Hl.
      rewrite Hdic. simpl. rewrite Hget. simpl.
      destruct (existsb _ l); simpl.
      * rewrite Hdic. simpl. rewrite Hget. simpl. intros [=].
      * intros [= <- <-]. split; [reflexivity|]. exists d.
        split; [reflexivity|]. left. split; [reflexivity|]. congruence.
  - destruct cfg as [|kv cfg]; simpl.
    + intros [= <- <-]. split; [reflexivity|]. exists d.
      split; [reflexivity|]. left. split; [reflexivity|].
      intros cfg x Hc. rewrite Hget in Hc. injection Hc as <-. discriminate.
    + remember (kv :: cfg) as cfg1 eqn:Hl. clear Hl.
      rewrite Hdic. simpl. rewrite Hget. simpl. unfold d_mem.
      destruct (d_get "img_channels" cfg1) as [x|] eqn:Hx; simpl.
      * rewrite Hdic. simpl. rewrite Hget. simpl. rewrite Hx.
        intros [= Hadd <-]. split; [reflexivity|]. exists d.
        split; [reflexivity|]. right. eauto.
      * intros [= <- <-]. split; [reflexivity|]. exists d.
        split; [reflexivity|]. left. split; [reflexivity|].
        intros cfg' x Hc. rewrite Hget in Hc. injection Hc as <-.
        congruence.
  - intros [= <- <-]. split; [reflexivity|]. exists d.
    split; [reflexivity|]. left. split; [reflexivity|]. congruence.
Qed.

Lemma add_dataset_channels_facts (name : string) (s s' : list value)
    (st st1 : state) :
  add_dataset_channels name s st = (Ok s', st1) ->
  st1 = st
  /\ exists d,
       dic (self st) = VDict d
       /\ (forall y, In y s -> In y s')
       /\ (forall y,
             In y s' ->
             In y s
             \/ (hashable y = true
                 /\ exists cfg,
                      d_get name d = Some (VDict cfg)
                      /\ d_get "img_channels" cfg = Some y))
       /\ (forall cfg x,
             d_get name d = Some (VDict cfg) ->
             d_get "img_channels" cfg = Some x ->
             hashable x = true /\ exists y, In y s' /\ py_eq x y = true).
Proof.
  intros Hrun.
  apply add_dataset_channels_spec in Hrun as (-> & d & Hdic & Hcases).
  split; [reflexivity|]. exists d. split; [assumption|].
  destruct Hcases as [[-> Hno]|(cfg & x & Hcfg & Hx & Hadd)].
  - split; [auto|]. split; [auto|]. intros cfg x Hcfg Hx.
    exfalso. eapply Hno; eauto.
  - apply set_add_spec in Hadd as (Hh & Hincl & Hback & Hex).
    split; [assumption|]. split.
    + intros y Hy. destruct (Hback y Hy) as [Hin| ->]; eauto.
    + intros cfg' x' Hcfg' Hx'. rewrite Hcfg in Hcfg'.
      injection Hcfg' as <-. rewrite Hx in Hx'. injection Hx' as <-. auto.
Qed.

Lemma collect_img_channels_spec (st st1 : state) (s : list value) :
  collect_img_channels st = (Ok s, st1) ->
  st1 = st
  /\ exists d m,
       dic (self st) = VDict d
       /\ d_get "model" d = Some (VDict m)
       /\ (forall x, In x s -> gives_channels d x)
       /\ (forall x,
             gives_channels d x ->
             hashable x = true /\ exists y, In y s /\ py_eq x y = true)
       /\ Forall (fun x => hashable x = true) s.
Proof.
  unfold collect_img_channels. intros Hrun.
  apply M_bind_Ok in Hrun as (c & st2 & [= <- <-] & Hrun).
  apply M_bind_Ok in Hrun as (model_cfg & st2 & Hm & Hrun).
  apply lift_Ok in Hm as [Hm ->].
  apply M_bind_Ok in Hrun as (has_backbone & st2 & Hb & Hrun).
  apply lift_Ok in Hb as [Hb ->].
  apply M_bind_Ok in Hrun as (s0 & st2 & Hs0 & Hrun).
  apply M_bind_Ok in Hrun as (s1 & st3 & Hs1 & Hs2).
  assert (Hmodel : st2 = st
    /\ exists d m, dic (self st) = VDict d
       /\ d_get "model" d = Some (VDict m)
       /\ ((s0 = [] /\ forall x, model_channels m = Some x -> x = VNone)
           \/ exists x, model_channels m = Some x /\ x <> VNone
                  /\ hashable x = true /\ s0 = [x])).
  { clear Hs1 Hs2.
    destruct (dic (self st)) as [| | | | | |d|] eqn:Hdic; try discriminate.
    simpl in Hm. destruct (d_get "model" d) as [mv|] eqn:Hmv;
      [|discriminate]. injection Hm as ->.
    destruct model_cfg as [| | | |str|xs|m|]; try discriminate.
    - simpl in Hb. injection Hb as <-.
      destruct (str_contains _ str); unfold mbind, M_bind, lift in Hs0;
        simpl in Hs0; discriminate.
    - simpl in Hb. injection Hb as <-.
      destruct (existsb _ xs); unfold mbind, M_bind, lift in Hs0;
        simpl in Hs0; discriminate.
    - simpl in Hb. injection Hb as <-. unfold d_mem in Hs0.
      unfold model_channels. cbn [py_getitem py_get] in Hs0. split.
      { destruct (d_get "backbone" m) as [bv|];
          unfold mbind, M_bind, lift, mret, M_ret in Hs0; simpl in Hs0.
        - destruct bv as [| | | | | |b|]; simpl in Hs0; try discriminate.
          destruct (d_get "in_channels" b) as [[]|]; simpl in Hs0;
            congruence.
        - destruct (d_get "in_channels" m) as [[]|]; simpl in Hs0;
            congruence. }
      exists d, m. split; [reflexivity|]. split; [exact Hmv|].
      destruct (d_get "backbone" m) as [bv|];
        unfold mbind, M_bind, lift, mret, M_ret in Hs0; simpl in Hs0.
      + destruct bv as [| | | | | |b|]; simpl in Hs0; try discriminate.
        destruct (d_get "in_channels" b) as [x|]; simpl in Hs0.
        * destruct x; simpl in Hs0; try discriminate;
            injection Hs0 as <- <-;
            solve [ left; split; [reflexivity|]; now intros x [= <-]
                  | right; eexists; repeat split; congruence ].
        * injection Hs0 as <- <-. left. split; [reflexivity|]. discriminate.
      + destruct (d_get "in_channels" m) as [x|]; simpl in Hs0.
        * destruct x; simpl in Hs0; try discriminate;
            injection Hs0 as <- <-;
            solve [ left; split; [reflexivity|]; now intros x [= <-]
                  | right; eexists; repeat split; congruence ].
        * injection Hs0 as <- <-. left. split; [reflexivity|]. discriminate. }
  destruct Hmodel as (-> & d & m & Hdic & Hmv & Hs0').
  apply add_dataset_channels_facts in Hs1
    as (-> & d1 & Hd1 & Ht1 & Ht2 & Ht3).
  apply add_dataset_channels_facts in Hs2
    as (-> & d2 & Hd2 & Hv1 & Hv2 & Hv3).
  rewrite Hdic in Hd1, Hd2. injection Hd1 as <-. injection Hd2 as <-.
  split; [reflexivity|]. exists d, m. split; [assumption|].
  split; [exact Hmv|].
  assert (Hall : forall y, In y s -> hashable y = true /\ gives_channels d y).
  { intros y Hy. destruct (Hv2 y Hy) as [Hy1|(Hh & cfg & Hcfg & Hx)].
    - destruct (Ht2 y Hy1) as [Hy0|(Hh & cfg & Hcfg & Hx)].
      + destruct Hs0' as [[-> _]|(x & Hx & Hne & Hh & ->)]; [destruct Hy0|].
        destruct Hy0 as [<-|[]]. split; [assumption|]. left. eauto.
      + split; [assumption|]. right. exists "train_dataset", cfg. auto.
    - split; [assumption|]. right. exists "val_dataset", cfg. auto. }
  split; [intros x Hx; now apply Hall|]. split.
  - intros x [(m' & Hm' & Hx & Hne)|(name & cfg & Hname & Hcfg & Hx)].
    + rewrite Hmv in Hm'. injection Hm' as <-.
      destruct Hs0' as [[_ Hnone]|(x' & Hx' & _ & Hh & ->)];
        [exfalso; auto|].
      rewrite Hx in Hx'. injection Hx' as <-. split; [assumption|].
      exists x. split; [apply Hv1, Ht1; left; reflexivity|].
      now apply py_eq_refl.
    + destruct Hname as [-> | ->].
      * destruct (Ht3 cfg x Hcfg Hx) as (Hh & y & Hy & Heq).
        split; [assumption|]. exists y. auto.
      * exact (Hv3 cfg x Hcfg Hx).
  - apply List.Forall_forall. intros y Hy. exact (proj1 (Hall y Hy)).
Qed.

(** The three writes of the second half. *)
Lemma write_model_channels_post (ch : value) (st st' : state) :
  write_model_channels ch st = (Ok tt, st') ->
  exists d m',
    dic (self st) = VDict d
    /\ dic (self st') = VDict (d_set "model" (VDict m') d)
    /\ model_channels m' = Some ch.
Proof.
  unfold write_model_channels, mbind, M_bind, get_self, lift, set_self.
  destruct (dic (self st)) as [| | | | | |d|] eqn:Hdic; simpl;
    try (intros [=]; fail).
  destruct (d_get "model" d) as [[| | | |str|xs|m|]|] eqn:Hm; simpl;
    try (intros [=]; fail).
  - destruct (str_contains _ str); simpl; intros [=].
  - destruct (existsb _ xs); simpl; intros [=].
  - unfold d_mem. destruct (d_get "backbone" m) as [bv|] eqn:Hb; simpl.
    + destruct bv as [| | | | | |b|]; simpl; try (intros [=]; fail).
      intros [= <-]. eexists _, _. split; [reflexivity|].
      split; [reflexivity|]. unfold model_channels.
      rewrite d_get_set_eq. apply d_get_set_eq.
    + intros [= <-]. eexists _, _. split; [reflexivity|].
      split; [reflexivity|]. unfold model_channels.
      rewrite d_get_set_ne by discriminate. rewrite Hb.
      apply d_get_set_eq.
Qed.

Lemma write_dataset_channels_post (name : string) (ch : value)
    (st st' : state) :
  write_dataset_channels name ch st = (Ok tt, st') ->
  exists d d',
    dic (self st) = VDict d
    /\ dic (self st') = VDict d'
    /\ (forall k, k <> name -> d_get k d' = d_get k d)
    /\ (forall cfg,
          d_get name d' = Some (VDict cfg) ->
          d_get "type" cfg = Some (VStr "Dataset") ->
          d_get "img_channels" cfg = Some ch).
Proof.
  unfold write_dataset_channels, mbind, M_bind, get_self, lift, set_self,
    dataset_config, py_get.
  destruct (dic (self st)) as [| | | | | |d|] eqn:Hdic; simpl;
    try (intros [=]; fail).
  destruct (d_get name d) as [[| | | | |xs|cfg|]|] eqn:Hget; simpl;
    try (intros [=]; fail).
  - destruct xs as [|x0 xs]; simpl.
    + intros [= <-]. exists d, d. repeat split; auto. congruence.
    + rewrite Hdic. simpl. rewrite Hget. simpl. intros [=].
  - destruct cfg as [|kv cfg]; simpl.
    + intros [= <-]. exists d, d. repeat split; auto.
      intros cfg Hc. rewrite Hget in Hc. injection Hc as <-. discriminate.
    + remember (kv :: cfg) as cfg1 eqn:Hl. clear Hl.
      rewrite Hdic. simpl. rewrite Hget. simpl.
      destruct (d_get "type" cfg1) as [ty|] eqn:Hty; simpl;
        [|intros [=]].
      destruct (py_eq ty (VStr "Dataset")) eqn:Heq; simpl.
      * rewrite Hdic. simpl. rewrite Hget. simpl. intros [= <-]. simpl.
        eexists _, _. split; [reflexivity|]. split; [reflexivity|]. split.
        -- intros k Hk. apply d_get_set_ne. congruence.
        -- intros cfg' Hc. rewrite d_get_set_eq in Hc. injection Hc as <-.
           intros _. apply d_get_set_eq.
      * intros [= <-]. exists d, d. repeat split; auto.
        intros cfg' Hc. rewrite Hget in Hc. injection Hc as <-.
        rewrite Hty. intros [= ->]. discriminate.
  - intros [= <-]. exists d, d. repeat split; auto. congruence.
Qed.

Lemma reader_ret {A : Type} (a : A) : reader (mret a : M A).
Proof. intros st. exists (Ok a). split; [reflexivity|discriminate]. Qed.

Lemma reader_lift {A : Type} (r : res A) : r <> Diverge -> reader (lift r).
Proof. intros Hr st. exists r. split; [reflexivity|assumption]. Qed.

Lemma reader_get_self : reader get_self.
Proof.
  intros st. exists (Ok (self st)). split; [reflexivity|discriminate].
Qed.

Lemma reader_bind {A B : Type} (m : M A) (k : A -> M B) :
  reader m -> (forall a, reader (k a)) -> reader (m ≫= k).
Proof.
  intros Hm Hk st. unfold mbind, M_bind.
  destruct (Hm st) as ([a|e|] & -> & Hr).
  - apply Hk.
  - exists (Raise e). split; [reflexivity|discriminate].
  - now destruct Hr.
Qed.

Lemma py_getitem_ends (v : value) (k : string) : py_getitem v k <> Diverge.
Proof. destruct v; simpl; try discriminate. now destruct (d_get k kvs). Qed.

Lemma py_in_ends (k : string) (v : value) : py_in k v <> Diverge.
Proof. destruct v; discriminate. Qed.

Lemma py_get_ends (v : value) (k : string) (dflt : value) :
  py_get v k dflt <> Diverge.
Proof. destruct v; discriminate. Qed.

Lemma dataset_config_ends (name : string) (v : value) :
  dataset_config name v <> Diverge.
Proof.
  unfold dataset_config, py_get. destruct v; try discriminate. simpl.
  now destruct (default (VDict []) (d_get name kvs)).
Qed.

Lemma set_add_ends (x : value) (s : list value) : set_add x s <> Diverge.
Proof. unfold set_add. now destruct (hashable x). Qed.

Create HintDb reads.

#[local] Hint Resolve reader_ret reader_get_self py_getitem_ends py_in_ends
  py_get_ends dataset_config_ends set_add_ends : reads.

Ltac reads :=
  repeat first
    [ apply reader_bind; [|intros ?]
    | apply reader_get_self
    | apply reader_ret
    | apply reader_lift; solve [auto with reads]
    | match goal with
      | |- reader (if ?b then _ else _) => destruct b
      | |- reader (match ?x with _ => _ end) => destruct x
      end ].

Lemma add_dataset_channels_reads (name : string) (s : list value) :
  reader (add_dataset_channels name s).
Proof. unfold add_dataset_channels, dataset_config_has. reads. Qed.

Lemma collect_img_channels_reads : reader collect_img_channels.
Proof.
  unfold collect_img_channels.
  repeat (apply reader_bind; [|intros ?]);
    try apply add_dataset_channels_reads; reads.
Qed.

Lemma check_sync_img_channels_post (st st' : state) :
  _check_sync_img_channels st = (Ok tt, st') ->
  exists d d' m' ch,
    dic (self st) = VDict d
    /\ dic (self st') = VDict d'
    /\ d_get "model" d' = Some (VDict m')
    /\ model_channels m' = Some ch
    /\ (forall name cfg,
          name = "train_dataset" \/ name = "val_dataset" ->
          d_get name d' = Some (VDict cfg) ->
          d_get "type" cfg = Some (VStr "Dataset") ->
          d_get "img_channels" cfg = Some ch)
    /\ (forall x, gives_channels d x -> py_eq x ch = true)
    /\ ((forall x, ~ gives_channels d x) -> ch = VInt 3).
Proof.
  unfold _check_sync_img_channels. intros Hrun.
  apply M_bind_Ok in Hrun as (s & st1 & Hs & Hrun).
  apply collect_img_channels_spec in Hs
    as (-> & d & m & Hdic & Hm & Hin & Hgives & Hhash).
  destruct (1 <? List.length s)%nat eqn:Hlen; [discriminate|].
  apply Nat.ltb_ge in Hlen.
  apply M_bind_Ok in Hrun as ([] & sta & Hwm & Hrun).
  apply M_bind_Ok in Hrun as ([] & stb & Hwt & Hwv).
  apply write_model_channels_post in Hwm as (d0 & m' & Hd0 & Hda & Hch).
  apply write_dataset_channels_post in Hwt
    as (da & db & Hda' & Hdb & Hft & Ht).
  apply write_dataset_channels_post in Hwv
    as (db' & d' & Hdb' & Hd' & Hfv & Hv).
  rewrite Hdic in Hd0. injection Hd0 as <-.
  rewrite Hda in Hda'. injection Hda' as <-.
  rewrite Hdb in Hdb'. injection Hdb' as <-.
  eexists d, d', m', _. split; [assumption|]. split; [assumption|]. split.
  { rewrite Hfv, Hft by discriminate. apply d_get_set_eq. }
  split; [exact Hch|]. split.
  { intros name cfg [-> | ->] Hcfg Hty.
    - rewrite Hfv in Hcfg by discriminate. eauto.
    - eauto. }
  split.
  - intros x Hx. destruct (Hgives x Hx) as (_ & y & Hy & Heq).
    destruct s as [|y0 [|y1 s]]; simpl in Hlen, Hy.
    + destruct Hy.
    + destruct Hy as [<-|[]]. exact Heq.
    + lia.
  - intros Hnone. destruct s as [|y0 s]; [reflexivity|].
    exfalso. apply (Hnone y0). apply Hin. left. reflexivity.
Qed.

(** X13. When [_check_sync_img_channels] returns, the configuration is
    consistent: the model (its backbone when it has one) holds a number
    of input channels [ch], every dataset of type [Dataset] holds the
    same [ch] under [img_channels], [ch] equals every number the
    configuration gave before the call, and it is 3 when it gave
    none. *)
Theorem img_channels_synced (st st' : state) :
  _check_sync_img_channels st = (Ok tt, st') ->
  exists d d' m' ch,
    dic (self st) = VDict d
    /\ dic (self st') = VDict d'
    /\ d_get "model" d' = Some (VDict m')
    /\ model_channels m' = Some ch
    /\ (forall name cfg,
          name = "train_dataset" \/ name = "val_dataset" ->
          d_get name d' = Some (VDict cfg) ->
          d_get "type" cfg = Some (VStr "Dataset") ->
          d_get "img_channels" cfg = Some ch)
    /\ (forall x, gives_channels d x -> py_eq x ch = true)
    /\ ((forall x, ~ gives_channels d x) -> ch = VInt 3).
Proof. apply check_sync_img_channels_post. Qed.

(** X14. Two numbers of image channels that differ, given by the model
    and the datasets of one configuration, make
    [_check_sync_img_channels] raise, and the configuration stays as it
    was. *)
Theorem inconsistent_img_channels_refused (st : state) (d : dict)
    (x y : value) :
  dic (self st) = VDict d ->
  gives_channels d x -> gives_channels d y -> py_eq x y = false ->
  exists e, _check_sync_img_channels st = (Raise e, st).
Proof.
  intros Hdic Hx Hy Hne. unfold _check_sync_img_channels, mbind, M_bind.
  destruct (collect_img_channels_reads st) as ([s|e|] & Hs & Hr).
  - rewrite Hs. exists ValueError.
    apply collect_img_channels_spec in Hs
      as (_ & d0 & m & Hd0 & _ & _ & Hgives & Hhash).
    rewrite Hdic in Hd0. injection Hd0 as <-.
    destruct (Hgives x Hx) as (Hhx & x' & Hx' & Hex).
    destruct (Hgives y Hy) as (Hhy & y' & Hy' & Hey).
    destruct s as [|c [|c' s]]; simpl in Hx', Hy'.
    + destruct Hx'.
    + destruct Hx' as [<-|[]]. destruct Hy' as [<-|[]].
      inversion Hhash as [|? ? Hhc _]; subst.
      rewrite (py_eq_close x y c) in Hne by assumption. discriminate.
    + reflexivity.
  - rewrite Hs. eauto.
  - now destruct Hr.
Qed.


Section ChannelRuns.

Lemma img_channels_synced_witness :
  let st := Sample.fresh_state
              (VDict [("model",
                        VDict [("type", VStr "UNet");
                               ("backbone", VDict [("type", VStr "ResNet")])]);
                      ("train_dataset",
                        VDict [("type", VStr "Dataset");
                               ("img_channels", VInt 4)]);
                      ("val_dataset", VDict [("type", VStr "Dataset")])]) in
  exists st',
    _check_sync_img_channels st = (Ok tt, st')
    /\ exists d d' m' ch,
         dic (self st) = VDict d
         /\ dic (self st') = VDict d'
         /\ d_get "model" d' = Some (VDict m')
         /\ model_channels m' = Some ch
         /\ (forall name cfg,
               name = "train_dataset" \/ name = "val_dataset" ->
               d_get name d' = Some (VDict cfg) ->
               d_get "type" cfg = Some (VStr "Dataset") ->
               d_get "img_channels" cfg = Some ch)
         /\ (forall x, gives_channels d x -> py_eq x ch = true)
         /\ ((forall x, ~ gives_channels d x) -> ch = VInt 3).
Proof.
  intros st. destruct (_check_sync_img_channels st) as [r st'] eqn:Hrun.
  assert (Hr : r = Ok tt)
    by (vm_compute in Hrun; injection Hrun as <- _; reflexivity).
  subst r. exists st'. split; [reflexivity|].
  apply (img_channels_synced st st' Hrun).
Defined.

Lemma inconsistent_img_channels_refused_witness :
  let d := [("model", VDict [("type", VStr "UNet"); ("in_channels", VInt 3)]);
            ("train_dataset",
              VDict [("type", VStr "Dataset"); ("img_channels", VInt 4)])] in
  exists e,
    _check_sync_img_channels (Sample.fresh_state (VDict d))
    = (Raise e, Sample.fresh_state (VDict d)).
Proof.
  intros d.
  apply (inconsistent_img_channels_refused (Sample.fresh_state (VDict d)) d
           (VInt 3) (VInt 4) eq_refl).
  - left. exists [("type", VStr "UNet"); ("in_channels", VInt 3)].
    split; [reflexivity|]. split; [reflexivity|discriminate].
  - right.
    exists "train_dataset",
      [("type", VStr "Dataset"); ("img_channels", VInt 4)].
    split; [left; reflexivity|]. split; reflexivity.
  - reflexivity.
Defined.

End ChannelRuns.


(** *** What the synchronisation leaves alone *)

Section ChannelsFrame.

Lemma only_dic_changed_refl (st : state) : only_dic_changed st st.
Proof. split; [reflexivity|]. now destruct (self st). Qed.

Lemma only_dic_changed_trans (a b c : state) :
  only_dic_changed a b -> only_dic_changed b c -> only_dic_changed a c.
Proof.
  intros [Hab1 Hab2] [Hbc1 Hbc2]. split; [congruence|].
  rewrite Hbc2 at 1. rewrite Hab2. reflexivity.
Qed.

Lemma differs_only_at_set (keys : list string) (k : string) (x : value)
    (c : dict) :
  In k keys ->
  differs_only_at keys (Some (VDict c)) (Some (VDict (d_set k x c))).
Proof.
  intros Hk. right. exists c, (d_set k x c). split; [reflexivity|].
  split; [reflexivity|]. intros k' Hk'. apply d_get_set_ne. congruence.
Qed.

Lemma write_model_channels_frame (ch : value) (st st' : state) :
  write_model_channels ch st = (Ok tt, st') ->
  only_dic_changed st st'
  /\ exists d d',
       dic (self st) = VDict d
       /\ dic (self st') = VDict d'
       /\ (forall k, k <> "model" -> d_get k d' = d_get k d)
       /\ exists m m',
            d_get "model" d = Some (VDict m)
            /\ d_get "model" d' = Some (VDict m')
            /\ (forall k,
                  ~ In k ["in_channels"; "backbone"] ->
                  d_get k m' = d_get k m)
            /\ differs_only_at ["in_channels"]
                 (d_get "backbone" m) (d_get "backbone" m').
Proof.
  unfold write_model_channels, mbind, M_bind, get_self, lift, set_self.
  destruct (dic (self st)) as [| | | | | |d|] eqn:Hdic; simpl;
    try (intros [=]; fail).
  destruct (d_get "model" d) as [[| | | |str|xs|m|]|] eqn:Hm; simpl;
    try (intros [=]; fail).
  - destruct (str_contains _ str); simpl; intros [=].
  - destruct (existsb _ xs); simpl; intros [=].
  - unfold d_mem. destruct (d_get "backbone" m) as [bv|] eqn:Hb; simpl.
    + destruct bv as [| | | | | |b|]; simpl; try (intros [=]; fail).
      intros [= <-]. split; [split; reflexivity|]. cbn [self dic set_dic].
      eexists _, _. split; [reflexivity|]. split; [reflexivity|].
      split; [intros k Hk; apply d_get_set_ne; congruence|].
      eexists _, _. split; [exact Hm|].
      split; [apply d_get_set_eq|]. split.
      * intros k Hk. apply d_get_set_ne. simpl in Hk. intuition.
      * rewrite d_get_set_eq, Hb. apply differs_only_at_set. now left.
    + intros [= <-]. split; [split; reflexivity|]. cbn [self dic set_dic].
      eexists _, _. split; [reflexivity|]. split; [reflexivity|].
      split; [intros k Hk; apply d_get_set_ne; congruence|].
      eexists _, _. split; [exact Hm|].
      split; [apply d_get_set_eq|]. split.
      * intros k Hk. apply d_get_set_ne. simpl in Hk. intuition.
      * left. rewrite d_get_set_ne by discriminate. now rewrite Hb.
Qed.

Lemma write_dataset_channels_frame (name : string) (ch : value)
    (st st' : state) :
  write_dataset_channels name ch st = (Ok tt, st') ->
  only_dic_changed st st'
  /\ exists d d',
       dic (self st) = VDict d
       /\ dic (self st') = VDict d'
       /\ (forall k, k <> name -> d_get k d' = d_get k d)
       /\ differs_only_at ["img_channels"] (d_get name d) (d_get name d').
Proof.
  unfold write_dataset_channels, mbind, M_bind, get_self, lift, set_self,
    dataset_config, py_get.
  destruct (dic (self st)) as [| | | | | |d|] eqn:Hdic; simpl;
    try (intros [=]; fail).
  assert (Hsame : only_dic_changed st st
                  /\ exists d0 d',
                       VDict d = VDict d0 /\ dic (self st) = VDict d'
                       /\ (forall k, k <> name -> d_get k d' = d_get k d0)
                       /\ differs_only_at ["img_channels"]
                            (d_get name d0) (d_get name d')).
  { split; [apply only_dic_changed_refl|]. exists d, d.
    repeat split; auto. now left. }
  destruct (d_get name d) as [[| | | | |xs|cfg|]|] eqn:Hget; simpl;
    try (intros [=]; fail).
  - destruct xs as [|x0 xs]; simpl.
    + intros [= <-]. exact Hsame.
    + rewrite Hdic. simpl. rewrite Hget. simpl. intros [=].
  - destruct cfg as [|kv cfg]; simpl.
    + intros [= <-]. exact Hsame.
    + remember (kv :: cfg) as cfg1 eqn:Hl. clear Hl.
      rewrite Hdic. simpl. rewrite Hget. simpl.
      destruct (d_get "type" cfg1) as [ty|] eqn:Hty; simpl;
        [|intros [=]].
      destruct (py_eq ty (VStr "Dataset")) eqn:Heq; simpl.
      * rewrite Hdic. simpl. rewrite Hget. simpl. intros [= <-].
        split; [split; reflexivity|]. cbn [self dic set_dic].
        eexists _, _. split; [reflexivity|]. split; [reflexivity|]. split.
        -- intros k Hk. apply d_get_set_ne. congruence.
        -- rewrite d_get_set_eq, Hget. apply differs_only_at_set. now left.
      * intros [= <-]. exact Hsame.
  - intros [= <-]. exact Hsame.
Qed.

Lemma check_sync_img_channels_frame (st st' : state) :
  _check_sync_img_channels st = (Ok tt, st') ->
  only_dic_changed st st'
  /\ exists d d',
       dic (self st) = VDict d
       /\ dic (self st') = VDict d'
       /\ (forall k,
             ~ In k ["model"; "train_dataset"; "val_dataset"] ->
             d_get k d' = d_get k d)
       /\ (exists m m',
             d_get "model" d = Some (VDict m)
             /\ d_get "model" d' = Some (VDict m')
             /\ (forall k,
                   ~ In k ["in_channels"; "backbone"] ->
                   d_get k m' = d_get k m)
             /\ differs_only_at ["in_channels"]
                  (d_get "backbone" m) (d_get "backbone" m'))
       /\ differs_only_at ["img_channels"]
            (d_get "train_dataset" d) (d_get "train_dataset" d')
       /\ differs_only_at ["img_channels"]
            (d_get "val_dataset" d) (d_get "val_dataset" d').
Proof.
  unfold _check_sync_img_channels. intros Hrun.
  apply M_bind_Ok in Hrun as (s & st1 & Hs & Hrun).
  apply collect_img_channels_spec in Hs as (-> & _).
  destruct (1 <? List.length s)%nat; [discriminate|].
  apply M_bind_Ok in Hrun as ([] & sta & Hwm & Hrun).
  apply M_bind_Ok in Hrun as ([] & stb & Hwt & Hwv).
  apply write_model_channels_frame in Hwm
    as (Hoa & d & da & Hd & Hda & Hfm & m & m' & Hm & Hm' & Hmk & Hmb).
  apply write_dataset_channels_frame in Hwt
    as (Hob & da' & db & Hda' & Hdb & Hft & Ht).
  apply write_dataset_channels_frame in Hwv
    as (Hoc & db' & d' & Hdb' & Hd' & Hfv & Hv).
  rewrite Hda in Hda'. injection Hda' as <-.
  rewrite Hdb in Hdb'. injection Hdb' as <-.
  split; [eauto using only_dic_changed_trans|].
  exists d, d'. split; [assumption|]. split; [assumption|]. split.
  { intros k Hk. simpl in Hk.
    rewrite Hfv, Hft, Hfm by intuition congruence. reflexivity. }
  split.
  { exists m, m'. split; [assumption|].
    rewrite Hfv, Hft by discriminate. auto. }
  split.
  - rewrite Hfv by discriminate.
    rewrite <- (Hfm "train_dataset") by discriminate. exact Ht.
  - rewrite <- (Hfm "val_dataset"), <- (Hft "val_dataset") by discriminate.
    exact Hv.
Qed.


End ChannelsFrame.

Section ChannelsFrameRuns.


End ChannelsFrameRuns.

(** ** Synchronising the number of classes *)

Section NumClasses.
Context `{Manager} `{ClassAttrs}.

Lemma train_dataset_class_run (st : state) :
  train_dataset_class st = (dataset_class_of "train_dataset" (dic (self st)), st).
Proof.
  unfold train_dataset_class, train_dataset_config, dataset_class_of, mbind,
    M_bind, get_self, lift.
  destruct (dataset_config _ _) as [cfg| |]; try reflexivity. simpl.
  destruct (py_getitem cfg "type"); reflexivity.
Qed.

Lemma val_dataset_class_run (st : state) :
  val_dataset_class st = (dataset_class_of "val_dataset" (dic (self st)), st).
Proof.
  unfold val_dataset_class, val_dataset_config, dataset_class_of, mbind,
    M_bind, get_self, lift.
  destruct (dataset_config _ _) as [cfg| |]; try reflexivity. simpl.
  destruct (py_getitem cfg "type"); reflexivity.
Qed.

Lemma load_component_ends (ty : value) : _load_component ty <> Diverge.
Proof.
  unfold _load_component. destruct ty; try discriminate.
  generalize [MODELS; BACKBONES; DATASETS; TRANSFORMS; LOSSES].
  intros l. induction l as [|com l IH]; simpl; [discriminate|].
  now destruct (com !! s).
Qed.

Lemma dataset_class_of_ends (name : string) (v : value) :
  dataset_class_of name v <> Diverge.
Proof.
  unfold dataset_class_of.
  pose proof (dataset_config_ends name v) as Hc.
  destruct (dataset_config name v) as [cfg| |]; simpl; try congruence.
  pose proof (py_getitem_ends cfg "type") as Hg.
  destruct (py_getitem cfg "type") as [ty| |]; simpl; try congruence.
  apply load_component_ends.
Qed.

Lemma dataset_config_inv (name : string) (v cfg : value) :
  dataset_config name v = Ok cfg ->
  exists d,
    v = VDict d
    /\ (d_get name d = Some cfg \/ (d_get name d = None /\ cfg = VDict [])).
Proof.
  unfold dataset_config, py_get. destruct v; try discriminate. simpl.
  intros Hc. exists kvs. split; [reflexivity|].
  destruct (d_get name kvs) as [x|]; simpl in Hc.
  - left. destruct x; simpl in Hc; congruence.
  - right. split; [reflexivity|]. congruence.
Qed.

Lemma dataset_config_dict (name : string) (d cfg : dict) :
  d_get name d = Some (VDict cfg) ->
  dataset_config name (VDict d) = Ok (VDict cfg).
Proof. unfold dataset_config, py_get. now intros ->. Qed.

Lemma py_getitem_inv (v x : value) (k : string) :
  py_getitem v k = Ok x -> exists d, v = VDict d /\ d_get k d = Some x.
Proof.
  destruct v; try discriminate. simpl.
  destruct (d_get k kvs) eqn:Hk; [|discriminate]. intros [= ->]. eauto.
Qed.

Section OneDataset.
Variable name : string.
Variable dataset_class : M component.
Hypothesis dataset_class_run :
  forall st, dataset_class st = (dataset_class_of name (dic (self st)), st).

Lemma dataset_class_reads : reader dataset_class.
Proof.
  intros st. rewrite dataset_class_run. eexists. split; [reflexivity|].
  apply dataset_class_of_ends.
Qed.

Lemma add_dataset_num_classes_reads (s : list value) :
  reader (add_dataset_num_classes name dataset_class s).
Proof.
  unfold add_dataset_num_classes, raise.
  repeat (apply reader_bind; [|intros ?]);
    try apply dataset_class_reads; reads;
    repeat (apply reader_bind; [|intros ?]);
    try apply dataset_class_reads; reads.
Qed.

Lemma add_dataset_num_classes_facts (s s' : list value) (st st1 : state) :
  add_dataset_num_classes name dataset_class s st = (Ok s', st1) ->
  st1 = st
  /\ exists d,
       dic (self st) = VDict d
       /\ (forall y, In y s -> In y s')
       /\ (forall y,
             In y s' ->
             In y s \/ (hashable y = true /\ dataset_num_classes name d y))
       /\ (forall x,
             dataset_num_classes name d x ->
             hashable x = true /\ exists y, In y s' /\ py_eq x y = true).
Proof.
  unfold add_dataset_num_classes. intros Hrun.
  apply M_bind_Ok in Hrun as (c & st2 & [= <- <-] & Hrun).
  apply M_bind_Ok in Hrun as (cfg & st2 & Hcfg & Hrun).
  apply lift_Ok in Hcfg as [Hcfg ->].
  destruct (dataset_config_inv _ _ _ Hcfg) as (d & Hdic & Hget).
  assert (Hsame : forall cfg',
             d_get name d = Some (VDict cfg') -> cfg = VDict cfg').
  { intros cfg' Hc. rewrite Hdic in Hcfg.
    rewrite (dataset_config_dict _ _ _ Hc) in Hcfg. congruence. }
  destruct (truthy_builtin cfg) eqn:Ht.
  - apply M_bind_Ok in Hrun as (cls & st2 & Hcls & Hrun).
    rewrite dataset_class_run in Hcls. injection Hcls as Hcls <-.
    unfold dataset_class_of in Hcls. rewrite Hcfg in Hcls. simpl in Hcls.
    apply res_bind_Ok in Hcls as (ty & Hty & Hcls).
    apply py_getitem_inv in Hty as (cfgd & -> & Hty).
    assert (Hcfgd : d_get name d = Some (VDict cfgd)).
    { destruct Hget as [Hget|[_ Heq]]; [assumption|].
      injection Heq as ->. discriminate Hty. }
    assert (Hadd : exists x,
               set_add x s = Ok s' /\ st1 = st
               /\ match NUM_CLASSES cls with
                  | Some n => x = n
                  | None => d_get "num_classes" cfgd = Some x
                  end
               \/ s' = s /\ st1 = st /\ NUM_CLASSES cls = None
                  /\ d_get "num_classes" cfgd = None).
    { destruct (NUM_CLASSES cls) as [n|] eqn:Hn.
      - apply M_bind_Ok in Hrun as (cls' & st2 & Hcls' & Hrun).
        rewrite dataset_class_run in Hcls'. injection Hcls' as Hcls' <-.
        unfold dataset_class_of in Hcls'. rewrite Hcfg in Hcls'.
        simpl in Hcls'. rewrite Hty in Hcls'. simpl in Hcls'.
        assert (cls' = cls) as -> by congruence. rewrite Hn in Hrun.
        apply lift_Ok in Hrun as [Hadd ->]. exists n. left. auto.
      - apply M_bind_Ok in Hrun as (c & st2 & [= <- <-] & Hrun).
        apply M_bind_Ok in Hrun as (cfg' & st2 & Hcfg' & Hrun).
        apply lift_Ok in Hcfg' as [Hcfg' ->].
        rewrite Hcfg in Hcfg'. injection Hcfg' as <-.
        apply M_bind_Ok in Hrun as (has & st2 & Hhas & Hrun).
        apply lift_Ok in Hhas as [[= <-] ->]. unfold d_mem in Hrun.
        destruct (d_get "num_classes" cfgd) as [x|] eqn:Hx.
        + apply M_bind_Ok in Hrun as (c & st2 & [= <- <-] & Hrun).
          apply M_bind_Ok in Hrun as (cfg' & st2 & Hcfg' & Hrun).
          apply lift_Ok in Hcfg' as [Hcfg' ->].
          rewrite Hcfg in Hcfg'. injection Hcfg' as <-.
          apply M_bind_Ok in Hrun as (x' & st2 & Hx' & Hrun).
          apply lift_Ok in Hx' as [Hx' ->]. simpl in Hx'.
          rewrite Hx in Hx'. injection Hx' as <-.
          apply lift_Ok in Hrun as [Hadd ->]. exists x. left. auto.
        + injection Hrun as <- <-. exists VNone. right. auto. }
    destruct Hadd as (x & [(Hadd & -> & Hx)|(-> & -> & Hn & Hx)]).
    + split; [reflexivity|]. exists d. split; [assumption|].
      apply set_add_spec in Hadd as (Hh & Hincl & Hback & Hex).
      split; [assumption|]. split.
      * intros y Hy. destruct (Hback y Hy) as [Hin| ->]; [auto|].
        right. split; [assumption|]. exists cfgd, ty, cls. auto.
      * intros x' (cfg' & ty' & cls' & Hc' & Hty' & Hcls' & Hx').
        rewrite Hcfgd in Hc'. injection Hc' as <-.
        rewrite Hty in Hty'. injection Hty' as <-.
        rewrite Hcls in Hcls'. injection Hcls' as <-.
        assert (x' = x) as ->; [|auto].
        destruct (NUM_CLASSES cls); congruence.
    + split; [reflexivity|]. exists d. split; [assumption|].
      split; [auto|]. split; [auto|].
      intros x' (cfg' & ty' & cls' & Hc' & Hty' & Hcls' & Hx').
      rewrite Hcfgd in Hc'. injection Hc' as <-.
      rewrite Hty in Hty'. injection Hty' as <-.
      rewrite Hcls in Hcls'. injection Hcls' as <-.
      rewrite Hn in Hx'. congruence.
  - injection Hrun as <- <-. split; [reflexivity|]. exists d.
    split; [assumption|]. split; [auto|]. split; [auto|].
    intros x' (cfg' & ty' & cls' & Hc' & Hty' & Hcls' & Hx').
    rewrite (Hsame _ Hc') in Ht. destruct cfg'; discriminate.
Qed.

Lemma write_dataset_num_classes_post (n : value) (st st' : state) :
  write_dataset_num_classes name dataset_class n st = (Ok tt, st') ->
  exists d d',
    dic (self st) = VDict d
    /\ dic (self st') = VDict d'
    /\ (forall k, k <> name -> d_get k d' = d_get k d)
    /\ (forall cfg ty cls,
          d_get name d' = Some (VDict cfg) ->
          d_get "type" cfg = Some ty ->
          _load_component ty = Ok cls ->
          NUM_CLASSES cls = None ->
          d_get "num_classes" cfg = Some n).
Proof.
  unfold write_dataset_num_classes. intros Hrun.
  apply M_bind_Ok in Hrun as (c & st2 & [= <- <-] & Hrun).
  apply M_bind_Ok in Hrun as (cfg & st2 & Hcfg & Hrun).
  apply lift_Ok in Hcfg as [Hcfg ->].
  destruct (dataset_config_inv _ _ _ Hcfg) as (d & Hdic & Hget).
  assert (Hsame : forall cfg',
             d_get name d = Some (VDict cfg') -> cfg = VDict cfg').
  { intros cfg' Hc. rewrite Hdic in Hcfg.
    rewrite (dataset_config_dict _ _ _ Hc) in Hcfg. congruence. }
  destruct (truthy_builtin cfg) eqn:Ht.
  - apply M_bind_Ok in Hrun as (cls & st2 & Hcls & Hrun).
    rewrite dataset_class_run in Hcls. injection Hcls as Hcls <-.
    unfold dataset_class_of in Hcls. rewrite Hcfg in Hcls. simpl in Hcls.
    apply res_bind_Ok in Hcls as (ty & Hty & Hcls).
    apply py_getitem_inv in Hty as (cfgd & -> & Hty).
    assert (Hcfgd : d_get name d = Some (VDict cfgd)).
    { destruct Hget as [Hget|[_ Heq]]; [assumption|].
      injection Heq as ->. discriminate Hty. }
    destruct (NUM_CLASSES cls) as [n0|] eqn:Hn.
    + injection Hrun as <-. exists d, d. repeat split; auto.
      intros cfg' ty' cls' Hc' Hty' Hcls' Hn'.
      rewrite Hcfgd in Hc'. injection Hc' as <-.
      rewrite Hty in Hty'. injection Hty' as <-.
      rewrite Hcls in Hcls'. injection Hcls' as <-. congruence.
    + unfold mbind, M_bind, get_self, lift, set_self in Hrun.
      rewrite Hdic in Hrun. simpl in Hrun. rewrite Hcfgd in Hrun.
      simpl in Hrun. injection Hrun as <-. simpl.
      eexists d, _. split; [assumption|]. split; [reflexivity|]. split.
      * intros k Hk. apply d_get_set_ne. congruence.
      * intros cfg' ty' cls' Hc' _ _ _. rewrite d_get_set_eq in Hc'.
        injection Hc' as <-. apply d_get_set_eq.
  - injection Hrun as <-. exists d, d. repeat split; auto.
    intros cfg' ty' cls' Hc' Hty' _ _.
    rewrite (Hsame _ Hc') in Ht. destruct cfg'; discriminate.
Qed.

End OneDataset.

Lemma collect_num_classes_reads : reader collect_num_classes.
Proof.
  unfold collect_num_classes.
  repeat (apply reader_bind; [|intros ?]);
    try (apply add_dataset_num_classes_reads;
         auto using train_dataset_class_run, val_dataset_class_run);
    reads;
    apply reader_lift;
    first [apply dataset_config_ends | apply load_component_ends].
Qed.

Lemma collect_num_classes_spec (st st1 : state) (s : list value) :
  collect_num_classes st = (Ok s, st1) ->
  st1 = st
  /\ exists d m,
       dic (self st) = VDict d
       /\ d_get "model" d = Some (VDict m)
       /\ (forall x, In x s -> gives_num_classes d x)
       /\ (forall x,
             gives_num_classes d x ->
             hashable x = true /\ exists y, In y s /\ py_eq x y = true)
       /\ Forall (fun x => hashable x = true) s.
Proof.
  unfold collect_num_classes. intros Hrun.
  apply M_bind_Ok in Hrun as (c & st2 & [= <- <-] & Hrun).
  apply M_bind_Ok in Hrun as (model_cfg & st2 & Hm & Hrun).
  apply lift_Ok in Hm as [Hm ->].
  apply py_getitem_inv in Hm as (d & Hdic & Hmv).
  apply M_bind_Ok in Hrun as (x & st2 & Hx & Hrun).
  apply lift_Ok in Hx as [Hx ->].
  destruct model_cfg as [| | | | | |m|]; try discriminate Hx.
  simpl in Hx. injection Hx as <-.
  apply M_bind_Ok in Hrun as (s0 & st2 & Hs0 & Hrun).
  apply M_bind_Ok in Hrun as (s1 & st3 & Hs1 & Hs2).
  assert (Hmodel : st2 = st
    /\ ((s0 = [] /\ forall x, d_get "num_classes" m = Some x -> x = VNone)
        \/ exists x, d_get "num_classes" m = Some x /\ x <> VNone
               /\ hashable x = true /\ s0 = [x])).
  { clear Hs1 Hs2.
    destruct (d_get "num_classes" m) as [x|] eqn:Hx; simpl in Hs0.
    - destruct x;
        unfold mbind, M_bind, get_self, lift, mret, M_ret in Hs0;
        try (rewrite Hdic in Hs0; simpl in Hs0; rewrite Hmv in Hs0;
             simpl in Hs0; rewrite Hx in Hs0);
        simpl in Hs0; try discriminate;
        injection Hs0 as <- <-; (split; [reflexivity|]);
        solve [ left; split; [reflexivity|]; now intros x [= <-]
              | right; eexists; repeat split; congruence ].
    - injection Hs0 as <- <-. split; [reflexivity|]. left.
      split; [reflexivity|]. discriminate. }
  destruct Hmodel as (-> & Hs0').
  apply (add_dataset_num_classes_facts _ _ train_dataset_class_run) in Hs1
    as (-> & d1 & Hd1 & Ht1 & Ht2 & Ht3).
  apply (add_dataset_num_classes_facts _ _ val_dataset_class_run) in Hs2
    as (-> & d2 & Hd2 & Hv1 & Hv2 & Hv3).
  rewrite Hdic in Hd1, Hd2. injection Hd1 as <-. injection Hd2 as <-.
  split; [reflexivity|]. exists d, m. split; [assumption|].
  split; [exact Hmv|].
  assert (Hall : forall y,
             In y s -> hashable y = true /\ gives_num_classes d y).
  { intros y Hy. destruct (Hv2 y Hy) as [Hy1|(Hh & Hg)].
    - destruct (Ht2 y Hy1) as [Hy0|(Hh & Hg)].
      + destruct Hs0' as [[-> _]|(x & Hx & Hne & Hh & ->)]; [destruct Hy0|].
        destruct Hy0 as [<-|[]]. split; [assumption|]. left. eauto.
      + split; [assumption|]. right. left. assumption.
    - split; [assumption|]. right. right. assumption. }
  split; [intros x Hx; exact (proj2 (Hall x Hx))|]. split.
  - intros x [(m' & Hm' & Hx & Hne)|[Hg|Hg]].
    + rewrite Hmv in Hm'. injection Hm' as <-.
      destruct Hs0' as [[_ Hnone]|(x' & Hx' & _ & Hh & ->)];
        [exfalso; auto|].
      rewrite Hx in Hx'. injection Hx' as <-. split; [assumption|].
      exists x. split; [apply Hv1, Ht1; left; reflexivity|].
      now apply py_eq_refl.
    + destruct (Ht3 x Hg) as (Hh & y & Hy & Heq).
      split; [assumption|]. exists y. auto.
    + exact (Hv3 x Hg).
  - apply List.Forall_forall. intros y Hy. exact (proj1 (Hall y Hy)).
Qed.

Lemma write_model_num_classes_post (n : value) (st st' : state) :
  write_model_num_classes n st = (Ok tt, st') ->
  exists d m,
    dic (self st) = VDict d
    /\ d_get "model" d = Some (VDict m)
    /\ dic (self st')
       = VDict (d_set "model" (VDict (d_set "num_classes" n m)) d).
Proof.
  unfold write_model_num_classes, mbind, M_bind, get_self, lift, set_self.
  destruct (dic (self st)) as [| | | | | |d|] eqn:Hdic; simpl;
    try (intros [=]; fail).
  destruct (d_get "model" d) as [[| | | | | |m|]|] eqn:Hm; simpl;
    try (intros [=]; fail).
  intros [= <-]. eauto.
Qed.

Lemma check_sync_num_classes_post (st st' : state) :
  _check_sync_num_classes st = (Ok tt, st') ->
  exists d d' m' n,
    dic (self st) = VDict d
    /\ dic (self st') = VDict d'
    /\ d_get "model" d' = Some (VDict m')
    /\ d_get "num_classes" m' = Some n
    /\ (forall name cfg ty cls,
          name = "train_dataset" \/ name = "val_dataset" ->
          d_get name d' = Some (VDict cfg) ->
          d_get "type" cfg = Some ty ->
          _load_component ty = Ok cls ->
          NUM_CLASSES cls = None ->
          d_get "num_classes" cfg = Some n)
    /\ gives_num_classes d n
    /\ (forall x, gives_num_classes d x -> py_eq x n = true).
Proof.
  unfold _check_sync_num_classes. intros Hrun.
  apply M_bind_Ok in Hrun as (s & st1 & Hs & Hrun).
  apply collect_num_classes_spec in Hs
    as (-> & d & m & Hdic & Hm & Hin & Hgives & Hhash).
  destruct s as [|n [|n' s]]; try discriminate Hrun. simpl in Hrun.
  apply M_bind_Ok in Hrun as ([] & sta & Hwm & Hrun).
  apply M_bind_Ok in Hrun as ([] & stb & Hwt & Hwv).
  apply write_model_num_classes_post in Hwm as (d0 & m0 & Hd0 & Hm0 & Hda).
  apply (write_dataset_num_classes_post _ _ train_dataset_class_run) in Hwt
    as (da & db & Hda' & Hdb & Hft & Ht).
  apply (write_dataset_num_classes_post _ _ val_dataset_class_run) in Hwv
    as (db' & d' & Hdb' & Hd' & Hfv & Hv).
  rewrite Hdic in Hd0. injection Hd0 as <-.
  rewrite Hda in Hda'. injection Hda' as <-.
  rewrite Hdb in Hdb'. injection Hdb' as <-.
  eexists d, d', _, n. split; [assumption|]. split; [assumption|]. split.
  { rewrite Hfv, Hft by discriminate. apply d_get_set_eq. }
  split; [apply d_get_set_eq|]. split.
  { intros name cfg ty cls [-> | ->] Hcfg Hty Hcls Hn.
    - rewrite Hfv in Hcfg by discriminate. eauto.
    - eauto. }
  split.
  - apply Hin. left. reflexivity.
  - intros x Hx. destruct (Hgives x Hx) as (_ & y & [<-|[]] & Heq).
    exact Heq.
Qed.

(** X16. When [_check_sync_num_classes] returns, the configuration is
    consistent: the model holds a number of classes [n], every dataset
    whose class has no [NUM_CLASSES] holds the same [n] under
    [num_classes], the configuration gave [n] before the call, and [n]
    equals every number it gave. *)
Theorem num_classes_synced (st st' : state) :
  _check_sync_num_classes st = (Ok tt, st') ->
  exists d d' m' n,
    dic (self st) = VDict d
    /\ dic (self st') = VDict d'
    /\ d_get "model" d' = Some (VDict m')
    /\ d_get "num_classes" m' = Some n
    /\ (forall name cfg ty cls,
          name = "train_dataset" \/ name = "val_dataset" ->
          d_get name d' = Some (VDict cfg) ->
          d_get "type" cfg = Some ty ->
          _load_component ty = Ok cls ->
          NUM_CLASSES cls = None ->
          d_get "num_classes" cfg = Some n)
    /\ gives_num_classes d n
    /\ (forall x, gives_num_classes d x -> py_eq x n = true).
Proof. apply check_sync_num_classes_post. Qed.

(** X17. A configuration that gives no number of classes at all, or two
    that differ, makes [_check_sync_num_classes] raise, and stays as it
    was. *)
Theorem num_classes_refused (st : state) (d : dict) :
  dic (self st) = VDict d ->
  (forall x, ~ gives_num_classes d x)
  \/ (exists x y,
         gives_num_classes d x /\ gives_num_classes d y
         /\ py_eq x y = false) ->
  exists e, _check_sync_num_classes st = (Raise e, st).
Proof.
  intros Hdic Hbad. unfold _check_sync_num_classes, mbind, M_bind.
  destruct (collect_num_classes_reads st) as ([s|e|] & Hs & Hr).
  - rewrite Hs. exists ValueError.
    apply collect_num_classes_spec in Hs
      as (_ & d0 & m & Hd0 & _ & Hin & Hgives & Hhash).
    rewrite Hdic in Hd0. injection Hd0 as <-.
    destruct s as [|c [|c' s]]; try reflexivity. exfalso.
    destruct Hbad as [Hnone|(x & y & Hx & Hy & Hne)].
    + apply (Hnone c). apply Hin. left. reflexivity.
    + destruct (Hgives x Hx) as (Hhx & x' & [<-|[]] & Hex).
      destruct (Hgives y Hy) as (Hhy & y' & [<-|[]] & Hey).
      inversion Hhash as [|? ? Hhc _]; subst.
      rewrite (py_eq_close x y c) in Hne by assumption. discriminate.
  - rewrite Hs. eauto.
  - now destruct Hr.
Qed.

End NumClasses.

Section NumClassesRuns.
#[local] Existing Instance Sample.registry.
#[local] Existing Instance Sample.class_attrs.

Lemma num_classes_synced_witness :
  let st := Sample.fresh_state
              (VDict [("model", VDict [("type", VStr "UNet")]);
                      ("train_dataset",
                        VDict [("type", VStr "Dataset");
                               ("num_classes", VInt 4)]);
                      ("val_dataset", VDict [("type", VStr "Dataset")])]) in
  exists st',
    _check_sync_num_classes st = (Ok tt, st')
    /\ exists d d' m' n,
         dic (self st) = VDict d
         /\ dic (self st') = VDict d'
         /\ d_get "model" d' = Some (VDict m')
         /\ d_get "num_classes" m' = Some n
         /\ (forall name cfg ty cls,
               name = "train_dataset" \/ name = "val_dataset" ->
               d_get name d' = Some (VDict cfg) ->
               d_get "type" cfg = Some ty ->
               _load_component ty = Ok cls ->
               NUM_CLASSES cls = None ->
               d_get "num_classes" cfg = Some n)
         /\ gives_num_classes d n
         /\ (forall x, gives_num_classes d x -> py_eq x n = true).
Proof.
  intros st. destruct (_check_sync_num_classes st) as [r st'] eqn:Hrun.
  assert (Hr : r = Ok tt)
    by (vm_compute in Hrun; injection Hrun as <- _; reflexivity).
  subst r. exists st'. split; [reflexivity|].
  apply (num_classes_synced st st' Hrun).
Defined.

Lemma num_classes_refused_witness :
  let d := [("model", VDict [("type", VStr "UNet"); ("num_classes", VInt 2)]);
            ("val_dataset",
              VDict [("type", VStr "Dataset"); ("num_classes", VInt 19)])] in
  exists e,
    _check_sync_num_classes (Sample.fresh_state (VDict d))
    = (Raise e, Sample.fresh_state (VDict d)).
Proof.
  intros d.
  apply (num_classes_refused (Sample.fresh_state (VDict d)) d eq_refl).
  right. exists (VInt 2), (VInt 19). split; [|split; [|reflexivity]].
  - left. exists [("type", VStr "UNet"); ("num_classes", VInt 2)].
    split; [reflexivity|]. split; [reflexivity|discriminate].
  - right. right.
    exists [("type", VStr "Dataset"); ("num_classes", VInt 19)],
      (VStr "Dataset"), Sample.dataset_class.
    split; [reflexivity|]. split; [reflexivity|].
    split; [vm_compute; reflexivity|]. reflexivity.
Defined.

End NumClassesRuns.

(** *** The two checks together *)

Section SyncInfo.
Context `{Manager} `{ClassAttrs}.

(** X18. When [check_sync_info] returns, both agreements hold of the one
    configuration it leaves: the model holds a number of classes [n] and
    a number of input channels [ch], a dataset of type [Dataset] holds
    [ch] under [img_channels], and a dataset whose class has no
    [NUM_CLASSES] holds [n] under [num_classes]. The second check does
    not undo what the first has written. *)
Theorem check_sync_info_synced (st st' : state) :
  check_sync_info st = (Ok tt, st') ->
  exists d' m' n ch,
    dic (self st') = VDict d'
    /\ d_get "model" d' = Some (VDict m')
    /\ d_get "num_classes" m' = Some n
    /\ model_channels m' = Some ch
    /\ forall name cfg,
         name = "train_dataset" \/ name = "val_dataset" ->
         d_get name d' = Some (VDict cfg) ->
         (d_get "type" cfg = Some (VStr "Dataset") ->
          d_get "img_channels" cfg = Some ch)
         /\ (forall ty cls,
               d_get "type" cfg = Some ty ->
               _load_component ty = Ok cls ->
               NUM_CLASSES cls = None ->
               d_get "num_classes" cfg = Some n).
Proof.
  unfold check_sync_info. intros Hrun.
  apply M_bind_Ok in Hrun as ([] & st1 & Hnum & Himg).
  apply check_sync_num_classes_post in Hnum
    as (d & d1 & m1 & n & _ & Hd1 & Hm1 & Hn & Hdata & _).
  pose proof (check_sync_img_channels_frame _ _ Himg)
    as (_ & d1' & d' & Hd1' & Hd' & _ & Hmodel & Htrain & Hval).
  apply check_sync_img_channels_post in Himg
    as (d1'' & d'' & m' & ch & _ & Hd'' & Hm' & Hch & Hchan & _).
  rewrite Hd1 in Hd1'. injection Hd1' as <-.
  rewrite Hd' in Hd''. injection Hd'' as <-.
  exists d', m', n, ch. split; [assumption|]. split; [assumption|]. split.
  { destruct Hmodel as (m & m'' & Hm & Hm'' & Hkeep & _).
    rewrite Hm1 in Hm. injection Hm as <-.
    rewrite Hm' in Hm''. injection Hm'' as <-.
    rewrite Hkeep; [assumption|]. simpl. intuition discriminate. }
  split; [assumption|].
  intros name cfg Hname Hcfg. split; [eauto|].
  intros ty cls Hty Hcls Hnone.
  assert (Hdiff : differs_only_at ["img_channels"]
                    (d_get name d1) (d_get name d'))
    by (destruct Hname as [-> | ->]; assumption).
  destruct Hdiff as [Heq|(c & c' & Hc & Hc' & Hkeep)].
  - rewrite Heq in Hcfg. eauto.
  - rewrite Hcfg in Hc'. injection Hc' as <-.
    rewrite Hkeep by (simpl; intuition discriminate).
    apply (Hdata name c ty cls Hname Hc); try assumption.
    rewrite <- Hkeep by (simpl; intuition discriminate). assumption.
Qed.

End SyncInfo.

Section SyncInfoRuns.
#[local] Existing Instance Sample.registry.
#[local] Existing Instance Sample.class_attrs.

Lemma check_sync_info_synced_witness :
  let st := Sample.fresh_state
              (VDict [("model",
                        VDict [("type", VStr "UNet");
                               ("backbone", VDict [("type", VStr "ResNet")])]);
                      ("train_dataset",
                        VDict [("type", VStr "Dataset");
                               ("num_classes", VInt 4)]);
                      ("val_dataset", VDict [("type", VStr "Dataset")])]) in
  exists st' d' m',
    check_sync_info st = (Ok tt, st')
    /\ dic (self st') = VDict d'
    /\ d_get "model" d' = Some (VDict m')
    /\ exists n ch,
         d_get "num_classes" m' = Some n /\ model_channels m' = Some ch.
Proof.
  intros st. destruct (check_sync_info st) as [r st'] eqn:Hrun.
  assert (Hr : r = Ok tt)
    by (vm_compute in Hrun; injection Hrun as <- _; reflexivity).
  subst r.
  destruct (check_sync_info_synced st st' Hrun)
    as (d' & m' & n & ch & Hd' & Hm' & Hn & Hch & _).
  exists st', d', m'. eauto 10.
Defined.

End SyncInfoRuns.


(** ** The arguments of the optimizer and of the decay *)

Section Args.

#[local] Arguments iters : simpl never.
#[local] Arguments d_setdefault : simpl never.

Lemma d_get_setdefault_eq (k : string) (v : value) (d : dict) :
  d_get k (d_setdefault k v d) = Some (default v (d_get k d)).
Proof.
  unfold d_setdefault, d_mem. destruct (d_get k d) eqn:Hk; simpl.
  - assumption.
  - apply d_get_set_eq.
Qed.

(** X19. [optimizer_args] fails with [KeyError] when the configuration
    has no [optimizer] section. Otherwise it returns the section as it
    is, except that for the optimizer [sgd] a [momentum] of 0.9 is added
    where the section has none; the configuration itself is not
    changed. *)
Theorem optimizer_args_spec (st : state) (d : dict) :
  dic (self st) = VDict d ->
  (d_get "optimizer" d = None -> optimizer_args st = (Raise KeyError, st))
  /\ (forall o ty,
        d_get "optimizer" d = Some (VDict o) ->
        d_get "type" o = Some ty ->
        exists a,
          optimizer_args st = (Ok (VDict a), st)
          /\ (forall k, k <> "momentum" -> d_get k a = d_get k o)
          /\ d_get "momentum" a
             = if py_eq ty (VStr "sgd")
               then Some (default (VFloat (9 # 10)) (d_get "momentum" o))
               else d_get "momentum" o).
Proof.
  intros Hdic. split.
  - intros Hnone.
    unfold optimizer_args, mbind, M_bind, get_self, lift.
    rewrite Hdic. simpl. rewrite Hnone. reflexivity.
  - intros o ty Ho Hty.
    unfold optimizer_args, mbind, M_bind, get_self, lift.
    rewrite Hdic. simpl. rewrite Ho. simpl. rewrite Hty.
    destruct (py_eq ty (VStr "sgd")).
    + eexists. split; [reflexivity|]. split.
      * intros k Hk. now apply d_get_setdefault_ne.
      * apply d_get_setdefault_eq.
    + exists o. auto.
Qed.

(** X20. [decay_args] for the decay type [poly], which is also the one
    it takes when the configuration names none: the number of iterations
    is read first, so without [iters] the call fails with
    [RuntimeError], even where [decay_steps] is given; with it, the
    arguments are those of the configuration, with [decay_steps] set to
    the number of iterations and [end_lr] to 0 where they are
    missing. *)
Theorem decay_args_poly (st : state) (d a : dict) :
  dic (self st) = VDict d ->
  decay_section d a ->
  d_get "type" a = Some (VStr "poly") ->
  let it := default VNone (d_get "iters" d) in
  if truthy (heap (env st)) it
  then exists r,
         decay_args st = (Ok (VDict r), st)
         /\ d_get "decay_steps" r = Some (default it (d_get "decay_steps" a))
         /\ d_get "end_lr" r = Some (default (VInt 0) (d_get "end_lr" a))
         /\ forall k,
              k <> "decay_steps" -> k <> "end_lr" -> d_get k r = d_get k a
  else decay_args st = (Raise RuntimeError, st).
Proof.
  intros Hdic Hsec Hty it.
  assert (Hrun : decay_args st
    = (if truthy (heap (env st)) it
       then Ok (VDict (d_setdefault "end_lr" (VInt 0)
                         (d_setdefault "decay_steps" it a)))
       else Raise RuntimeError, st)).
  { assert (Hit : iters st
      = (if truthy (heap (env st)) it then Ok it else Raise RuntimeError,
         st)).
    { unfold iters, py_bool, mbind, M_bind, get_self, lift, raise.
      rewrite Hdic. cbn [py_get]. fold it.
      destruct (truthy (heap (env st)) it); reflexivity. }
    unfold decay_args, mbind, M_bind, get_self, lift, raise.
    rewrite Hdic. cbn [py_get].
    destruct Hsec as [[Hlr ->]|(lr & Hlr & [[Hd ->]|Hd])];
      rewrite Hlr; simpl; try rewrite Hd; simpl; try rewrite Hty; simpl;
      rewrite Hit; destruct (truthy (heap (env st)) it); reflexivity. }
  rewrite Hrun. destruct (truthy (heap (env st)) it); [|reflexivity].
  eexists. split; [reflexivity|]. split; [|split].
  - rewrite d_get_setdefault_ne by discriminate.
    apply d_get_setdefault_eq.
  - rewrite d_get_setdefault_eq.
    now rewrite d_get_setdefault_ne by discriminate.
  - intros k Hk1 Hk2. now rewrite !d_get_setdefault_ne by congruence.
Qed.

End Args.

Section ArgsRuns.

Lemma optimizer_args_spec_witness :
  let o := [("type", VStr "sgd"); ("weight_decay", VFloat (1 # 100))] in
  optimizer_args (Sample.fresh_state (VDict [("iters", VInt 100)]))
  = (Raise KeyError, Sample.fresh_state (VDict [("iters", VInt 100)]))
  /\ exists a,
       optimizer_args (Sample.fresh_state (VDict [("optimizer", VDict o)]))
       = (Ok (VDict a), Sample.fresh_state (VDict [("optimizer", VDict o)]))
       /\ d_get "momentum" a = Some (VFloat (9 # 10)).
Proof.
  intros o. split.
  - apply (optimizer_args_spec
             (Sample.fresh_state (VDict [("iters", VInt 100)]))
             [("iters", VInt 100)] eq_refl).
    reflexivity.
  - destruct (optimizer_args_spec
                (Sample.fresh_state (VDict [("optimizer", VDict o)]))
                [("optimizer", VDict o)] eq_refl) as [_ Hsome].
    destruct (Hsome o (VStr "sgd") eq_refl eq_refl) as (a & Hrun & _ & Hm).
    exists a. split; [exact Hrun|exact Hm].
Defined.

Lemma decay_args_poly_witness :
  let a := [("type", VStr "poly"); ("decay_steps", VInt 5)] in
  let d := [("learning_rate",
              VDict [("value", VFloat (1 # 100)); ("decay", VDict a)])] in
  decay_args (Sample.fresh_state (VDict d))
  = (Raise RuntimeError, Sample.fresh_state (VDict d)).
Proof.
  intros a d.
  apply (decay_args_poly (Sample.fresh_state (VDict d)) d a eq_refl).
  - right. eexists. split; [reflexivity|]. right. reflexivity.
  - reflexivity.
Defined.

End ArgsRuns.

End ConfigMore.


(* ===================================================================== *)
(** * Further properties of centernet_head.py                             *)
(* ===================================================================== *)

Module CenterNetHeadMore.

Import CenterNetHead CenterNetHeadSpec.

Tactic Notation "inv_bind" hyp(H) "as" ident(a) ident(Ha) :=
  cbv beta zeta in H; apply res_bind_Ok' in H as (a & Ha & H).

Section Head.
Context `{Paddle}.

(** X21. [get_loss] reads six entries of the ground truth, and four
    weights, and nothing else: two calls whose ground truths agree on
    [heatmap], [index], [index_mask], [size], [bbox_xys] and [offset],
    and whose weights agree on [heatmap], [size], [offset] and [iou],
    end the same way. *)
Theorem get_loss_reads_only (self : head) (inputs inputs' : gmap string Tensor)
    (weights weights' : gmap string Q) (heatmap size offset : Tensor)
    (iou : option Tensor) :
  (forall k,
      In k ["heatmap"; "index"; "index_mask"; "size"; "bbox_xys"; "offset"] ->
      inputs' !! k = inputs !! k) ->
  (forall k,
      In k ["heatmap"; "size"; "offset"; "iou"] ->
      weights' !! k = weights !! k) ->
  get_loss self inputs' weights' heatmap size offset iou
  = get_loss self inputs weights heatmap size offset iou.
Proof.
  intros Hin Hw. unfold get_loss, getitem.
  rewrite !(Hin "heatmap"), !(Hin "index"), !(Hin "index_mask"),
    !(Hin "size"), !(Hin "bbox_xys"), !(Hin "offset") by (simpl; tauto).
  rewrite !(Hw "heatmap"), !(Hw "size"), !(Hw "offset"), !(Hw "iou")
    by (simpl; tauto).
  reflexivity.
Qed.

(** X22. Which ground-truth boxes the size loss is taken against depends
    on [size_loss] alone: with [L1], and no IoU prediction, [bbox_xys]
    is never read, so taking it away changes nothing; with [giou] the
    same holds of [size]. *)
Theorem size_target_by_size_loss (self : head)
    (inputs : gmap string Tensor) (weights : gmap string Q)
    (heatmap size offset : Tensor) (iou : option Tensor) :
  (size_loss self = "L1" ->
   get_loss self (delete "bbox_xys" inputs) weights heatmap size offset None
   = get_loss self inputs weights heatmap size offset None)
  /\ (size_loss self = "giou" ->
      get_loss self (delete "size" inputs) weights heatmap size offset iou
      = get_loss self inputs weights heatmap size offset iou).
Proof.
  split; intros Hsl; unfold get_loss, getitem; rewrite Hsl;
    simpl (String.eqb _ _); rewrite !lookup_delete_ne by discriminate;
    reflexivity.
Qed.

(** X23. The dictionary [get_loss] returns has the keys [heatmap_loss],
    [size_loss], [offset_loss] and [det_loss], with [iou_loss] when it
    was given an IoU prediction, and no others. *)
Theorem get_loss_keys (self : head) (inputs : gmap string Tensor)
    (weights : gmap string Q) (heatmap size offset : Tensor)
    (iou : option Tensor) (losses : gmap string Tensor) :
  get_loss self inputs weights heatmap size offset iou = Ok losses ->
  dom losses
  = {[ "heatmap_loss"; "size_loss"; "offset_loss"; "det_loss" ]}
    ∪ (match iou with Some _ => {[ "iou_loss" ]} | None => ∅ end).
Proof.
  intros Hrun.
  apply get_loss_Ok in Hrun
    as (hl & sl & ol & wh & ws & wo & _ & _ & _ & _ & Hlosses).
  cbv zeta in Hlosses. destruct iou as [t|].
  - destruct Hlosses as (il & wi & _ & ->).
    rewrite !dom_insert_L, dom_empty_L. set_solver.
  - subst losses. rewrite !dom_insert_L, dom_empty_L. set_solver.
Qed.

Lemma unpack4_Ok (s : list Z) (r : Z * Z * Z * Z) :
  unpack4 s = Ok r -> List.length s = 4%nat.
Proof.
  destruct s as [|a [|b [|c [|d [|e s]]]]]; simpl; intros Hr;
    try discriminate; reflexivity.
Qed.

(** X24. What a call of [get_loss] that returns was given: the ground
    truth has [heatmap], [index], [index_mask] and [offset]; the size and
    the offset predictions have four dimensions; the ground truth has
    [size] when the size loss is [L1], and [bbox_xys] when the size loss
    is [giou] or there is an IoU prediction, which then has four
    dimensions too. *)
Theorem get_loss_needs (self : head) (inputs : gmap string Tensor)
    (weights : gmap string Q) (heatmap size offset : Tensor)
    (iou : option Tensor) (losses : gmap string Tensor) :
  get_loss self inputs weights heatmap size offset iou = Ok losses ->
  (forall k,
      In k ["heatmap"; "index"; "index_mask"; "offset"] ->
      is_Some (inputs !! k))
  /\ List.length (shape (transpose size [0; 2; 3; 1]%Z)) = 4%nat
  /\ List.length (shape (transpose offset [0; 2; 3; 1]%Z)) = 4%nat
  /\ (size_loss self = "L1" -> is_Some (inputs !! "size"))
  /\ (size_loss self = "giou" -> is_Some (inputs !! "bbox_xys"))
  /\ (forall t,
        iou = Some t ->
        is_Some (inputs !! "bbox_xys")
        /\ List.length (shape (transpose t [0; 2; 3; 1]%Z)) = 4%nat).
Proof.
  unfold get_loss. intros Hrun.
  inv_bind Hrun as heatmap_target Hht.
  inv_bind Hrun as index Hindex.
  inv_bind Hrun as mask Hmask.
  inv_bind Hrun as dims Hdims.
  destruct dims as [[[size_n size_h] size_w] size_c].
  inv_bind Hrun as batch_inds Hbatch.
  inv_bind Hrun as sl_var Hsl.
  inv_bind Hrun as offset_target Hot.
  inv_bind Hrun as odims Hodims.
  destruct odims as [[[offset_n offset_h] offset_w] offset_c].
  inv_bind Hrun as il_var Hil.
  clear Hrun.
  apply getitem_Ok in Hht, Hindex, Hmask, Hot.
  apply unpack4_Ok in Hdims, Hodims.
  split.
  { intros k Hk. simpl in Hk.
    destruct Hk as [<-|[<-|[<-|[<-|[]]]]]; eauto. }
  split; [assumption|]. split; [assumption|]. split; [|split].
  - intros HL1. rewrite HL1 in Hsl. simpl (String.eqb _ _) in Hsl.
    inv_bind Hsl as size_target Hst.
    destruct (regress_ltrb self).
    + apply getitem_Ok in Hst. eauto.
    + inv_bind Hst as s Hs. apply getitem_Ok in Hs. eauto.
  - intros Hgiou. rewrite Hgiou in Hsl. simpl (String.eqb _ _) in Hsl.
    inv_bind Hsl as size_target Hst. apply getitem_Ok in Hst. eauto.
  - intros t Ht. subst iou.
    inv_bind Hil as idims Hidims.
    destruct idims as [[[iou_n iou_h] iou_w] iou_c].
    inv_bind Hil as gt Hgt.
    apply getitem_Ok in Hgt. apply unpack4_Ok in Hidims. eauto.
Qed.

End Head.

Section HeadRuns.
#[local] Existing Instance Sample.scalar_paddle.

Lemma get_loss_reads_only_witness :
  let self := __init__ 64 80 256 1 true (1 # 10) "L1" 1 0 in
  get_loss self (<["gt_bbox" := 7%Q]> Sample.sample_inputs)
    (<["aux" := 3%Q]> (weights self)) 1%Q 1%Q 1%Q None
  = get_loss self Sample.sample_inputs (weights self) 1%Q 1%Q 1%Q None.
Proof.
  intros self.
  apply (@get_loss_reads_only Sample.scalar_paddle self Sample.sample_inputs
           (<["gt_bbox" := 7%Q]> Sample.sample_inputs) (weights self)
           (<["aux" := 3%Q]> (weights self)) 1%Q 1%Q 1%Q None).
  - intros k Hk. apply lookup_insert_ne. simpl in Hk.
    intuition (subst; discriminate).
  - intros k Hk. apply lookup_insert_ne. simpl in Hk.
    intuition (subst; discriminate).
Defined.

Lemma size_target_by_size_loss_witness :
  let l1 := __init__ 64 80 256 1 true (1 # 10) "L1" 1 0 in
  let giou := __init__ 64 80 256 1 true (1 # 10) "giou" 1 0 in
  get_loss l1 (delete "bbox_xys" Sample.sample_inputs) (weights l1)
    1%Q 1%Q 1%Q None
  = get_loss l1 Sample.sample_inputs (weights l1) 1%Q 1%Q 1%Q None
  /\ get_loss giou (delete "size" Sample.sample_inputs) (weights giou)
       1%Q 1%Q 1%Q (Some 1%Q)
     = get_loss giou Sample.sample_inputs (weights giou) 1%Q 1%Q 1%Q
         (Some 1%Q).
Proof.
  intros l1 giou. split.
  - apply (@size_target_by_size_loss Sample.scalar_paddle l1
             Sample.sample_inputs (weights l1) 1%Q 1%Q 1%Q None).
    reflexivity.
  - apply (@size_target_by_size_loss Sample.scalar_paddle giou
             Sample.sample_inputs (weights giou) 1%Q 1%Q 1%Q (Some 1%Q)).
    reflexivity.
Defined.

Lemma get_loss_keys_witness :
  let self := __init__ 64 80 256 1 true (1 # 10) "giou" 1 (1 # 2) in
  exists losses,
    get_loss self Sample.sample_inputs (weights self) 1%Q 1%Q 1%Q (Some 1%Q)
    = Ok losses
    /\ dom losses
       = {[ "heatmap_loss"; "size_loss"; "offset_loss"; "det_loss" ]}
         ∪ {[ "iou_loss" ]}.
Proof.
  intros self.
  destruct (get_loss self Sample.sample_inputs (weights self) 1%Q 1%Q 1%Q
              (Some 1%Q)) as [losses| |] eqn:Hrun;
    try (vm_compute in Hrun; discriminate).
  exists losses. split; [reflexivity|].
  apply (@get_loss_keys Sample.scalar_paddle self Sample.sample_inputs
           (weights self) 1%Q 1%Q 1%Q (Some 1%Q) losses Hrun).
Defined.

Lemma get_loss_needs_witness :
  let self := __init__ 64 80 256 1 true (1 # 10) "L1" 1 0 in
  exists losses,
    get_loss self Sample.sample_inputs (weights self) 1%Q 1%Q 1%Q None
    = Ok losses
    /\ is_Some (Sample.sample_inputs !! "size").
Proof.
  intros self.
  destruct (get_loss self Sample.sample_inputs (weights self) 1%Q 1%Q 1%Q
              None) as [losses| |] eqn:Hrun;
    try (vm_compute in Hrun; discriminate).
  exists losses. split; [reflexivity|].
  destruct (@get_loss_needs Sample.scalar_paddle self Sample.sample_inputs
              (weights self) 1%Q 1%Q 1%Q None losses Hrun)
    as (_ & _ & _ & Hsize & _).
  apply Hsize. reflexivity.
Defined.

End HeadRuns.

End CenterNetHeadMore.
